(** * Verification of the [date] package (Hunsin/date)

    A shallow embedding of the Go package [date]: the calendar value
    [Date{Year, Month, Day}], its comparisons, its text and database
    adapters and its day difference.  Go [int]s are integers of [Z], and
    where the code computes on them in 64 bits, in [time.Date] and in
    [Time.Sub], the wrap-around is written out; strings and byte slices
    are sequences of 8-bit characters; a method with a pointer receiver
    takes the receiver's value and returns the new one next to its error.

    The package leans on Go's standard library ([fmt.Sprintf],
    [time.Parse], [time.Date], [Time.Sub], [Duration.Hours]).  Modules
    [fmt] and [time] below embed the parts of it that the package
    reaches, following the library's own source. *)

From Stdlib Require Import ZArith List Bool Lia.
From Stdlib Require Import Strings.Ascii Strings.String.
From Stdlib Require Import Floats.SpecFloat.
Import ListNotations.

Open Scope string_scope.
Open Scope Z_scope.

(** ** Bytes and strings *)

(** A Go [[]byte]. *)
Definition bytes := list ascii.

(** [string(b)] and [[]byte(s)]. *)
Definition string_of_bytes (b : bytes) : string := string_of_list_ascii b.
Definition bytes_of_string (s : string) : bytes := list_ascii_of_string s.

(** The code point of a byte, and back. *)
Definition byte_val (c : ascii) : Z := Z.of_nat (nat_of_ascii c).
Definition byte_of (n : Z) : ascii := ascii_of_nat (Z.to_nat n).

(** [n] copies of the byte [c]. *)
Fixpoint repeat_byte (c : ascii) (n : nat) : string :=
  match n with
  | O => EmptyString
  | S k => String c (repeat_byte c k)
  end.

(** ** Package fmt: the verb [%d] with a width and the [0] flag *)

Module fmt.

(** The loop of [fmtInteger] that writes the decimal digits of [u >= 0]
    right to left in front of [acc]; [fuel] bounds the digit count. *)
Fixpoint digits_loop (fuel : nat) (u : Z) (acc : string) : string :=
  match fuel with
  | O => String (byte_of (48 + u)) acc
  | S k =>
      if u <? 10 then String (byte_of (48 + u)) acc
      else digits_loop k (u / 10) (String (byte_of (48 + u mod 10)) acc)
  end.

(** The decimal digits of [u >= 0]. *)
Definition digits (u : Z) : string :=
  digits_loop (Z.to_nat (Z.log2 u)) u EmptyString.

(** [fmtInteger] in base 10 for a signed operand, with width [wid] and the
    zero flag [zero]: with the flag the width becomes a precision (less one
    for the sign), the remaining padding is made of spaces on the left. *)
Definition fmtInteger (wid : nat) (zero : bool) (n : Z) : string :=
  let negative := n <? 0 in
  let ds := digits (Z.abs n) in
  let prec := if zero then (if negative then Nat.pred wid else wid) else O in
  let body := repeat_byte "0" (prec - String.length ds) ++ ds in
  let signed := if negative then String "-" body else body in
  repeat_byte " " (wid - String.length signed) ++ signed.

(** [Sprintf("%4d-%02d-%02d", a, b, c)]. *)
Definition Sprintf_4d_02d_02d (a b c : Z) : string :=
  fmtInteger 4 false a ++ "-" ++ fmtInteger 2 true b ++ "-" ++ fmtInteger 2 true c.

End fmt.

(** ** Package time *)

Module time.

(** *** Calendar constants *)

Definition Month := Z.

Definition January : Month := 1.
Definition February : Month := 2.
Definition March : Month := 3.
Definition April : Month := 4.
Definition May : Month := 5.
Definition June : Month := 6.
Definition July : Month := 7.
Definition August : Month := 8.
Definition September : Month := 9.
Definition October : Month := 10.
Definition November : Month := 11.
Definition December : Month := 12.

Definition secondsPerMinute := 60.
Definition secondsPerHour := 60 * secondsPerMinute.
Definition secondsPerDay := 24 * secondsPerHour.
Definition daysPer400Years := 365 * 400 + 97.
Definition daysPer100Years := 365 * 100 + 24.
Definition daysPer4Years := 365 * 4 + 1.

(** The absolute zero year is a multiple of 400 years before year 1, early
    enough for every representable instant to be after it. *)
Definition absoluteZeroYear := -292277022399.
Definition internalYear := 1.
(** The seconds of the years between the two, 365.2425 days each. *)
Definition absoluteToInternal :=
  (absoluteZeroYear - internalYear) / 400 * daysPer400Years * secondsPerDay.
Definition internalToAbsolute := - absoluteToInternal.
Definition unixToInternal :=
  (1969 * 365 + 1969 / 4 - 1969 / 100 + 1969 / 400) * secondsPerDay.
Definition internalToUnix := - unixToInternal.

(** [daysBefore[m]]: the days of a non-leap year before month [m+1]
    begins, with a last entry for the whole year. *)
Definition daysBefore : list Z :=
  [0; 31; 59; 90; 120; 151; 181; 212; 243; 273; 304; 334; 365].

(** [daysBefore[i]]. *)
Definition daysBefore_at (i : Z) : Z := nth (Z.to_nat i) daysBefore 0.

(** [isLeap(year)] and [daysIn(m, year)]. *)
Definition isLeap (year : Z) : bool :=
  (Z.rem year 4 =? 0) && (negb (Z.rem year 100 =? 0) || (Z.rem year 400 =? 0)).

Definition daysIn (m : Month) (year : Z) : Z :=
  if (m =? February) && isLeap year then 29
  else daysBefore_at m - daysBefore_at (m - 1).

(** *** Integers of 64 bits *)

(** The value that 64 bits in two's complement hold of [x]: an [int] or
    [int64] after an operation whose exact result is [x]. *)
Definition wrap64 (x : Z) : Z := (x + 2 ^ 63) mod 2 ^ 64 - 2 ^ 63.

(** The value that 64 bits without a sign hold of [x]: a [uint64]. *)
Definition uint64 (x : Z) : Z := x mod 2 ^ 64.

(** *** Instants *)

(** A location gives, for an instant in Unix seconds, the offset east of
    UTC in force and the Unix seconds between which it is in force. *)
Record Location := { lookup_zone : Z -> Z * Z * Z }.

(** The first and the last instant of a zone that is always in force. *)
Definition alpha := - 2 ^ 63.
Definition omega := 2 ^ 63 - 1.

Definition UTC : Location := {| lookup_zone := fun _ => (0, alpha, omega) |}.

(** An instant: the seconds elapsed since January 1 of year 1, 00:00:00
    UTC, the nanoseconds within the second, and a location.  The seconds
    are a signed count of 64 bits: what is stored in the field has gone
    through [wrap64]. *)
Record Time := { sec : Z; nsec : Z; loc : Location }.

(** [Time{}]. *)
Definition zeroTime : Time := {| sec := 0; nsec := 0; loc := UTC |}.

(** [t.unixSec()] and [unixTime(sec, nsec)]. *)
Definition unixSec (t : Time) : Z := wrap64 (sec t + internalToUnix).

Definition unixTime (s : Z) (ns : Z) (l : Location) : Time :=
  {| sec := wrap64 (s + unixToInternal); nsec := ns; loc := l |}.

(** [norm(hi, lo, base)]: [lo] brought into [0, base), the carry moved
    into [hi]; the operands are [int]s. *)
Definition norm (hi lo base : Z) : Z * Z :=
  let '(hi, lo) :=
    if lo <? 0 then
      let n := wrap64 (Z.quot (wrap64 (wrap64 (- lo) - 1)) base + 1) in
      (wrap64 (hi - n), wrap64 (lo + wrap64 (n * base)))
    else (hi, lo) in
  if lo >=? base then
    let n := Z.quot lo base in
    (wrap64 (hi + n), wrap64 (lo - wrap64 (n * base)))
  else (hi, lo).

(** Days from January 1 of the absolute zero year to January 1 of [year],
    counted in a [uint64]. *)
Definition daysSinceEpoch (year : Z) : Z :=
  let y := uint64 (wrap64 (year - absoluteZeroYear)) in
  let n := y / 400 in
  let y := uint64 (y - uint64 (400 * n)) in
  let d := uint64 (daysPer400Years * n) in
  let n := y / 100 in
  let y := uint64 (y - uint64 (100 * n)) in
  let d := uint64 (d + uint64 (daysPer100Years * n)) in
  let n := y / 4 in
  let y := uint64 (y - uint64 (4 * n)) in
  let d := uint64 (d + uint64 (daysPer4Years * n)) in
  let n := y in
  uint64 (d + uint64 (365 * n)).

(** [time.Date]: the instant of a civil date and clock time in [l];
    fields out of range are normalised, October 32 becomes November 1.
    The fields are [int]s, the days and the seconds since the absolute
    zero year are counted in [uint64]s and the Unix seconds in an
    [int64]. *)
Definition Date (year : Z) (month : Month) (day hour min s ns : Z)
  (l : Location) : Time :=
  let m := wrap64 (month - 1) in
  let '(year, m) := norm year m 12 in
  let month := wrap64 (m + 1) in
  let '(s, ns) := norm s ns 1000000000 in
  let '(min, s) := norm min s 60 in
  let '(hour, min) := norm hour min 60 in
  let '(day, hour) := norm day hour 24 in
  let d := daysSinceEpoch year in
  let d := uint64 (d + uint64 (daysBefore_at (month - 1))) in
  let d := if isLeap year && (month >=? March) then uint64 (d + 1) else d in
  let d := uint64 (d + uint64 (wrap64 (day - 1))) in
  let abs := uint64 (d * secondsPerDay) in
  let abs :=
    uint64 (abs + uint64 (wrap64 (wrap64 (wrap64 (hour * secondsPerHour)
                                          + wrap64 (min * secondsPerMinute)) + s))) in
  let unix := wrap64 (wrap64 abs + (absoluteToInternal + internalToUnix)) in
  let '(offset, start, stop) := lookup_zone l unix in
  let unix :=
    if offset =? 0 then unix
    else
      let utc := wrap64 (unix - offset) in
      let offset :=
        if (utc <? start) || (utc >=? stop)
        then fst (fst (lookup_zone l utc)) else offset in
      wrap64 (unix - offset) in
  unixTime unix ns l.

(** [t.abs()]: the seconds since the absolute zero year of the civil time
    that [t] shows in its location, a [uint64]. *)
Definition abs (t : Time) : Z :=
  let s := unixSec t in
  let offset := fst (fst (lookup_zone (loc t) s)) in
  let s := wrap64 (s + offset) in
  uint64 (wrap64 (s + (unixToInternal + internalToAbsolute))).

(** [absDate(abs, true)]: year, month, day of the month and day of the
    year of an absolute second count.  On a [uint64] no step of it leaves
    the 64 bits: what is subtracted is never more than what it is
    subtracted from, and the year is below 2^40. *)
Definition absDate (abs : Z) : Z * Month * Z * Z :=
  let d := abs / secondsPerDay in
  let n := d / daysPer400Years in
  let y := 400 * n in
  let d := d - daysPer400Years * n in
  let n := d / daysPer100Years in
  let n := n - Z.shiftr n 2 in
  let y := y + 100 * n in
  let d := d - daysPer100Years * n in
  let n := d / daysPer4Years in
  let y := y + 4 * n in
  let d := d - daysPer4Years * n in
  let n := d / 365 in
  let n := n - Z.shiftr n 2 in
  let y := y + n in
  let d := d - 365 * n in
  let year := y + absoluteZeroYear in
  let yday := d in
  let day := yday in
  if isLeap year && (day =? 31 + 29 - 1) then (year, February, 29, yday)
  else
    let day := if isLeap year && (day >? 31 + 29 - 1) then day - 1 else day in
    let month := Z.quot day 31 in
    let stop := daysBefore_at (month + 1) in
    let '(month, begin) :=
      if day >=? stop then (month + 1, stop) else (month, daysBefore_at month) in
    (year, month + 1, day - begin + 1, yday).

(** [t.Year()], [t.Month()] and [t.Day()]. *)
Definition Year (t : Time) : Z :=
  let '(year, _, _, _) := absDate (abs t) in year.
Definition Month_of (t : Time) : Month :=
  let '(_, month, _, _) := absDate (abs t) in month.
Definition Day (t : Time) : Z :=
  let '(_, _, day, _) := absDate (abs t) in day.

(** *** Durations *)

(** A [Duration] is a count of nanoseconds held in a signed 64-bit
    integer. *)
Definition Duration := Z.

Definition minDuration : Duration := - 2 ^ 63.
Definition maxDuration : Duration := 2 ^ 63 - 1.
Definition Nanosecond : Duration := 1.
Definition Second : Duration := 1000000000.
Definition Minute : Duration := 60 * Second.
Definition Hour : Duration := 60 * Minute.

(** [t.addSec(d)], with its guard against a sum that leaves the counter. *)
Definition addSec (t : Time) (d : Z) : Time :=
  let sum := wrap64 (sec t + d) in
  let s :=
    if Bool.eqb (sum >? sec t) (d >? 0) then sum
    else if d >? 0 then 2 ^ 63 - 1 else - (2 ^ 63 - 1) in
  {| sec := s; nsec := nsec t; loc := loc t |}.

(** [t.Add(d)]. *)
Definition Add (t : Time) (d : Duration) : Time :=
  let dsec := Z.quot d 1000000000 in
  let ns := nsec t + Z.rem d 1000000000 in
  let '(dsec, ns) :=
    if ns >=? 1000000000 then (dsec + 1, ns - 1000000000)
    else if ns <? 0 then (dsec - 1, ns + 1000000000)
    else (dsec, ns) in
  addSec {| sec := sec t; nsec := ns; loc := loc t |} dsec.

(** [t.Equal(u)] and [t.Before(u)]. *)
Definition Equal (t u : Time) : bool :=
  (sec t =? sec u) && (nsec t =? nsec u).

Definition Before (t u : Time) : bool :=
  (sec t <? sec u) || ((sec t =? sec u) && (nsec t <? nsec u)).

(** [t.Sub(u)]: the duration [t-u], or the largest or smallest duration
    when [t-u] does not fit one. *)
Definition Sub (t u : Time) : Duration :=
  let d :=
    wrap64 (wrap64 (wrap64 (sec t - sec u) * Second) + (nsec t - nsec u)) in
  if Equal (Add u d) t then d
  else if Before t u then minDuration
  else maxDuration.

(** *** Floating point: [float64] as IEEE 754 binary64 *)

Definition float64 := spec_float.
Definition prec := 53.
Definition emax := 1024.

(** [float64(n)] for an integer [n]: the nearest binary64 number. *)
Definition float64_of_int (n : Z) : float64 := binary_normalize prec emax n 0 false.

Definition float64_add (x y : float64) : float64 := SFadd prec emax x y.
Definition float64_div (x y : float64) : float64 := SFdiv prec emax x y.

(** [int(f)] for a finite [f]: the fraction is dropped. *)
Definition int_of_float64 (f : float64) : Z :=
  match f with
  | S754_finite s m e =>
      let q := if e >=? 0 then Z.pos m * 2 ^ e else Z.quot (Z.pos m) (2 ^ (- e)) in
      if s then - q else q
  | _ => 0
  end.

(** [d.Hours()]. *)
Definition Hours (d : Duration) : float64 :=
  let hour := Z.quot d Hour in
  let ns := Z.rem d Hour in
  float64_add (float64_of_int hour)
    (float64_div (float64_of_int ns) (float64_of_int (60 * 60 * 1000000000))).

(** *** Parsing a text against a layout *)

(** [*time.ParseError]. *)
Record ParseError := {
  Layout : string;
  Value : string;
  LayoutElem : string;
  ValueElem : string;
  Message : string
}.

(** [newParseError]. *)
Definition newParseError (layout value layoutElem valueElem message : string)
  : ParseError :=
  {| Layout := layout; Value := value; LayoutElem := layoutElem;
     ValueElem := valueElem; Message := message |}.

(** The type of [time.Parse]: a layout and a text give an instant and an
    error, nil or not. *)
Definition parser : Type := string -> string -> Time * option ParseError.

(** The layout elements.  [stdOther] stands for every element of the
    clock, the zone, the weekday, the day of the year and the two-digit
    year, and for the spellings whose reading changed between releases
    of the library: a layout holding one is parsed by the part of
    [time.Parse] that this module leaves as a parameter. *)
Inductive std :=
| stdNone
| stdLongMonth
| stdMonth
| stdNumMonth
| stdZeroMonth
| stdDay
| stdUnderDay
| stdZeroDay
| stdLongYear
| stdOther.

(** [s[n:]], all of [s] gone when it is shorter. *)
Fixpoint drop (n : nat) (s : string) : string :=
  match n, s with
  | S k, String _ r => drop k r
  | _, _ => s
  end.

(** [s[i]] when [i < len(s)]. *)
Definition byte_at (s : string) (i : nat) : option ascii := String.get i s.

(** The byte is there and is [c]. *)
Definition is_byte (o : option ascii) (c : ascii) : bool :=
  match o with
  | Some b => Ascii.eqb b c
  | None => false
  end.

(** The byte is there and lies between [lo] and [hi]. *)
Definition between (o : option ascii) (lo hi : ascii) : bool :=
  match o with
  | Some b => (byte_val lo <=? byte_val b) && (byte_val b <=? byte_val hi)
  | None => false
  end.

(** [isDigit(s, i)]. *)
Definition isDigit (s : string) (i : nat) : bool := between (byte_at s i) "0" "9".

(** [startsWithLowerCase(s)]. *)
Definition startsWithLowerCase (s : string) : bool := between (byte_at s 0) "a" "z".

(** [nextStdChunk(layout)]: the literal text before the first layout
    element, that element, and the layout after it. *)
Fixpoint nextStdChunk (layout : string) : string * std * string :=
  match layout with
  | EmptyString => (EmptyString, stdNone, EmptyString)
  | String c rest =>
      let literal :=
        let '(p, e, suffix) := nextStdChunk rest in (String c p, e, suffix) in
      let found (e : std) (n : nat) := (EmptyString, e, drop n layout) in
      let other := (EmptyString, stdOther, EmptyString) in
      if Ascii.eqb c "J" then
        if prefix "Jan" layout then
          if prefix "January" layout then found stdLongMonth 7%nat
          else if startsWithLowerCase (drop 3 layout) then other
          else found stdMonth 3%nat
        else literal
      else if Ascii.eqb c "M" then
        if prefix "Mon" layout || prefix "MST" layout then other else literal
      else if Ascii.eqb c "0" then
        if is_byte (byte_at layout 1) "1" then found stdZeroMonth 2%nat
        else if is_byte (byte_at layout 1) "2" then found stdZeroDay 2%nat
        else if between (byte_at layout 1) "3" "6" then other
        else if prefix "002" layout then other
        else literal
      else if Ascii.eqb c "1" then
        if is_byte (byte_at layout 1) "5" then other else found stdNumMonth 1%nat
      else if Ascii.eqb c "2" then
        if prefix "2006" layout then found stdLongYear 4%nat
        else found stdDay 1%nat
      else if Ascii.eqb c "_" then
        if is_byte (byte_at layout 1) "2" then
          if prefix "_2006" layout then other else found stdUnderDay 2%nat
        else if prefix "__2" layout then other
        else literal
      else if Ascii.eqb c "3" || Ascii.eqb c "4" || Ascii.eqb c "5" then other
      else if Ascii.eqb c "P" then
        if is_byte (byte_at layout 1) "M" then other else literal
      else if Ascii.eqb c "p" then
        if is_byte (byte_at layout 1) "m" then other else literal
      else if Ascii.eqb c "-" then
        if prefix "-07" layout then other else literal
      else if Ascii.eqb c "Z" then
        if prefix "Z07" layout then other else literal
      else if Ascii.eqb c "." || Ascii.eqb c "," then
        if is_byte (byte_at layout 1) "0" || is_byte (byte_at layout 1) "9"
        then other else literal
      else literal
  end.

(** [cutspace(s)]. *)
Fixpoint cutspace (s : string) : string :=
  match s with
  | String c r => if Ascii.eqb c " " then cutspace r else s
  | EmptyString => s
  end.

(** [skip(value, prefix)]: [value] without the literal text [prefix]; a
    run of spaces of the layout stands for any run of spaces of the value.
    The boolean is false for [errBad]. *)
Fixpoint skip_loop (fuel : nat) (value pfx : string) : string * bool :=
  match fuel, pfx with
  | _, EmptyString => (value, true)
  | O, _ => (value, false)
  | S k, String p pfx' =>
      if Ascii.eqb p " " then
        if negb (is_byte (byte_at value 0) " ") && (0 <? String.length value)%nat
        then (value, false)
        else skip_loop k (cutspace value) (cutspace pfx)
      else
        match value with
        | String v value' =>
            if Ascii.eqb v p then skip_loop k value' pfx' else (value, false)
        | EmptyString => (value, false)
        end
  end.

Definition skip (value pfx : string) : string * bool :=
  skip_loop (String.length pfx) value pfx.

(** [leadingInt(s)]: the leading digits of [s] as a number and the rest
    of [s]; [None] when the number passes [1<<63]. *)
Fixpoint leadingInt (s : string) (x : Z) : option (Z * string) :=
  match s with
  | EmptyString => Some (x, s)
  | String c r =>
      if between (Some c) "0" "9" then
        if x >? 2 ^ 63 / 10 then None
        else
          let x := x * 10 + byte_val c - 48 in
          if x >? 2 ^ 63 then None else leadingInt r x
      else Some (x, s)
  end.

(** [atoi(s)]: an optional sign and digits, nothing else. *)
Definition atoi (s : string) : option Z :=
  let '(neg, s) :=
    match s with
    | String c r =>
        if Ascii.eqb c "-" then (true, r)
        else if Ascii.eqb c "+" then (false, r)
        else (false, s)
    | EmptyString => (false, s)
    end in
  match leadingInt s 0 with
  | Some (q, EmptyString) => Some (if neg then - q else q)
  | _ => None
  end.

(** [getnum(s, fixed)]: a number of one or two digits, of two digits when
    [fixed]. *)
Definition getnum (s : string) (fixed : bool) : option (Z * string) :=
  match s with
  | String a r =>
      if between (Some a) "0" "9" then
        match r with
        | String b r' =>
            if between (Some b) "0" "9"
            then Some ((byte_val a - 48) * 10 + (byte_val b - 48), r')
            else if fixed then None else Some (byte_val a - 48, r)
        | EmptyString => if fixed then None else Some (byte_val a - 48, r)
        end
      else None
  | EmptyString => None
  end.

(** [match(s1, s2)]: equal up to the case of letters; the two have the
    same length. *)
Fixpoint match_fold (s1 s2 : string) : bool :=
  match s1, s2 with
  | String c1 r1, String c2 r2 =>
      (if Ascii.eqb c1 c2 then true
       else
         let l1 := Z.lor (byte_val c1) 32 in
         let l2 := Z.lor (byte_val c2) 32 in
         negb (negb (l1 =? l2) || (l1 <? 97) || (l1 >? 122)))
      && match_fold r1 r2
  | _, _ => true
  end.

(** [lookup(tab, val)]: the index of the first name of [tab] that [val]
    begins with, and [val] after it.  [i] is the index of the head. *)
Fixpoint lookup (tab : list string) (val : string) (i : Z) : option (Z * string) :=
  match tab with
  | [] => None
  | v :: tab' =>
      if (String.length v <=? String.length val)%nat
         && match_fold (substring 0 (String.length v) val) v
      then Some (i, drop (String.length v) val)
      else lookup tab' val (i + 1)
  end.

Definition shortMonthNames : list string :=
  ["Jan"; "Feb"; "Mar"; "Apr"; "May"; "Jun"; "Jul"; "Aug"; "Sep"; "Oct"; "Nov"; "Dec"].

Definition longMonthNames : list string :=
  ["January"; "February"; "March"; "April"; "May"; "June"; "July"; "August";
   "September"; "October"; "November"; "December"].

Definition lowerhex (n : Z) : ascii :=
  if n <? 10 then byte_of (48 + n) else byte_of (87 + n).

(** [quote(s)]: [s] between double quotes, a quote or backslash escaped,
    a byte outside printable ASCII written in hexadecimal. *)
Fixpoint quote_body (s : string) : string :=
  match s with
  | EmptyString => String (byte_of 34) EmptyString
  | String c r =>
      let n := byte_val c in
      if (n >=? 128) || (n <? 32) then
        String (byte_of 92) (String "x" (String (lowerhex (Z.shiftr n 4))
          (String (lowerhex (Z.land n 15)) (quote_body r))))
      else if (n =? 34) || (n =? 92) then
        String (byte_of 92) (String c (quote_body r))
      else String c (quote_body r)
  end.

Definition quote (s : string) : string := String (byte_of 34) (quote_body s).

(** What the loop of [Parse] over the layout elements ends in. *)
Inductive parsed :=
| Done (year month day : Z)
| Fail (e : ParseError)
| Beyond.

(** The loop of [Parse]: one layout element at a time, the literal text
    before it skipped in the value, then the element read from the value.
    [alayout] and [avalue] are the arguments of [Parse], kept for the
    error. *)
Fixpoint parse_loop (fuel : nat) (alayout avalue layout value : string)
  (year month day : Z) : parsed :=
  match fuel with
  | O => Beyond
  | S k =>
      let '(pfx, e, suffix) := nextStdChunk layout in
      let stdstr :=
        substring (String.length pfx)
          (String.length layout - String.length pfx - String.length suffix) layout in
      match e with
      | stdOther => Beyond
      | _ =>
          match skip value pfx with
          | (value, false) => Fail (newParseError alayout avalue pfx value EmptyString)
          | (value, true) =>
              let bad (hold : string) :=
                Fail (newParseError alayout avalue stdstr hold EmptyString) in
              match e with
              | stdNone =>
                  if (String.length value =? 0)%nat then Done year month day
                  else Fail (newParseError alayout avalue EmptyString value
                               (": extra text: " ++ quote value))
              | stdLongYear =>
                  if (String.length value <? 4)%nat || negb (isDigit value 0)
                  then bad value
                  else
                    match atoi (substring 0 4 value) with
                    | Some y => parse_loop k alayout avalue suffix (drop 4 value) y month day
                    | None => bad value
                    end
              | stdMonth =>
                  match lookup shortMonthNames value 0 with
                  | Some (m, value') => parse_loop k alayout avalue suffix value' year (m + 1) day
                  | None => bad value
                  end
              | stdLongMonth =>
                  match lookup longMonthNames value 0 with
                  | Some (m, value') => parse_loop k alayout avalue suffix value' year (m + 1) day
                  | None => bad value
                  end
              | stdNumMonth | stdZeroMonth =>
                  match getnum value (match e with stdZeroMonth => true | _ => false end) with
                  | Some (m, value') =>
                      if (m <=? 0) || (12 <? m)
                      then Fail (newParseError alayout avalue stdstr value'
                                   ": month out of range")
                      else parse_loop k alayout avalue suffix value' year m day
                  | None => bad value
                  end
              | stdDay | stdUnderDay | stdZeroDay =>
                  let value1 :=
                    match e with
                    | stdUnderDay =>
                        if is_byte (byte_at value 0) " " then drop 1 value else value
                    | _ => value
                    end in
                  match getnum value1 (match e with stdZeroDay => true | _ => false end) with
                  | Some (d, value') => parse_loop k alayout avalue suffix value' year month d
                  | None => bad value
                  end
              | stdOther => Beyond
              end
          end
      end
  end.

(** [time.Parse(layout, value)] for the layouts made of literal text, the
    year [2006], the months [1], [01], [Jan], [January] and the days [2],
    [_2], [02]; [other] is [time.Parse] on every other layout.  A
    time so parsed is in UTC. *)
Definition Parse (other : parser) (layout value : string)
  : Time * option ParseError :=
  match parse_loop (S (String.length layout)) layout value layout value 0 (-1) (-1) with
  | Beyond => other layout value
  | Fail e => (zeroTime, Some e)
  | Done year month day =>
      let month := if month <? 0 then January else month in
      let day := if day <? 0 then 1 else day in
      if (day <? 1) || (day >? daysIn month year)
      then (zeroTime, Some (newParseError layout value EmptyString EmptyString
                         ": day out of range"))
      else (Date year month day 0 0 0 0 UTC, None)
  end.

End time.

(** ** Package date, as in the source file that carries [Sub]

    The file src/unnamed/part_000: the revision whose [UnmarshalText]
    calls [Parse] and whose [Scan] has a case for strings. *)

Module date.

(** A Date specifies the year, month and day. *)
Record Date := { Year : Z; Month : time.Month; Day : Z }.

(** [Date{}]. *)
Definition zeroDate : Date := {| Year := 0; Month := 0; Day := 0 |}.

(** The errors that the package returns: the [*time.ParseError] of
    [time.Parse] handed on, or the error of [fmt.Errorf] with its
    message. *)
Inductive error :=
| ParseError (e : time.ParseError)
| Errorf (msg : string).

(** A value of the empty interface, by dynamic type: the types of
    [driver.Value], and [any_other] for a value of any further type, with
    the name that [%T] prints for it. *)
Inductive any :=
| any_Time (t : time.Time)
| any_bytes (b : bytes)
| any_string (s : string)
| any_int64 (n : Z)
| any_float64 (f : time.float64)
| any_bool (b : bool)
| any_nil
| any_other (type_name : string).

(** The verb [%T]. *)
Definition typeName (v : any) : string :=
  match v with
  | any_Time _ => "time.Time"
  | any_bytes _ => "[]uint8"
  | any_string _ => "string"
  | any_int64 _ => "int64"
  | any_float64 _ => "float64"
  | any_bool _ => "bool"
  | any_nil => "<nil>"
  | any_other n => n
  end.

(** After reports whether d is after t. *)
Definition After (d t : Date) : bool :=
  if negb (Year d =? Year t) then Year d >? Year t
  else if negb (Month d =? Month t) then Month d >? Month t
  else Day d >? Day t.

(** Before reports whether d is before t. *)
Definition Before (d t : Date) : bool := After t d.

(** Equal reports whether d and t are the same date. *)
Definition Equal (d t : Date) : bool := negb (After d t) && negb (Before d t).

(** String returns a string of date in "YYYY-MM-DD" format. *)
Definition String (d : Date) : string :=
  fmt.Sprintf_4d_02d_02d (Year d) (Month d) (Day d).

(** MarshalText: the bytes of [d.String()] appended to an empty slice,
    and a nil error. *)
Definition MarshalText (d : Date) : bytes * option error :=
  let s := bytes_of_string (String d) in
  let b : bytes := [] in
  ((b ++ s)%list, None).

(** Value implements the driver.Valuer interface. *)
Definition Value (d : Date) : any * option error := (any_string (String d), None).

(** Of returns the Date of t in t's location. *)
Definition Of (t : time.Time) : Date :=
  {| Year := time.Year t; Month := time.Month_of t; Day := time.Day t |}.

(** Now returns the current local date; [n] is what [time.Now()] reads. *)
Definition Now (n : time.Time) : Date := Of n.

(** Sub returns the days d - t. *)
Definition Sub (d t : Date) : Z :=
  let dt := time.Date (Year d) (Month d) (Day d) 0 0 0 0 time.UTC in
  let tt := time.Date (Year t) (Month t) (Day t) 0 0 0 0 time.UTC in
  time.int_of_float64
    (time.float64_div (time.Hours (time.Sub dt tt)) (time.float64_of_int 24)).

(** The three layouts of [UnmarshalText], in the order of the source. *)
Definition layouts : list string := ["2006-01-02"; "2006/01/02"; "02 Jan 2006"].

(** The double quote. *)
Definition dquote : string := String.String (byte_of 34) EmptyString.

(** [ Only "2006-01-02", "2006/01/02" and "02 Jan 2006" are supported],
    the end of the message of [UnmarshalText]. *)
Definition supported : string :=
  ". Only " ++ dquote ++ "2006-01-02" ++ dquote ++ ", " ++ dquote ++ "2006/01/02"
  ++ dquote ++ " and " ++ dquote ++ "02 Jan 2006" ++ dquote ++ " are supported".

Section Parser.

(** [time.Parse], the layout-driven parser of the platform. *)
Variable time_Parse : time.parser.

(** Parse parses the d with layout and returns the value of Date. *)
Definition Parse (layout d : string) : Date * option error :=
  match time_Parse layout d with
  | (_, Some err) => (zeroDate, Some (ParseError err))
  | (t, None) => (Of t, None)
  end.

(** The [range] loop of [UnmarshalText] over the layouts left to try:
    each turn assigns both results of [Parse], the first to the
    receiver; the loop returns nil at the first nil error, and after the
    last layout the error that quotes [b]. *)
Fixpoint UnmarshalText_range (ls : list string) (d : Date) (b : bytes)
  : Date * option error :=
  match ls with
  | [] =>
      (d, Some (Errorf ("date: Unsupported format " ++ string_of_bytes b ++ supported)))
  | layout :: ls' =>
      let '(d', err) := Parse layout (string_of_bytes b) in
      match err with
      | None => (d', None)
      | Some _ => UnmarshalText_range ls' d' b
      end
  end.

(** UnmarshalText implements the encoding.TextUnmarshaler interface: the
    receiver after the call, and the error. *)
Definition UnmarshalText (d : Date) (b : bytes) : Date * option error :=
  UnmarshalText_range layouts d b.

(** Scan implements the sql.Scanner interface. *)
Definition Scan (d : Date) (v : any) : Date * option error :=
  match v with
  | any_Time s => (Of s, None)
  | any_bytes s => UnmarshalText d s
  | any_string s => UnmarshalText d (bytes_of_string s)
  | _ => (d, Some (Errorf ("date: Unsupport scanning type " ++ typeName v)))
  end.

End Parser.

End date.

(** ** Package date, as in src/date.go

    The revision without [Sub], whose [UnmarshalText] and [Scan] call
    [time.Parse] themselves.  Its [Date], [After], [Before], [Equal],
    [MarshalText], [String], [Value], [Now], [Of] and [Parse] are the
    ones of module [date] letter for letter; [UnmarshalText] and [Scan]
    differ and are embedded here. *)

Module date_go.

Section Parser.

Variable time_Parse : time.parser.

(** The [range] loop of [UnmarshalText]: [t] and [err] are assigned at
    each turn, the loop is left at the first nil error. *)
Fixpoint UnmarshalText_range (ls : list string) (t : time.Time)
  (err : option time.ParseError) (b : bytes) : time.Time * option time.ParseError :=
  match ls with
  | [] => (t, err)
  | f :: ls' =>
      let '(t', err') := time_Parse f (string_of_bytes b) in
      match err' with
      | None => (t', None)
      | Some _ => UnmarshalText_range ls' t' err' b
      end
  end.

(** UnmarshalText: the receiver after the call, and the error. *)
Definition UnmarshalText (d : date.Date) (b : bytes) : date.Date * option date.error :=
  let '(t, err) := UnmarshalText_range date.layouts time.zeroTime None b in
  match err with
  | Some _ =>
      (d, Some (date.Errorf ("Date.UnmarshalText: Unsupported format "
                             ++ string_of_bytes b ++ date.supported)))
  | None => (date.Of t, None)
  end.

(** Scan implements the sql.Scanner interface. *)
Definition Scan (d : date.Date) (v : date.any) : date.Date * option date.error :=
  match v with
  | date.any_Time s =>
      ({| date.Year := time.Year s; date.Month := time.Month_of s; date.Day := time.Day s |},
       None)
  | date.any_bytes s =>
      match time_Parse "2006-01-02" (string_of_bytes s) with
      | (_, Some err) => (d, Some (date.ParseError err))
      | (t, None) =>
          ({| date.Year := time.Year t; date.Month := time.Month_of t; date.Day := time.Day t |},
           None)
      end
  | _ => (d, Some (date.Errorf ("date: Unsupport scanning type " ++ date.typeName v)))
  end.

End Parser.

End date_go.

(** * Vocabulary of the properties *)

(** ** Comparison, parsing and scanning *)

(** The lexicographic order on (year, month, day), as a proposition. *)
Definition lex_gt (d t : date.Date) : Prop :=
  date.Year d > date.Year t
  \/ (date.Year d = date.Year t
      /\ (date.Month d > date.Month t
          \/ (date.Month d = date.Month t /\ date.Day d > date.Day t))).

(** The two dates agree field by field. *)
Definition same_fields (d t : date.Date) : Prop :=
  date.Year d = date.Year t /\ date.Month d = date.Month t /\ date.Day d = date.Day t.

(** The dynamic types that [Scan] has a case for. *)
Definition scannable (v : date.any) : bool :=
  match v with
  | date.any_Time _ | date.any_bytes _ | date.any_string _ => true
  | _ => false
  end.

(** The error of [Scan] for a value of a type it has no case for. *)
Definition unsupported_type (v : date.any) : date.error :=
  date.Errorf ("date: Unsupport scanning type " ++ date.typeName v).

(** The error of [UnmarshalText] for a text that no layout matches. *)
Definition unsupported_format (b : bytes) : date.error :=
  date.Errorf ("date: Unsupported format " ++ string_of_bytes b ++ date.supported).

(** [layout] does not match [s]: the parser returns an error. *)
Definition rejects (tp : time.parser)
  (layout s : string) : Prop :=
  exists t e, tp layout s = (t, Some e).

(** [layout] matches [s] and gives the instant [t]. *)
Definition accepts (tp : time.parser)
  (layout s : string) (t : time.Time) : Prop :=
  tp layout s = (t, None).

(** ** Checks over a run of integers *)

(** [f] holds on [lo], [lo+1], ..., [lo+n-1]. *)
Fixpoint forall_from (f : Z -> bool) (lo : Z) (n : nat) : bool :=
  match n with
  | O => true
  | S k => if f lo then forall_from f (lo + 1) k else false
  end.

(** ** The calendar in cycles of 400 years *)

(** Days of the years [0 .. y-1] of a cycle of 400 years that begins with
    the absolute zero year. *)
Definition year400_days (y : Z) : Z :=
  let n := y / 100 in
  let y := y - 100 * n in
  let d := time.daysPer100Years * n in
  let n := y / 4 in
  let y := y - 4 * n in
  let d := d + time.daysPer4Years * n in
  d + 365 * y.

(** The year and the day within the year of day [d] of a cycle of 400
    years, as [absDate] finds them; [y] is the year the cycle begins
    with. *)
Definition split400 (y d : Z) : Z * Z :=
  let n := d / time.daysPer100Years in
  let n := n - Z.shiftr n 2 in
  let y := y + 100 * n in
  let d := d - time.daysPer100Years * n in
  let n := d / time.daysPer4Years in
  let y := y + 4 * n in
  let d := d - time.daysPer4Years * n in
  let n := d / 365 in
  let n := n - Z.shiftr n 2 in
  let y := y + n in
  let d := d - 365 * n in
  (y, d).

(** Month and day of the month of day [yday] of a year, as [absDate]
    finds them. *)
Definition month_day (leap : bool) (yday : Z) : Z * Z :=
  let day := yday in
  if leap && (day =? 31 + 29 - 1) then (time.February, 29)
  else
    let day := if leap && (day >? 31 + 29 - 1) then day - 1 else day in
    let month := Z.quot day 31 in
    let stop := time.daysBefore_at (month + 1) in
    let '(month, begin) :=
      if day >=? stop then (month + 1, stop) else (month, time.daysBefore_at month) in
    (month + 1, day - begin + 1).

(** The day of the year, from 0, of day [d] of month [m], as [time.Date]
    counts it. *)
Definition yday_of (leap : bool) (m d : Z) : Z :=
  let x := time.daysBefore_at (m - 1) in
  let x := if leap && (m >=? time.March) then x + 1 else x in
  x + (d - 1).

(** [daysIn] of month [m] in a year that is leap or not. *)
Definition daysIn_leap (leap : bool) (m : Z) : Z :=
  if (m =? time.February) && leap then 29
  else time.daysBefore_at m - time.daysBefore_at (m - 1).

(** The days of a year. *)
Definition year_length (leap : bool) : Z := if leap then 366 else 365.

(** Equality of two pairs of integers, decided. *)
Definition pair_eqb (p q : Z * Z) : bool := (fst p =? fst q) && (snd p =? snd q).

(** Leap years by the place [r] of the year in its cycle: the cycle
    begins with a year after a multiple of 400. *)
Definition leap400 (r : Z) : bool := time.isLeap (r + 1).

(** The counts of whole centuries, of whole 4-year spans and of whole
    years that [absDate] cuts off day [d] of a cycle of 400 years. *)
Definition cuts (d : Z) : Z * Z * Z :=
  let n1 := d / time.daysPer100Years in
  let n1 := n1 - Z.shiftr n1 2 in
  let d := d - time.daysPer100Years * n1 in
  let n2 := d / time.daysPer4Years in
  let d := d - time.daysPer4Years * n2 in
  let n3 := d / 365 in
  let n3 := n3 - Z.shiftr n3 2 in
  (n1, n2, n3).

(** Equality of two triples of cuts, decided. *)
Definition cuts_eqb (p q : Z * Z * Z) : bool :=
  let '(a, b, c) := p in
  let '(a', b', c') := q in
  (a =? a') && (b =? b') && (c =? c').

(** The first and the last day of year [r] of a cycle lie in the cycle,
    have the same cuts, and the first is split into [r] and day 0. *)
Definition check_cycle_year (r : Z) : bool :=
  let lo := year400_days r in
  let hi := lo + year_length (leap400 r) - 1 in
  (0 <=? lo) && (hi <? time.daysPer400Years)
  && cuts_eqb (cuts lo) (cuts hi)
  && match split400 0 lo with (y, d) => (y =? r) && (d =? 0) end.

(** Every day of month [m] is a day of the year that [month_day] turns
    back into [m] and the day. *)
Definition check_month (leap : bool) (m : Z) : bool :=
  forall_from
    (fun d =>
       let yd := yday_of leap m d in
       (0 <=? yd) && (yd <? year_length leap) && pair_eqb (month_day leap yd) (m, d))
    1 (Z.to_nat (daysIn_leap leap m)).

(** ** The canonical text *)

(** The year [y] is printed by [%4d] as four digits that [atoi] reads
    back. *)
Definition year_ok (y : Z) : bool :=
  match fmt.fmtInteger 4 false y with
  | String a (String b (String c (String e EmptyString))) as s =>
      time.between (Some a) "0" "9" && time.between (Some b) "0" "9"
      && time.between (Some c) "0" "9" && time.between (Some e) "0" "9"
      && match time.atoi s with Some v => v =? y | None => false end
  | _ => false
  end.

(** The number [n] is printed by [%02d] as two digits that [getnum]
    reads back. *)
Definition two_ok (n : Z) : bool :=
  match fmt.fmtInteger 2 true n with
  | String a (String b EmptyString) =>
      time.between (Some a) "0" "9" && time.between (Some b) "0" "9"
      && ((byte_val a - 48) * 10 + (byte_val b - 48) =? n)
  | _ => false
  end.

(** Four digits, a hyphen, two digits, a hyphen, two digits. *)
Definition canonical_text (s : string) : bool :=
  match s with
  | String y1 (String y2 (String y3 (String y4 (String h1 (String m1 (String m2
      (String h2 (String d1 (String d2 EmptyString))))))))) =>
      time.between (Some y1) "0" "9" && time.between (Some y2) "0" "9"
      && time.between (Some y3) "0" "9" && time.between (Some y4) "0" "9"
      && Ascii.eqb h1 "-"
      && time.between (Some m1) "0" "9" && time.between (Some m2) "0" "9"
      && Ascii.eqb h2 "-"
      && time.between (Some d1) "0" "9" && time.between (Some d2) "0" "9"
  | _ => false
  end.

(** A year that [%4d] prints with four digits and no padding. *)
Definition four_digit_year (d : date.Date) : Prop := 1000 <= date.Year d <= 9999.

(** A parser of the platform that the layouts of this package never
    reach: it answers the zero instant. *)
Definition no_other : time.parser := fun _ _ => (time.zeroTime, None).

(** ** Day differences *)

(** [int(d.Hours() / 24)]. *)
Definition whole_days (d : time.Duration) : Z :=
  time.int_of_float64 (time.float64_div (time.Hours d) (time.float64_of_int 24)).

(** The nanoseconds of 24 hours. *)
Definition nsPerDay : Z := 24 * time.Hour.

(** The whole days in the largest [Duration]. *)
Definition maxDays : Z := 106751.

(** The integer of sign [s] and magnitude [p]. *)
Definition signed (s : bool) (p : positive) : Z := if s then Z.neg p else Z.pos p.

(** A count of nanoseconds brought into the range of a [Duration]. *)
Definition saturate (x : Z) : time.Duration :=
  if x <? time.minDuration then time.minDuration
  else if x >? time.maxDuration then time.maxDuration
  else x.

(** A count of days brought into the range that [Sub] can return. *)
Definition clamp_days (k : Z) : Z := Z.max (- maxDays) (Z.min maxDays k).

(** The days from January 1 of the absolute zero year to January 1 of
    [year] as an integer without bound: what [daysSinceEpoch] counts as
    long as the count stays within its 64 bits. *)
Definition epoch_days (year : Z) : Z :=
  let y := year - time.absoluteZeroYear in
  let n := y / 400 in
  let y := y - 400 * n in
  let d := time.daysPer400Years * n in
  let n := y / 100 in
  let y := y - 100 * n in
  let d := d + time.daysPer100Years * n in
  let n := y / 4 in
  let y := y - 4 * n in
  let d := d + time.daysPer4Years * n in
  let n := y in
  d + 365 * n.

(** The day number of midnight of year [y], month [m], day [d], counted
    from the absolute zero year, for any integers [y], [m], [d]: a month
    outside 1 .. 12 is a month of another year. *)
Definition civil_days (y m d : Z) : Z :=
  let y' := y + (m - 1) / 12 in
  let m' := (m - 1) mod 12 in
  let x := epoch_days y' + time.daysBefore_at m' in
  let x := if time.isLeap y' && (m' + 1 >=? time.March) then x + 1 else x in
  x + (d - 1).

(** Two integers that 64 bits cannot tell apart. *)
Definition same64 (a b : Z) : Prop := a mod 2 ^ 64 = b mod 2 ^ 64.

(** The last year all of whose days the signed second count of an
    instant holds: the count ends on December 6 of the year after. *)
Definition maxYear : Z := 292277024626.

(** The date lies in a year that the counts of the time package hold:
    from the absolute zero year to [maxYear]. *)
Definition in_years (d : date.Date) : Prop :=
  time.absoluteZeroYear <= date.Year d <= maxYear.

(** The day number of January 1 of the year after [maxYear]. *)
Definition endDay : Z := epoch_days (maxYear + 1).

(** The day number of a [Date]. *)
Definition date_days (d : date.Date) : Z :=
  civil_days (date.Year d) (date.Month d) (date.Day d).

(** [time.Date(d.Year, d.Month, d.Day, 0, 0, 0, 0, time.UTC)]. *)
Definition midnight (d : date.Date) : time.Time :=
  time.Date (date.Year d) (date.Month d) (date.Day d) 0 0 0 0 time.UTC.

(** A date of the calendar: a month of the year and a day of that month. *)
Definition valid_date (d : date.Date) : Prop :=
  1 <= date.Month d <= 12
  /\ 1 <= date.Day d <= time.daysIn (date.Month d) (date.Year d).

(** The midnight of the date is an instant that the second count holds:
    the month is one of the year, the year is counted from the absolute
    zero year and the day is not after [endDay]. *)
Definition on_counter (d : date.Date) : Prop :=
  1 <= date.Month d <= 12
  /\ time.absoluteZeroYear <= date.Year d <= maxYear + 1
  /\ 0 <= date_days d <= endDay.


(** The calendar day after a date of the calendar. *)
Definition next_day (d : date.Date) : date.Date :=
  if date.Day d <? time.daysIn (date.Month d) (date.Year d) then
    {| date.Year := date.Year d; date.Month := date.Month d; date.Day := date.Day d + 1 |}
  else if date.Month d <? 12 then
    {| date.Year := date.Year d; date.Month := date.Month d + 1; date.Day := 1 |}
  else
    {| date.Year := date.Year d + 1; date.Month := time.January; date.Day := 1 |}.

(** ** Zones, the order of the calendar and the spellings of a date *)

(** [time.FixedZone(name, offset)]: one offset east of UTC, in force at
    every instant. *)
Definition FixedZone (offset : Z) : time.Location :=
  {| time.lookup_zone := fun _ => (offset, time.alpha, time.omega) |}.

(** A clock time of the day. *)
Definition valid_clock (hour min sec nsec : Z) : Prop :=
  0 <= hour < 24 /\ 0 <= min < 60 /\ 0 <= sec < 60 /\ 0 <= nsec < 1000000000.

(** Every day [yd] of a year is given a month and a day of that month
    that [time.Date] counts as day [yd]. *)
Definition check_yday (leap : bool) (yd : Z) : bool :=
  let '(m, d) := month_day leap yd in
  (1 <=? m) && (m <=? 12) && (1 <=? d) && (d <=? daysIn_leap leap m)
  && (yday_of leap m d =? yd).

(** The last day of month [m] comes before the first day of every later
    month [m'] of the year. *)
Definition check_month_order (leap : bool) (m : Z) : bool :=
  forall_from
    (fun m' => (m' <=? m) || (yday_of leap m (daysIn_leap leap m) <? yday_of leap m' 1))
    1 12.

(** The date with the month brought into 1 .. 12 by whole years, as
    [time.Date] reads a month outside of the year. *)
Definition normal_month (d : date.Date) : date.Date :=
  {| date.Year := date.Year d + (date.Month d - 1) / 12;
     date.Month := (date.Month d - 1) mod 12 + 1;
     date.Day := date.Day d |}.

(** The date [n] days after [d] in the calendar. *)
Fixpoint days_later (n : nat) (d : date.Date) : date.Date :=
  match n with
  | O => d
  | S k => next_day (days_later k d)
  end.

(** The verb [%4d] begins the text of [y] with a space. *)
Definition padded_year (y : Z) : bool :=
  match fmt.fmtInteger 4 false y with
  | String c _ => Ascii.eqb c " "
  | EmptyString => false
  end.

(** The loop of [time.Parse] ends in an error. *)
Definition failed (r : time.parsed) : Prop := exists e, r = time.Fail e.

(** The number that the decimal digit [c] stands for. *)
Definition digit_val (c : ascii) : Z := byte_val c - 48.

(** The date written as YYYY/MM/DD. *)
Definition slash_text (d : date.Date) : string :=
  fmt.fmtInteger 4 false (date.Year d) ++ "/" ++ fmt.fmtInteger 2 true (date.Month d)
  ++ "/" ++ fmt.fmtInteger 2 true (date.Day d).

(** The three letters of month [m]. *)
Definition short_month_name (m : Z) : string :=
  nth (Z.to_nat (m - 1)) time.shortMonthNames EmptyString.

(** The date written as DD Mon YYYY. *)
Definition day_month_year_text (d : date.Date) : string :=
  fmt.fmtInteger 2 true (date.Day d) ++ " " ++ short_month_name (date.Month d)
  ++ " " ++ fmt.fmtInteger 4 false (date.Year d).

(** * Properties *)

(** ** Comparison *)

Ltac unfold_cmp :=
  unfold date.Equal, date.Before, date.After, lex_gt, same_fields in *.

Ltac split_cmp :=
  repeat match goal with
  | |- context [Z.eqb ?a ?b] => destruct (Z.eqb_spec a b); simpl
  | |- context [Z.gtb ?a ?b] => rewrite (Z.gtb_ltb a b); destruct (Z.ltb_spec b a); simpl
  | H : context [Z.eqb ?a ?b] |- _ => destruct (Z.eqb_spec a b); simpl in H
  | H : context [Z.gtb ?a ?b] |- _ =>
      rewrite (Z.gtb_ltb a b) in H; destruct (Z.ltb_spec b a); simpl in H
  end.

Lemma After_lex (d t : date.Date) : date.After d t = true <-> lex_gt d t.
Proof.
  unfold_cmp. split_cmp; split; intros; try discriminate; try reflexivity; lia.
Qed.

Lemma After_false (d t : date.Date) : date.After d t = false <-> ~ lex_gt d t.
Proof.
  rewrite <- After_lex. destruct (date.After d t); split; intros; congruence.
Qed.

Lemma Equal_fields (d t : date.Date) : date.Equal d t = true <-> same_fields d t.
Proof.
  unfold date.Equal, date.Before.
  rewrite andb_true_iff, !negb_true_iff, !After_false.
  unfold lex_gt, same_fields. lia.
Qed.

Lemma same_fields_eq (d t : date.Date) : same_fields d t <-> d = t.
Proof.
  destruct d, t; unfold same_fields; simpl; split.
  - intros (-> & -> & ->); reflexivity.
  - intros [= -> -> ->]; auto.
Qed.

(** C7: [After] is the strict lexicographic order on (year, month, day),
    and [Before] is [After] with its arguments exchanged. *)
Theorem C7_After_lexicographic_Before_mirror :
  forall d t : date.Date,
    (date.After d t = true <-> lex_gt d t)
    /\ date.Before d t = date.After t d
    /\ date.After d t = date.Before t d.
Proof.
  intros d t. split; [apply After_lex | split; reflexivity].
Qed.

(** C8: [Equal] holds exactly when neither [After] nor [Before] does,
    that is when the three fields agree; it is reflexive, symmetric and
    transitive, and [After] is transitive. *)
Theorem C8_Equal_equivalence_After_transitive :
  (forall d t, date.Equal d t = true <->
               (date.After d t = false /\ date.Before d t = false))
  /\ (forall d t, date.Equal d t = true <-> same_fields d t)
  /\ (forall d t, date.Equal d t = true <-> d = t)
  /\ (forall a, date.Equal a a = true)
  /\ (forall a b, date.Equal a b = true -> date.Equal b a = true)
  /\ (forall a b c, date.Equal a b = true -> date.Equal b c = true ->
                    date.Equal a c = true)
  /\ (forall a b c, date.After a b = true -> date.After b c = true ->
                    date.After a c = true).
Proof.
  split; [| split; [| split; [| split; [| split; [| split]]]]].
  - intros d t. unfold date.Equal. rewrite andb_true_iff, !negb_true_iff. tauto.
  - apply Equal_fields.
  - intros d t. rewrite Equal_fields. apply same_fields_eq.
  - intros a. apply Equal_fields. unfold same_fields. auto.
  - intros a b. rewrite !Equal_fields. unfold same_fields. intuition congruence.
  - intros a b c. rewrite !Equal_fields. unfold same_fields. intuition congruence.
  - intros a b c. rewrite !After_lex. unfold lex_gt. lia.
Qed.

Lemma C8_witness :
  date.Equal (date.Build_Date 2009 11 15) (date.Build_Date 2009 11 15) = true
  /\ date.After (date.Build_Date 2009 11 15) (date.Build_Date 2000 1 1) = true.
Proof.
  destruct C8_Equal_equivalence_After_transitive as (_ & _ & _ & _ & Hs & Ht & Ha).
  split.
  - apply (Ht _ (date.Build_Date 2009 11 15) _); apply Hs; reflexivity.
  - apply (Ha _ (date.Build_Date 2001 3 5) _); reflexivity.
Defined.

(** ** Parse, UnmarshalText and Scan over any parser of the platform *)

Section AnyParser.

Variable tp : time.parser.

Lemma rejects_snd layout s : snd (tp layout s) <> None -> rejects tp layout s.
Proof.
  unfold rejects. destruct (tp layout s) as [t [e |]]; simpl; intros H.
  - exists t, e. reflexivity.
  - congruence.
Qed.

Lemma Parse_accepts layout s t :
  accepts tp layout s t -> date.Parse tp layout s = (date.Of t, None).
Proof. unfold accepts, date.Parse. intros ->. reflexivity. Qed.

Lemma Parse_rejects layout s :
  rejects tp layout s -> exists e, date.Parse tp layout s = (date.zeroDate, Some e).
Proof.
  unfold date.Parse. intros (t & e & ->). eexists. reflexivity.
Qed.

Lemma UnmarshalText_first d b t :
  accepts tp "2006-01-02" (string_of_bytes b) t ->
  date.UnmarshalText tp d b = (date.Of t, None).
Proof.
  intros H. unfold date.UnmarshalText, date.layouts. simpl.
  rewrite (Parse_accepts _ _ _ H). reflexivity.
Qed.

Lemma UnmarshalText_second d b t :
  rejects tp "2006-01-02" (string_of_bytes b) ->
  accepts tp "2006/01/02" (string_of_bytes b) t ->
  date.UnmarshalText tp d b = (date.Of t, None).
Proof.
  intros H1 H2. unfold date.UnmarshalText, date.layouts. simpl.
  destruct (Parse_rejects _ _ H1) as (e1 & ->).
  rewrite (Parse_accepts _ _ _ H2). reflexivity.
Qed.

Lemma UnmarshalText_third d b t :
  rejects tp "2006-01-02" (string_of_bytes b) ->
  rejects tp "2006/01/02" (string_of_bytes b) ->
  accepts tp "02 Jan 2006" (string_of_bytes b) t ->
  date.UnmarshalText tp d b = (date.Of t, None).
Proof.
  intros H1 H2 H3. unfold date.UnmarshalText, date.layouts. simpl.
  destruct (Parse_rejects _ _ H1) as (e1 & ->).
  destruct (Parse_rejects _ _ H2) as (e2 & ->).
  rewrite (Parse_accepts _ _ _ H3). reflexivity.
Qed.

(** When no layout matches, the receiver is left holding the [Date{}]
    that the last failed [Parse] returned. *)
Lemma UnmarshalText_none d b :
  rejects tp "2006-01-02" (string_of_bytes b) ->
  rejects tp "2006/01/02" (string_of_bytes b) ->
  rejects tp "02 Jan 2006" (string_of_bytes b) ->
  date.UnmarshalText tp d b = (date.zeroDate, Some (unsupported_format b)).
Proof.
  intros H1 H2 H3. unfold date.UnmarshalText, date.layouts. simpl.
  destruct (Parse_rejects _ _ H1) as (e1 & ->).
  destruct (Parse_rejects _ _ H2) as (e2 & ->).
  destruct (Parse_rejects _ _ H3) as (e3 & ->).
  reflexivity.
Qed.

(** The parser is consulted on the three layouts and on nothing else. *)
Lemma UnmarshalText_only_three tp' d b :
  (forall layout, In layout date.layouts ->
                  tp' layout (string_of_bytes b) = tp layout (string_of_bytes b)) ->
  date.UnmarshalText tp' d b = date.UnmarshalText tp d b.
Proof.
  intros H. unfold date.UnmarshalText.
  assert (G : forall ls, incl ls date.layouts ->
            forall d0, date.UnmarshalText_range tp' ls d0 b
                       = date.UnmarshalText_range tp ls d0 b).
  { induction ls as [| l ls IH]; intros Hi d0; simpl; [reflexivity |].
    unfold date.Parse. rewrite (H l (Hi l (or_introl eq_refl))).
    destruct (tp l (string_of_bytes b)) as [t [e |]]; [| reflexivity].
    apply IH. intros x Hx. apply Hi. right. exact Hx. }
  apply G. apply incl_refl.
Qed.

(** In src/date.go the receiver is assigned after the loop, on success
    only. *)
Lemma date_go_UnmarshalText_none d b :
  rejects tp "2006-01-02" (string_of_bytes b) ->
  rejects tp "2006/01/02" (string_of_bytes b) ->
  rejects tp "02 Jan 2006" (string_of_bytes b) ->
  exists e, date_go.UnmarshalText tp d b = (d, Some e).
Proof.
  intros (t1 & e1 & H1) (t2 & e2 & H2) (t3 & e3 & H3).
  unfold date_go.UnmarshalText, date.layouts. simpl.
  rewrite H1, H2, H3. eexists. reflexivity.
Qed.

End AnyParser.

(** C10: when the parser of the platform returns an error, [Parse]
    returns [Date{}], all fields zero, and that error. *)
Theorem C10_Parse_failure_zero_Date :
  forall (tp : time.parser)
         (layout d : string) (t : time.Time) (err : time.ParseError),
    tp layout d = (t, Some err) ->
    date.Parse tp layout d
    = ({| date.Year := 0; date.Month := 0; date.Day := 0 |},
       Some (date.ParseError err)).
Proof.
  intros tp layout d t err H. unfold date.Parse. rewrite H. reflexivity.
Qed.

Lemma C10_witness :
  date.Parse (time.Parse no_other) "2006/01/02" "2017/13/01"
  = ({| date.Year := 0; date.Month := 0; date.Day := 0 |},
     Some (date.ParseError
             (time.newParseError "2006/01/02" "2017/13/01" "01" "/01"
                ": month out of range"))).
Proof.
  apply (C10_Parse_failure_zero_Date (time.Parse no_other) "2006/01/02" "2017/13/01"
           time.zeroTime).
  vm_compute. reflexivity.
Defined.

(** C9: a value of a type that [Scan] has no case for gives the
    unsupported-type error and the receiver as it was. *)
Theorem C9_Scan_unsupported_keeps_receiver :
  forall (tp : time.parser)
         (d : date.Date) (v : date.any),
    scannable v = false ->
    date.Scan tp d v = (d, Some (unsupported_type v)).
Proof.
  intros tp d v H. destruct v; try discriminate H; reflexivity.
Qed.

Lemma C9_witness :
  date.Scan (time.Parse no_other)
    {| date.Year := 2001; date.Month := 3; date.Day := 5 |} (date.any_int64 42)
  = ({| date.Year := 2001; date.Month := 3; date.Day := 5 |},
     Some (date.Errorf "date: Unsupport scanning type int64")).
Proof.
  apply (C9_Scan_unsupported_keeps_receiver (time.Parse no_other)
           {| date.Year := 2001; date.Month := 3; date.Day := 5 |} (date.any_int64 42)).
  reflexivity.
Defined.

(** C4: in the revision with [Sub], src/unnamed/part_000, [Scan] projects
    a timestamp with [Of] and succeeds, hands a byte sequence to
    [UnmarshalText], treats a string as its bytes, and fails on every
    other type with an error that names the type.  [Scan] of src/date.go
    does so for a timestamp and for the other types only: it has no case
    for a string, the type of what [Value] returns, and it reads a byte
    sequence with the layout 2006-01-02 alone, so that it refuses the
    string 2009-11-15 and the bytes of 2009/11/15, which the other [Scan]
    reads, and leaves the receiver as it was. *)
Theorem C4_Scan_by_dynamic_type :
  forall (tp other : time.parser)
         (d : date.Date),
    (forall s, date.Scan tp d (date.any_Time s)
               = ({| date.Year := time.Year s; date.Month := time.Month_of s;
                     date.Day := time.Day s |}, None))
    /\ (forall b, date.Scan tp d (date.any_bytes b) = date.UnmarshalText tp d b)
    /\ (forall s, date.Scan tp d (date.any_string s)
                  = date.Scan tp d (date.any_bytes (bytes_of_string s)))
    /\ (forall v, scannable v = false ->
                  date.Scan tp d v
                  = (d, Some (date.Errorf ("date: Unsupport scanning type "
                                           ++ date.typeName v))))
    /\ (forall s, date_go.Scan tp d (date.any_Time s)
                  = ({| date.Year := time.Year s; date.Month := time.Month_of s;
                        date.Day := time.Day s |}, None))
    /\ (forall v, scannable v = false ->
                  date_go.Scan tp d v
                  = (d, Some (date.Errorf ("date: Unsupport scanning type "
                                           ++ date.typeName v))))
    /\ (forall s, date_go.Scan tp d (date.any_string s)
                  = (d, Some (date.Errorf "date: Unsupport scanning type string")))
    /\ (forall b t e, tp "2006-01-02" (string_of_bytes b) = (t, Some e) ->
                      date_go.Scan tp d (date.any_bytes b)
                      = (d, Some (date.ParseError e)))
    /\ (forall b t, tp "2006-01-02" (string_of_bytes b) = (t, None) ->
                    date_go.Scan tp d (date.any_bytes b) = (date.Of t, None))
    /\ date.Scan (time.Parse other) d (date.any_string "2009-11-15")
       = ({| date.Year := 2009; date.Month := time.November; date.Day := 15 |}, None)
    /\ date_go.Scan (time.Parse other) d (date.any_string "2009-11-15")
       = (d, Some (date.Errorf "date: Unsupport scanning type string"))
    /\ date.Scan (time.Parse other) d (date.any_bytes (bytes_of_string "2009/11/15"))
       = ({| date.Year := 2009; date.Month := time.November; date.Day := 15 |}, None)
    /\ date_go.Scan (time.Parse other) d (date.any_bytes (bytes_of_string "2009/11/15"))
       = (d, Some (date.ParseError
                     (time.newParseError "2006-01-02" "2009/11/15" "-" "/11/15"
                        EmptyString))).
Proof.
  intros tp other d.
  split; [reflexivity |]. split; [reflexivity |]. split; [reflexivity |].
  split; [intros v H; destruct v; try discriminate H; reflexivity |].
  split; [reflexivity |].
  split; [intros v H; destruct v; try discriminate H; reflexivity |].
  split; [reflexivity |].
  split; [intros b t e H; unfold date_go.Scan; rewrite H; reflexivity |].
  split; [intros b t H; unfold date_go.Scan; rewrite H; reflexivity |].
  split; [vm_compute; reflexivity |].
  split; [reflexivity |].
  split; [vm_compute; reflexivity |].
  unfold date_go.Scan.
  change (string_of_bytes (bytes_of_string "2009/11/15")) with "2009/11/15".
  assert (E : time.Parse other "2006-01-02" "2009/11/15"
              = (time.zeroTime,
                 Some (time.newParseError "2006-01-02" "2009/11/15" "-" "/11/15"
                         EmptyString))) by (vm_compute; reflexivity).
  rewrite E. reflexivity.
Qed.

Lemma C4_witness :
  date_go.Scan (time.Parse no_other) date.zeroDate (date.any_string "2009-11-15")
  = (date.zeroDate, Some (date.Errorf "date: Unsupport scanning type string"))
  /\ date.Scan (time.Parse no_other) date.zeroDate (date.any_string "2009-11-15")
     = ({| date.Year := 2009; date.Month := time.November; date.Day := 15 |}, None).
Proof.
  destruct (C4_Scan_by_dynamic_type (time.Parse no_other) no_other date.zeroDate)
    as (_ & _ & _ & _ & _ & _ & _ & _ & _ & H1 & H2 & _).
  split; [exact H2 | exact H1].
Defined.

(** In src/date.go [Scan] has no case for a string, and reads a byte
    sequence with the first layout alone. *)
Lemma date_go_Scan_string_unsupported
  (tp : time.parser)
  (d : date.Date) (s : string) :
  date_go.Scan tp d (date.any_string s)
  = (d, Some (date.Errorf "date: Unsupport scanning type string")).
Proof. reflexivity. Qed.

Lemma date_go_Scan_bytes_first_layout
  (tp : time.parser)
  (d : date.Date) (b : bytes) (t : time.Time) (e : time.ParseError) :
  tp "2006-01-02" (string_of_bytes b) = (t, Some e) ->
  date_go.Scan tp d (date.any_bytes b) = (d, Some (date.ParseError e)).
Proof. intros H. unfold date_go.Scan. rewrite H. reflexivity. Qed.

(** Where [UnmarshalText] succeeds, the one of src/date.go succeeds with
    the same Date. *)
Lemma date_go_UnmarshalText_success
  (tp : time.parser) (d d' : date.Date) (b : bytes) :
  date.UnmarshalText tp d b = (d', None) ->
  date_go.UnmarshalText tp d b = (d', None).
Proof.
  unfold date.UnmarshalText, date_go.UnmarshalText, date.layouts. simpl.
  unfold date.Parse.
  destruct (tp "2006-01-02" (string_of_bytes b)) as [t1 [e1 |]]; [| trivial].
  destruct (tp "2006/01/02" (string_of_bytes b)) as [t2 [e2 |]]; [| trivial].
  destruct (tp "02 Jan 2006" (string_of_bytes b)) as [t3 [e3 |]]; [| trivial].
  discriminate.
Qed.

Lemma date_go_Scan_unsupported
  (tp : time.parser)
  (d : date.Date) (v : date.any) :
  scannable v = false -> date_go.Scan tp d v = (d, Some (unsupported_type v)).
Proof. intros H. destruct v; try discriminate H; reflexivity. Qed.

(** ** The three layouts on the parser of the time package *)

Lemma not_a_date_rejected (other : time.parser) layout :
  In layout date.layouts -> rejects (time.Parse other) layout "not-a-date".
Proof.
  simpl. intros [<- | [<- | [<- | []]]];
  apply rejects_snd; vm_compute; discriminate.
Qed.

(** C5: [UnmarshalText] tries the layouts [2006-01-02], [2006/01/02] and
    [02 Jan 2006] in this order and the first match decides; it consults
    the parser on nothing else; the three spellings of November 15, 2009
    give the same Date; a text that no layout matches is answered by the
    error that quotes the text. *)
Theorem C5_UnmarshalText_three_layouts_in_order :
  forall (tp other : time.parser)
         (d : date.Date) (b : bytes),
    (forall t, accepts tp "2006-01-02" (string_of_bytes b) t ->
               date.UnmarshalText tp d b = (date.Of t, None))
    /\ (forall t, rejects tp "2006-01-02" (string_of_bytes b) ->
                  accepts tp "2006/01/02" (string_of_bytes b) t ->
                  date.UnmarshalText tp d b = (date.Of t, None))
    /\ (forall t, rejects tp "2006-01-02" (string_of_bytes b) ->
                  rejects tp "2006/01/02" (string_of_bytes b) ->
                  accepts tp "02 Jan 2006" (string_of_bytes b) t ->
                  date.UnmarshalText tp d b = (date.Of t, None))
    /\ (rejects tp "2006-01-02" (string_of_bytes b) ->
        rejects tp "2006/01/02" (string_of_bytes b) ->
        rejects tp "02 Jan 2006" (string_of_bytes b) ->
        snd (date.UnmarshalText tp d b)
        = Some (date.Errorf ("date: Unsupported format " ++ string_of_bytes b
                             ++ date.supported)))
    /\ (forall tp',
          (forall layout, In layout ["2006-01-02"; "2006/01/02"; "02 Jan 2006"] ->
                          tp' layout (string_of_bytes b) = tp layout (string_of_bytes b)) ->
          date.UnmarshalText tp' d b = date.UnmarshalText tp d b)
    /\ date.UnmarshalText (time.Parse other) d (bytes_of_string "2009-11-15")
       = ({| date.Year := 2009; date.Month := time.November; date.Day := 15 |}, None)
    /\ date.UnmarshalText (time.Parse other) d (bytes_of_string "2009/11/15")
       = ({| date.Year := 2009; date.Month := time.November; date.Day := 15 |}, None)
    /\ date.UnmarshalText (time.Parse other) d (bytes_of_string "15 Nov 2009")
       = ({| date.Year := 2009; date.Month := time.November; date.Day := 15 |}, None)
    /\ snd (date.UnmarshalText (time.Parse other) d (bytes_of_string "not-a-date"))
       = Some (date.Errorf ("date: Unsupported format " ++ "not-a-date"
                            ++ date.supported)).
Proof.
  intros tp other d b.
  split; [| split; [| split; [| split; [| split; [| split; [| split; [| split]]]]]]].
  - intros t. apply UnmarshalText_first.
  - intros t. apply UnmarshalText_second.
  - intros t. apply UnmarshalText_third.
  - intros H1 H2 H3. rewrite (UnmarshalText_none tp d b H1 H2 H3). reflexivity.
  - intros tp'. apply UnmarshalText_only_three.
  - vm_compute. reflexivity.
  - vm_compute. reflexivity.
  - vm_compute. reflexivity.
  - vm_compute. reflexivity.
Qed.

Lemma C5_witness :
  date.UnmarshalText (time.Parse no_other)
    date.zeroDate (bytes_of_string "2009/11/15")
  = ({| date.Year := 2009; date.Month := 11; date.Day := 15 |}, None).
Proof.
  destruct (C5_UnmarshalText_three_layouts_in_order
              (time.Parse no_other)
              no_other
              date.zeroDate (bytes_of_string "2009/11/15")) as (_ & H & _).
  rewrite (H (time.Date 2009 11 15 0 0 0 0 time.UTC)).
  - vm_compute. reflexivity.
  - apply rejects_snd. vm_compute. discriminate.
  - vm_compute. reflexivity.
Defined.

(** C3: in this revision a text that no layout matches leaves the
    receiver holding [Date{}], not its prior value: here the receiver
    was March 5, 2001. *)
Theorem C3_UnmarshalText_failure_overwrites_receiver :
  forall other : time.parser,
    date.UnmarshalText (time.Parse other)
      {| date.Year := 2001; date.Month := time.March; date.Day := 5 |}
      (bytes_of_string "not-a-date")
    = ({| date.Year := 0; date.Month := 0; date.Day := 0 |},
       Some (unsupported_format (bytes_of_string "not-a-date"))).
Proof.
  intros other. vm_compute. reflexivity.
Qed.

(** C1: the year is printed with the verb [%4d], which pads with spaces:
    January 3 of year 7 is printed with three spaces before the 7;
    [MarshalText] and [Value] hand the same text on without an error. *)
Theorem C1_String_pads_year_with_spaces :
  date.String {| date.Year := 7; date.Month := time.January; date.Day := 3 |}
  = "   7-01-03"
  /\ date.String {| date.Year := 7; date.Month := time.January; date.Day := 3 |}
     <> "0007-01-03"
  /\ (forall d, date.MarshalText d = (bytes_of_string (date.String d), None))
  /\ (forall d, date.Value d = (date.any_string (date.String d), None)).
Proof.
  split; [| split; [| split]].
  - reflexivity.
  - discriminate.
  - intros d. reflexivity.
  - intros d. reflexivity.
Qed.

(** ** The calendar: a date is read back from its midnight *)

Lemma forall_from_spec f n : forall lo, forall_from f lo n = true ->
  forall x, lo <= x < lo + Z.of_nat n -> f x = true.
Proof.
  induction n as [| n IH]; intros lo H x Hx.
  - simpl in Hx. lia.
  - simpl in H. destruct (f lo) eqn:E; [| discriminate].
    destruct (Z.eq_dec x lo) as [-> | Hne]; [exact E |].
    apply (IH (lo + 1) H). lia.
Qed.

Lemma absDate_split abs :
  time.absDate abs =
  let d := abs / time.secondsPerDay in
  let n := d / time.daysPer400Years in
  let '(y, yd) := split400 (400 * n) (d - time.daysPer400Years * n) in
  let year := y + time.absoluteZeroYear in
  let '(m, dd) := month_day (time.isLeap year) yd in
  (year, m, dd, yd).
Proof.
  unfold time.absDate, split400, month_day. cbv zeta.
  repeat match goal with
  | |- context [if ?b then _ else _] => destruct b
  end; reflexivity.
Qed.

Lemma split400_shift y d :
  split400 y d = (y + fst (split400 0 d), snd (split400 0 d)).
Proof.
  unfold split400. cbv zeta. cbn [fst snd]. f_equal. ring.
Qed.

Lemma pair_eqb_eq p q : pair_eqb p q = true -> p = q.
Proof.
  destruct p, q. unfold pair_eqb. simpl. rewrite andb_true_iff, !Z.eqb_eq.
  intros [-> ->]. reflexivity.
Qed.

Lemma check_cycle : forall_from check_cycle_year 0 400 = true.
Proof. vm_compute. reflexivity. Qed.

Lemma split400_cuts y d :
  split400 y d
  = let '(n1, n2, n3) := cuts d in
    (y + 100 * n1 + 4 * n2 + n3,
     d - time.daysPer100Years * n1 - time.daysPer4Years * n2 - 365 * n3).
Proof. reflexivity. Qed.

Lemma cuts_between lo hi d :
  lo <= d <= hi -> cuts lo = cuts hi -> cuts d = cuts lo.
Proof.
  unfold cuts, time.daysPer100Years, time.daysPer4Years. cbv zeta.
  rewrite !Z.shiftr_div_pow2 by lia. change (2 ^ 2) with 4.
  change (365 * 100 + 24) with 36524. change (365 * 4 + 1) with 1461.
  intros H E.
  pose proof (f_equal (fun p : Z * Z * Z => fst (fst p)) E) as E1.
  pose proof (f_equal (fun p : Z * Z * Z => snd (fst p)) E) as E2.
  pose proof (f_equal (fun p : Z * Z * Z => snd p) E) as E3.
  cbv beta in E1, E2, E3. cbn [fst snd] in E1, E2, E3. clear E.
  set (a := lo / 36524 - lo / 36524 / 4) in *.
  assert (F1 : d / 36524 - d / 36524 / 4 = a).
  { clear E2 E3. subst a. Z.div_mod_to_equations. lia. }
  rewrite F1. rewrite <- E1 in E2, E3.
  set (b := (lo - 36524 * a) / 1461) in *.
  assert (F2 : (d - 36524 * a) / 1461 = b).
  { clear E3 E1 F1. subst b. Z.div_mod_to_equations. lia. }
  rewrite F2. rewrite <- E2 in E3.
  f_equal.
  clear E1 E2 F1 F2. Z.div_mod_to_equations. lia.
Qed.

Lemma check_months :
  forall_from (check_month true) 1 12 = true /\ forall_from (check_month false) 1 12 = true.
Proof. vm_compute. split; reflexivity. Qed.

Lemma rem_zero_mod a b : b <> 0 -> (Z.rem a b =? 0) = (a mod b =? 0).
Proof.
  intros Hb. destruct (Z.eqb_spec (Z.rem a b) 0) as [H | H];
  destruct (Z.eqb_spec (a mod b) 0) as [G | G]; try reflexivity.
  - apply Z.rem_mod_eq_0 in H; [contradiction | exact Hb].
  - apply Z.rem_mod_eq_0 in G; [contradiction | exact Hb].
Qed.

Lemma isLeap_mod y :
  time.isLeap y
  = (y mod 4 =? 0) && (negb (y mod 100 =? 0) || (y mod 400 =? 0)).
Proof.
  unfold time.isLeap. rewrite !rem_zero_mod by lia. reflexivity.
Qed.

Lemma isLeap_cycle y :
  time.isLeap y = leap400 ((y - time.absoluteZeroYear) mod 400).
Proof.
  unfold leap400. rewrite !isLeap_mod.
  set (r := (y - time.absoluteZeroYear) mod 400).
  assert (Hy : y = 400 * ((y - time.absoluteZeroYear) / 400 - 730692556) + (r + 1)).
  { unfold r. rewrite Z.mod_eq by lia. unfold time.absoluteZeroYear. lia. }
  assert (E4 : y mod 4 = (r + 1) mod 4).
  { rewrite Hy at 1.
    replace (400 * ((y - time.absoluteZeroYear) / 400 - 730692556) + (r + 1))
      with ((r + 1) + (100 * ((y - time.absoluteZeroYear) / 400 - 730692556)) * 4) by ring.
    apply Z.mod_add. lia. }
  assert (E100 : y mod 100 = (r + 1) mod 100).
  { rewrite Hy at 1.
    replace (400 * ((y - time.absoluteZeroYear) / 400 - 730692556) + (r + 1))
      with ((r + 1) + (4 * ((y - time.absoluteZeroYear) / 400 - 730692556)) * 100) by ring.
    apply Z.mod_add. lia. }
  assert (E400 : y mod 400 = (r + 1) mod 400).
  { rewrite Hy at 1.
    replace (400 * ((y - time.absoluteZeroYear) / 400 - 730692556) + (r + 1))
      with ((r + 1) + ((y - time.absoluteZeroYear) / 400 - 730692556) * 400) by ring.
    apply Z.mod_add. lia. }
  rewrite E4, E100, E400. reflexivity.
Qed.

Lemma epoch_days_cycle y :
  epoch_days y
  = time.daysPer400Years * ((y - time.absoluteZeroYear) / 400)
    + year400_days ((y - time.absoluteZeroYear) mod 400).
Proof.
  unfold epoch_days, year400_days. cbv zeta.
  rewrite (Z.mod_eq (y - time.absoluteZeroYear) 400) by lia. ring.
Qed.

(** The count of days grows with the year, by the days of each year. *)
Lemma year400_days_succ_all :
  forall_from
    (fun r => year400_days (r + 1) =? year400_days r + year_length (leap400 r))
    0 399 = true.
Proof. vm_compute. reflexivity. Qed.

Lemma epoch_days_succ y :
  epoch_days (y + 1)
  = epoch_days y + year_length (time.isLeap y).
Proof.
  rewrite !epoch_days_cycle, isLeap_cycle.
  set (Y := y - time.absoluteZeroYear).
  replace (y + 1 - time.absoluteZeroYear) with (Y + 1) by (unfold Y; ring).
  pose proof (Z.mod_pos_bound Y 400 ltac:(lia)) as Hr.
  pose proof (Z.div_mod Y 400 ltac:(lia)) as HY.
  destruct (Z.eq_dec (Y mod 400) 399) as [E | E].
  - assert (Hq : (Y + 1) / 400 = Y / 400 + 1).
    { symmetry. apply (Z.div_unique _ _ _ 0); lia. }
    assert (Hm : (Y + 1) mod 400 = 0).
    { symmetry. apply (Z.mod_unique _ _ (Y / 400 + 1)); lia. }
    rewrite Hq, Hm, E. vm_compute year400_days. vm_compute (year_length _).
    unfold time.daysPer400Years. ring.
  - assert (Hq : (Y + 1) / 400 = Y / 400).
    { symmetry. apply (Z.div_unique _ _ _ (Y mod 400 + 1)); lia. }
    assert (Hm : (Y + 1) mod 400 = Y mod 400 + 1).
    { symmetry. apply (Z.mod_unique _ _ (Y / 400)); lia. }
    rewrite Hq, Hm.
    pose proof (forall_from_spec _ _ _ year400_days_succ_all (Y mod 400)) as G.
    cbv beta in G. rewrite Z.eqb_eq in G. rewrite G; [ring |].
    change (Z.of_nat 399) with 399. lia.
Qed.

Lemma epoch_days_after y (k : nat) :
  epoch_days y + 365 * Z.of_nat k <= epoch_days (y + Z.of_nat k).
Proof.
  induction k as [| k IH].
  - change (Z.of_nat 0) with 0. rewrite Z.mul_0_r, !Z.add_0_r. lia.
  - rewrite Nat2Z.inj_succ.
    replace (y + Z.succ (Z.of_nat k)) with (y + Z.of_nat k + 1) by lia.
    rewrite epoch_days_succ.
    unfold year_length. destruct (time.isLeap (y + Z.of_nat k)); lia.
Qed.

Lemma epoch_days_next_year y y' :
  y < y' ->
  epoch_days y + year_length (time.isLeap y) <= epoch_days y'.
Proof.
  intros H. rewrite <- epoch_days_succ.
  pose proof (epoch_days_after (y + 1) (Z.to_nat (y' - (y + 1)))) as G.
  rewrite Z2Nat.id in G by lia.
  replace (y + 1 + (y' - (y + 1))) with y' in G by ring. lia.
Qed.

Lemma epoch_days_zero : epoch_days time.absoluteZeroYear = 0.
Proof. reflexivity. Qed.

Lemma epoch_days_lower y :
  time.absoluteZeroYear <= y ->
  365 * (y - time.absoluteZeroYear) <= epoch_days y.
Proof.
  intros H.
  pose proof (epoch_days_after time.absoluteZeroYear (Z.to_nat (y - time.absoluteZeroYear))) as G.
  rewrite Z2Nat.id in G by lia. rewrite epoch_days_zero in G.
  replace (time.absoluteZeroYear + (y - time.absoluteZeroYear)) with y in G by ring.
  lia.
Qed.

Lemma epoch_days_mono y y' : y <= y' -> epoch_days y <= epoch_days y'.
Proof.
  intros H.
  pose proof (epoch_days_after y (Z.to_nat (y' - y))) as G.
  rewrite Z2Nat.id in G by lia. replace (y + (y' - y)) with y' in G by ring. lia.
Qed.

Lemma epoch_days_upper y :
  time.absoluteZeroYear <= y ->
  epoch_days y <= 366 * (y - time.absoluteZeroYear).
Proof.
  intros H. unfold epoch_days. cbv zeta.
  set (Y := y - time.absoluteZeroYear) in *.
  change time.daysPer400Years with 146097. change time.daysPer100Years with 36524.
  change time.daysPer4Years with 1461.
  pose proof (Z.div_mod Y 400 ltac:(lia)) as E1.
  pose proof (Z.mod_pos_bound Y 400 ltac:(lia)) as B1.
  assert (E1' : Y - 400 * (Y / 400) = Y mod 400) by lia. rewrite E1'.
  set (Y1 := Y mod 400) in *.
  pose proof (Z.div_mod Y1 100 ltac:(lia)) as E2.
  pose proof (Z.mod_pos_bound Y1 100 ltac:(lia)) as B2.
  assert (E2' : Y1 - 100 * (Y1 / 100) = Y1 mod 100) by lia. rewrite E2'.
  set (Y2 := Y1 mod 100) in *.
  pose proof (Z.div_mod Y2 4 ltac:(lia)) as E3.
  pose proof (Z.mod_pos_bound Y2 4 ltac:(lia)) as B3.
  assert (E3' : Y2 - 4 * (Y2 / 4) = Y2 mod 4) by lia. rewrite E3'.
  assert (0 <= Y / 400) by (apply Z.div_pos; lia).
  assert (0 <= Y1 / 100) by (apply Z.div_pos; lia).
  assert (0 <= Y2 / 4) by (apply Z.div_pos; lia).
  lia.
Qed.

Lemma norm_in_range hi lo base : 0 <= lo < base -> time.norm hi lo base = (hi, lo).
Proof.
  intros H. unfold time.norm.
  destruct (Z.ltb_spec lo 0); [lia |].
  destruct (Z.geb_spec lo base); [lia | reflexivity].
Qed.

(** ** Arithmetic in 64 bits *)

Lemma wrap64_id x : - 2 ^ 63 <= x < 2 ^ 63 -> time.wrap64 x = x.
Proof.
  intros H. unfold time.wrap64. rewrite Z.mod_small; lia.
Qed.

Lemma wrap64_range x : - 2 ^ 63 <= time.wrap64 x < 2 ^ 63.
Proof.
  unfold time.wrap64.
  pose proof (Z.mod_pos_bound (x + 2 ^ 63) (2 ^ 64) ltac:(lia)). lia.
Qed.

Lemma uint64_id x : 0 <= x < 2 ^ 64 -> time.uint64 x = x.
Proof. intros H. unfold time.uint64. apply Z.mod_small. exact H. Qed.

Lemma uint64_range x : 0 <= time.uint64 x < 2 ^ 64.
Proof. unfold time.uint64. apply Z.mod_pos_bound. lia. Qed.

Lemma same64_refl a : same64 a a.
Proof. reflexivity. Qed.

Lemma same64_trans a b c : same64 a b -> same64 b c -> same64 a c.
Proof. unfold same64. congruence. Qed.

Lemma same64_add a a' b b' : same64 a a' -> same64 b b' -> same64 (a + b) (a' + b').
Proof.
  unfold same64. intros Ha Hb.
  rewrite (Z.add_mod a b), (Z.add_mod a' b'), Ha, Hb by lia. reflexivity.
Qed.

Lemma same64_sub a a' b b' : same64 a a' -> same64 b b' -> same64 (a - b) (a' - b').
Proof.
  unfold same64. intros Ha Hb.
  rewrite (Zminus_mod a b), (Zminus_mod a' b'), Ha, Hb. reflexivity.
Qed.

Lemma same64_mul a a' b b' : same64 a a' -> same64 b b' -> same64 (a * b) (a' * b').
Proof.
  unfold same64. intros Ha Hb.
  rewrite (Z.mul_mod a b), (Z.mul_mod a' b'), Ha, Hb by lia. reflexivity.
Qed.

Lemma same64_opp a a' : same64 a a' -> same64 (- a) (- a').
Proof.
  intros H. replace (- a) with (0 - a) by ring. replace (- a') with (0 - a') by ring.
  apply same64_sub; [apply same64_refl | exact H].
Qed.

Lemma uint64_same64 x : same64 (time.uint64 x) x.
Proof. unfold same64, time.uint64. apply Z.mod_mod. lia. Qed.

Lemma wrap64_same64 x : same64 (time.wrap64 x) x.
Proof.
  unfold same64, time.wrap64.
  rewrite Zminus_mod, Z.mod_mod, <- Zminus_mod by lia.
  f_equal. ring.
Qed.

Lemma same64_uint64 a b : same64 a b -> time.uint64 a = time.uint64 b.
Proof. intros H. exact H. Qed.

Lemma same64_wrap64 a b : same64 a b -> time.wrap64 a = time.wrap64 b.
Proof.
  intros H. unfold time.wrap64. f_equal.
  apply (same64_add a b (2 ^ 63) (2 ^ 63) H (same64_refl _)).
Qed.

(** Two integers that 64 bits cannot tell apart and that are less than
    2^64 apart are equal. *)
Lemma same64_close a b : same64 a b -> - 2 ^ 64 < a - b < 2 ^ 64 -> a = b.
Proof.
  unfold same64. intros H Hb.
  pose proof (Z.div_mod a (2 ^ 64) ltac:(lia)) as Ea.
  pose proof (Z.div_mod b (2 ^ 64) ltac:(lia)) as Eb.
  pose proof (Z.mod_pos_bound a (2 ^ 64) ltac:(lia)).
  rewrite H in Ea.
  assert (a - b = 2 ^ 64 * (a / 2 ^ 64 - b / 2 ^ 64)) by lia.
  assert (a / 2 ^ 64 - b / 2 ^ 64 = 0) by lia. lia.
Qed.

Lemma if_same (A : Type) (b : bool) (x : A) : (if b then x else x) = x.
Proof. destruct b; reflexivity. Qed.

(** The wraps of an expression are taken off one by one; what is left is
    compared as integers. *)
Ltac strip64 :=
  lazymatch goal with
  | |- same64 (time.wrap64 _) _ => eapply same64_trans; [apply wrap64_same64 | strip64]
  | |- same64 (time.uint64 _) _ => eapply same64_trans; [apply uint64_same64 | strip64]
  | |- same64 (_ + _) _ => apply same64_add; strip64
  | |- same64 (_ - _) _ => apply same64_sub; strip64
  | |- same64 (_ * _) _ => apply same64_mul; strip64
  | |- same64 (- _) _ => apply same64_opp; strip64
  | |- same64 _ _ => apply same64_refl
  end.

Ltac same64 :=
  eapply same64_trans;
  [ strip64
  | match goal with
    | |- same64 ?a ?b =>
        replace a with b
          by (unfold time.internalToUnix, time.internalToAbsolute; ring);
        apply same64_refl
    end ].

(** As long as the count stays within its 64 bits, [daysSinceEpoch] is
    the day number of January 1 of the year. *)
Lemma daysSinceEpoch_epoch_days y :
  0 <= y - time.absoluteZeroYear < 2 ^ 64 ->
  time.daysSinceEpoch y = time.uint64 (epoch_days y).
Proof.
  intros H. unfold time.daysSinceEpoch, epoch_days.
  set (Y := y - time.absoluteZeroYear) in *.
  assert (E0 : time.uint64 (time.wrap64 Y) = Y).
  { rewrite (same64_uint64 _ Y (wrap64_same64 Y)). apply uint64_id. exact H. }
  rewrite E0. cbv zeta.
  pose proof (Z.mod_pos_bound Y 400 ltac:(lia)) as B1.
  rewrite (Z.mod_eq Y 400) in B1 by lia. rewrite (Z.mul_comm 400 (Y / 400)) in B1.
  assert (Hn : 0 <= Y / 400) by (apply Z.div_pos; lia).
  rewrite (uint64_id (400 * (Y / 400))) by lia.
  rewrite (uint64_id (Y - 400 * (Y / 400))) by lia.
  set (Y1 := Y - 400 * (Y / 400)) in *.
  pose proof (Z.mod_pos_bound Y1 100 ltac:(lia)) as B2.
  rewrite (Z.mod_eq Y1 100) in B2 by lia. rewrite (Z.mul_comm 100 (Y1 / 100)) in B2.
  assert (Hn1 : 0 <= Y1 / 100) by (apply Z.div_pos; lia).
  rewrite (uint64_id (100 * (Y1 / 100))) by lia.
  rewrite (uint64_id (Y1 - 100 * (Y1 / 100))) by lia.
  set (Y2 := Y1 - 100 * (Y1 / 100)) in *.
  pose proof (Z.mod_pos_bound Y2 4 ltac:(lia)) as B3.
  rewrite (Z.mod_eq Y2 4) in B3 by lia. rewrite (Z.mul_comm 4 (Y2 / 4)) in B3.
  assert (Hn2 : 0 <= Y2 / 4) by (apply Z.div_pos; lia).
  rewrite (uint64_id (4 * (Y2 / 4))) by lia.
  rewrite (uint64_id (Y2 - 4 * (Y2 / 4))) by lia.
  apply same64_uint64. same64.
Qed.

Lemma norm_clock h mi s ns :
  valid_clock h mi s ns ->
  time.norm s ns 1000000000 = (s, ns) /\ time.norm mi s 60 = (mi, s)
  /\ time.norm h mi 60 = (h, mi).
Proof.
  intros (Hh & Hmi & Hs & Hns). repeat split; apply norm_in_range; assumption.
Qed.

(** The instant that [time.Date] gives for a month and a clock time in
    range, in a zone of one offset: the second count of the UTC instant,
    as 64 bits hold it. *)
Lemma Date_fixed_zone y m d h mi s ns off :
  1 <= m <= 12 -> valid_clock h mi s ns ->
  0 <= y - time.absoluteZeroYear < 2 ^ 64 ->
  time.Date y m d h mi s ns (FixedZone off)
  = {| time.sec :=
         time.wrap64 ((epoch_days y + yday_of (time.isLeap y) m d) * time.secondsPerDay
                      + (h * 3600 + mi * 60 + s) - off + time.absoluteToInternal);
       time.nsec := ns; time.loc := FixedZone off |}.
Proof.
  intros Hm Hc Hy. destruct (norm_clock h mi s ns Hc) as (N1 & N2 & N3).
  destruct Hc as (Hh & Hmi & Hs & Hns).
  unfold time.Date.
  rewrite (wrap64_id (m - 1)) by lia.
  rewrite (norm_in_range y (m - 1) 12) by lia. cbv beta iota zeta.
  replace (m - 1 + 1) with m by ring. rewrite (wrap64_id m) by lia.
  rewrite N1. cbv beta iota zeta. rewrite N2. cbv beta iota zeta.
  rewrite N3. cbv beta iota zeta.
  rewrite (norm_in_range d h 24) by lia. cbv beta iota zeta.
  rewrite (daysSinceEpoch_epoch_days y Hy).
  cbn [time.lookup_zone FixedZone]. cbv beta iota zeta. cbn [fst].
  rewrite if_same. unfold time.unixTime. f_equal.
  unfold yday_of. cbv zeta.
  change time.secondsPerHour with 3600. change time.secondsPerMinute with 60.
  set (E := epoch_days y). set (B := time.daysBefore_at (m - 1)).
  destruct (time.isLeap y && (m >=? time.March));
    destruct (Z.eqb_spec off 0) as [-> | Hoff]; apply same64_wrap64; same64.
Qed.

(** [abs] of an instant in a zone of one offset. *)
Lemma abs_fixed_zone T ns off :
  time.abs {| time.sec := time.wrap64 (T - off + time.absoluteToInternal);
              time.nsec := ns; time.loc := FixedZone off |}
  = time.uint64 T.
Proof.
  unfold time.abs, time.unixSec. cbn [time.sec time.loc time.lookup_zone FixedZone fst].
  apply same64_uint64. same64.
Qed.

(** The seconds that [time.Date] counts for a date whose month and clock
    are in range, in a zone of one offset, as long as they stay within
    the 64 bits of the count. *)
Lemma abs_Date_clock y m d h mi s ns off :
  1 <= m <= 12 -> valid_clock h mi s ns ->
  0 <= y - time.absoluteZeroYear < 2 ^ 64 ->
  0 <= (epoch_days y + yday_of (time.isLeap y) m d) * time.secondsPerDay
       + (h * 3600 + mi * 60 + s) < 2 ^ 64 ->
  time.abs (time.Date y m d h mi s ns (FixedZone off))
  = (epoch_days y + yday_of (time.isLeap y) m d) * time.secondsPerDay
    + (h * 3600 + mi * 60 + s).
Proof.
  intros Hm Hc Hy Hb.
  rewrite (Date_fixed_zone y m d h mi s ns off Hm Hc Hy), abs_fixed_zone.
  apply uint64_id. exact Hb.
Qed.

Lemma valid_clock_midnight : valid_clock 0 0 0 0.
Proof. unfold valid_clock. lia. Qed.

(** The seconds of midnight UTC of a date whose month is in range. *)
Lemma abs_Date y m d :
  1 <= m <= 12 ->
  0 <= y - time.absoluteZeroYear < 2 ^ 64 ->
  0 <= (epoch_days y + yday_of (time.isLeap y) m d) * time.secondsPerDay < 2 ^ 64 ->
  time.abs (time.Date y m d 0 0 0 0 time.UTC)
  = (epoch_days y + yday_of (time.isLeap y) m d) * time.secondsPerDay.
Proof.
  intros Hm Hy Hb. change time.UTC with (FixedZone 0).
  rewrite (abs_Date_clock y m d 0 0 0 0 0 Hm valid_clock_midnight Hy) by lia. ring.
Qed.

Lemma daysIn_leap_eq m y : time.daysIn m y = daysIn_leap (time.isLeap y) m.
Proof. reflexivity. Qed.

Lemma month_day_yday leap m d :
  1 <= m <= 12 -> 1 <= d <= daysIn_leap leap m ->
  0 <= yday_of leap m d < year_length leap
  /\ month_day leap (yday_of leap m d) = (m, d).
Proof.
  intros Hm Hd.
  assert (H : check_month leap m = true).
  { destruct check_months as [Ht Hf].
    destruct leap; [apply (forall_from_spec _ _ _ Ht) | apply (forall_from_spec _ _ _ Hf)];
    simpl; lia. }
  unfold check_month in H.
  pose proof (forall_from_spec _ _ _ H d) as G. cbv beta zeta in G.
  rewrite !andb_true_iff in G.
  destruct G as [[G1 G2] G3].
  - rewrite Z2Nat.id by lia. lia.
  - apply pair_eqb_eq in G3. split; [lia | exact G3].
Qed.

Lemma split400_year r yd :
  0 <= r < 400 -> 0 <= yd < year_length (leap400 r) ->
  0 <= year400_days r + yd < time.daysPer400Years
  /\ split400 0 (year400_days r + yd) = (r, yd).
Proof.
  intros Hr Hyd.
  assert (H : check_cycle_year r = true).
  { apply (forall_from_spec _ _ _ check_cycle). simpl. lia. }
  unfold check_cycle_year in H. cbv zeta in H.
  set (lo := year400_days r) in *.
  set (hi := lo + year_length (leap400 r) - 1) in *.
  rewrite !andb_true_iff in H. destruct H as [[[H1 H2] H3] H4].
  apply Z.leb_le in H1. apply Z.ltb_lt in H2.
  assert (Hc : cuts lo = cuts hi).
  { unfold cuts_eqb in H3. destruct (cuts lo) as [[a b] c], (cuts hi) as [[a' b'] c'].
    rewrite !andb_true_iff, !Z.eqb_eq in H3. destruct H3 as [[-> ->] ->]. reflexivity. }
  assert (Hd : cuts (lo + yd) = cuts lo) by (apply (cuts_between lo hi); [unfold hi; lia | exact Hc]).
  split; [unfold hi in H2; lia |].
  rewrite split400_cuts in H4 |- *. rewrite Hd.
  destruct (cuts lo) as [[n1 n2] n3].
  rewrite andb_true_iff, !Z.eqb_eq in H4. destruct H4 as [H4 H5].
  f_equal; lia.
Qed.

(** A date of the calendar is read back from the seconds of its midnight
    as it was written. *)
Lemma absDate_civil y m d :
  1 <= m <= 12 -> 1 <= d <= time.daysIn m y ->
  time.absDate ((epoch_days y + yday_of (time.isLeap y) m d) * time.secondsPerDay)
  = (y, m, d, yday_of (time.isLeap y) m d).
Proof.
  intros Hm Hd.
  rewrite daysIn_leap_eq in Hd.
  destruct (month_day_yday _ _ _ Hm Hd) as [Hyd Hmd].
  set (yd := yday_of (time.isLeap y) m d) in *.
  rewrite absDate_split.
  rewrite Z.div_mul by (unfold time.secondsPerDay, time.secondsPerHour, time.secondsPerMinute; lia).
  rewrite epoch_days_cycle.
  set (q := (y - time.absoluteZeroYear) / 400).
  set (r := (y - time.absoluteZeroYear) mod 400).
  assert (Hr : 0 <= r < 400) by (apply Z.mod_pos_bound; lia).
  rewrite isLeap_cycle in Hyd. fold r in Hyd.
  destruct (split400_year r yd Hr Hyd) as [Hb Hs].
  assert (Hq : (time.daysPer400Years * q + year400_days r + yd) / time.daysPer400Years = q).
  { symmetry. apply (Z.div_unique _ _ q (year400_days r + yd)); [lia | ring]. }
  cbv zeta. rewrite Hq.
  replace (time.daysPer400Years * q + year400_days r + yd - time.daysPer400Years * q)
    with (year400_days r + yd) by ring.
  rewrite split400_shift, Hs. cbn [fst snd].
  assert (Hy : 400 * q + r + time.absoluteZeroYear = y).
  { unfold q, r. rewrite Z.mod_eq by lia. ring. }
  rewrite Hy, Hmd. reflexivity.
Qed.

(** The day of the year of a date of the calendar. *)
Lemma yday_of_valid y m d :
  1 <= m <= 12 -> 1 <= d <= time.daysIn m y ->
  0 <= yday_of (time.isLeap y) m d < year_length (time.isLeap y).
Proof.
  intros Hm Hd. rewrite daysIn_leap_eq in Hd. apply (month_day_yday _ _ _ Hm Hd).
Qed.

(** So it is read back from its midnight, as long as the seconds of the
    midnight fit the unsigned count. *)
Lemma absDate_Date y m d :
  1 <= m <= 12 -> 1 <= d <= time.daysIn m y ->
  time.absoluteZeroYear <= y ->
  (epoch_days y + yday_of (time.isLeap y) m d) * time.secondsPerDay < 2 ^ 64 ->
  time.absDate (time.abs (time.Date y m d 0 0 0 0 time.UTC))
  = (y, m, d, yday_of (time.isLeap y) m d).
Proof.
  intros Hm Hd Hy Hb.
  pose proof (yday_of_valid y m d Hm Hd) as Hyd.
  pose proof (epoch_days_lower y Hy) as Hl.
  change time.secondsPerDay with 86400 in Hb.
  rewrite abs_Date; [apply absDate_civil; assumption | exact Hm | lia |].
  change time.secondsPerDay with 86400. lia.
Qed.

(** The years 0 .. 9999 are far within the counts. *)
Lemma small_year_fits y yd :
  0 <= y <= 9999 -> 0 <= yd < 366 ->
  time.absoluteZeroYear <= y
  /\ (epoch_days y + yd) * time.secondsPerDay < 2 ^ 64.
Proof.
  intros Hy Hyd. assert (Ha : time.absoluteZeroYear <= y) by (unfold time.absoluteZeroYear; lia).
  split; [exact Ha |].
  pose proof (epoch_days_upper y Ha) as Hu.
  unfold time.absoluteZeroYear in Hu. change time.secondsPerDay with 86400. lia.
Qed.

Lemma absDate_Date_small y m d :
  0 <= y <= 9999 -> 1 <= m <= 12 -> 1 <= d <= time.daysIn m y ->
  time.absDate (time.abs (time.Date y m d 0 0 0 0 time.UTC))
  = (y, m, d, yday_of (time.isLeap y) m d).
Proof.
  intros Hy Hm Hd.
  pose proof (yday_of_valid y m d Hm Hd) as Hyd.
  destruct (small_year_fits y (yday_of (time.isLeap y) m d) Hy) as [Ha Hb].
  { unfold year_length in Hyd. destruct (time.isLeap y); lia. }
  apply absDate_Date; assumption.
Qed.

(** ** The canonical text under the layout [2006-01-02] *)

Lemma year_ok_all : forall_from year_ok 1000 (Z.to_nat 9000) = true.
Proof. vm_compute. reflexivity. Qed.

Lemma two_ok_all : forall_from two_ok 0 100 = true.
Proof. vm_compute. reflexivity. Qed.

Lemma year_ok_range y : 1000 <= y <= 9999 -> year_ok y = true.
Proof.
  intros H. apply (forall_from_spec _ _ _ year_ok_all).
  rewrite Z2Nat.id by lia. lia.
Qed.

Lemma two_ok_range n : 0 <= n <= 99 -> two_ok n = true.
Proof.
  intros H. apply (forall_from_spec _ _ _ two_ok_all).
  change (Z.of_nat 100) with 100. lia.
Qed.

(** With a year of four digits and a month and a day of at most two,
    [String] gives the canonical form. *)
Lemma String_canonical d :
  1000 <= date.Year d <= 9999 -> 0 <= date.Month d <= 99 -> 0 <= date.Day d <= 99 ->
  canonical_text (date.String d) = true.
Proof.
  intros Hy Hm Hd.
  pose proof (year_ok_range _ Hy) as Y.
  pose proof (two_ok_range _ Hm) as M.
  pose proof (two_ok_range _ Hd) as D.
  unfold year_ok in Y. unfold two_ok in M, D.
  unfold date.String, fmt.Sprintf_4d_02d_02d.
  destruct (fmt.fmtInteger 4 false (date.Year d))
    as [| y1 [| y2 [| y3 [| y4 [| ? ?]]]]]; try discriminate Y.
  destruct (fmt.fmtInteger 2 true (date.Month d)) as [| m1 [| m2 [| ? ?]]];
    try discriminate M.
  destruct (fmt.fmtInteger 2 true (date.Day d)) as [| d1 [| d2 [| ? ?]]];
    try discriminate D.
  rewrite !andb_true_iff in Y. rewrite !andb_true_iff in M. rewrite !andb_true_iff in D.
  destruct Y as [[[[Y1 Y2] Y3] Y4] _]. destruct M as [[M1 M2] _]. destruct D as [[D1 D2] _].
  cbn [append canonical_text]. rewrite Y1, Y2, Y3, Y4, M1, M2, D1, D2. reflexivity.
Qed.

Lemma substring_0_0 s : substring 0 0 s = EmptyString.
Proof. destruct s; reflexivity. Qed.

Section Steps.

Variables (k : nat) (alayout avalue layout value pfx suffix : string).
Variables (year month day : Z).

Lemma step_LongYear a b c e r y :
  time.nextStdChunk layout = (pfx, time.stdLongYear, suffix) ->
  time.skip value pfx = (String a (String b (String c (String e r))), true) ->
  time.between (Some a) "0" "9" = true ->
  time.atoi (String a (String b (String c (String e EmptyString)))) = Some y ->
  time.parse_loop (S k) alayout avalue layout value year month day
  = time.parse_loop k alayout avalue suffix r y month day.
Proof.
  intros Hc Hs Ha Hy. cbn [time.parse_loop]. rewrite Hc, Hs. cbv beta iota zeta.
  unfold time.isDigit, time.byte_at. cbn [String.get String.length Nat.ltb Nat.leb].
  rewrite Ha. cbn [negb orb substring time.drop]. rewrite substring_0_0, Hy. reflexivity.
Qed.

Lemma step_ZeroMonth a b r :
  time.nextStdChunk layout = (pfx, time.stdZeroMonth, suffix) ->
  time.skip value pfx = (String a (String b r), true) ->
  time.between (Some a) "0" "9" = true ->
  time.between (Some b) "0" "9" = true ->
  1 <= (byte_val a - 48) * 10 + (byte_val b - 48) <= 12 ->
  time.parse_loop (S k) alayout avalue layout value year month day
  = time.parse_loop k alayout avalue suffix r year
      ((byte_val a - 48) * 10 + (byte_val b - 48)) day.
Proof.
  intros Hc Hs Ha Hb Hm. cbn [time.parse_loop]. rewrite Hc, Hs. cbv beta iota zeta.
  unfold time.getnum. rewrite Ha, Hb.
  destruct (Z.leb_spec ((byte_val a - 48) * 10 + (byte_val b - 48)) 0); [lia |].
  destruct (Z.ltb_spec 12 ((byte_val a - 48) * 10 + (byte_val b - 48))); [lia |].
  reflexivity.
Qed.

Lemma step_ZeroDay a b r :
  time.nextStdChunk layout = (pfx, time.stdZeroDay, suffix) ->
  time.skip value pfx = (String a (String b r), true) ->
  time.between (Some a) "0" "9" = true ->
  time.between (Some b) "0" "9" = true ->
  time.parse_loop (S k) alayout avalue layout value year month day
  = time.parse_loop k alayout avalue suffix r year month
      ((byte_val a - 48) * 10 + (byte_val b - 48)).
Proof.
  intros Hc Hs Ha Hb. cbn [time.parse_loop]. rewrite Hc, Hs. cbv beta iota zeta.
  unfold time.getnum. rewrite Ha, Hb. reflexivity.
Qed.

Lemma step_end :
  time.nextStdChunk layout = (pfx, time.stdNone, suffix) ->
  time.skip value pfx = (EmptyString, true) ->
  time.parse_loop (S k) alayout avalue layout value year month day
  = time.Done year month day.
Proof.
  intros Hc Hs. cbn [time.parse_loop]. rewrite Hc, Hs. reflexivity.
Qed.

End Steps.

(** [time.Parse] reads the canonical text of a date of the calendar with
    a year of four digits back. *)
Lemma Parse_canonical other y m d :
  1000 <= y <= 9999 -> 1 <= m <= 12 -> 1 <= d <= time.daysIn m y ->
  time.Parse other "2006-01-02" (fmt.Sprintf_4d_02d_02d y m d)
  = (time.Date y m d 0 0 0 0 time.UTC, None).
Proof.
  intros Hy Hm Hd.
  assert (Hd31 : time.daysIn m y <= 31).
  { unfold time.daysIn. destruct ((m =? time.February) && time.isLeap y); [lia |].
    assert (Hc : m = 1 \/ m = 2 \/ m = 3 \/ m = 4 \/ m = 5 \/ m = 6 \/ m = 7
                 \/ m = 8 \/ m = 9 \/ m = 10 \/ m = 11 \/ m = 12) by lia.
    repeat (destruct Hc as [-> | Hc]; [vm_compute; discriminate |]).
    subst m. vm_compute. discriminate. }
  pose proof (year_ok_range y Hy) as Y.
  pose proof (two_ok_range m ltac:(lia)) as M.
  pose proof (two_ok_range d ltac:(lia)) as D.
  unfold year_ok in Y. unfold two_ok in M, D.
  unfold fmt.Sprintf_4d_02d_02d.
  destruct (fmt.fmtInteger 4 false y) as [| y1 [| y2 [| y3 [| y4 [| ? ?]]]]]; try discriminate Y.
  destruct (fmt.fmtInteger 2 true m) as [| m1 [| m2 [| ? ?]]]; try discriminate M.
  destruct (fmt.fmtInteger 2 true d) as [| d1 [| d2 [| ? ?]]]; try discriminate D.
  rewrite !andb_true_iff in Y. rewrite !andb_true_iff in M. rewrite !andb_true_iff in D.
  destruct Y as [[[[Y1 Yb] Yc] Ye] Y2]. destruct M as [[M1 M2] M3]. destruct D as [[D1 D2] D3].
  apply Z.eqb_eq in M3, D3.
  destruct (time.atoi (String y1 (String y2 (String y3 (String y4 EmptyString))))) as [v |] eqn:Ev;
    [| discriminate Y2].
  apply Z.eqb_eq in Y2. subst v.
  unfold time.Parse.
  change (S (String.length "2006-01-02")) with 11%nat.
  cbn [append].
  erewrite step_LongYear; [| vm_compute; reflexivity | reflexivity | exact Y1 | exact Ev].
  erewrite step_ZeroMonth; [| vm_compute; reflexivity | reflexivity | exact M1 | exact M2 | lia].
  erewrite step_ZeroDay; [| vm_compute; reflexivity | reflexivity | exact D1 | exact D2].
  erewrite step_end; [| vm_compute; reflexivity | reflexivity].
  rewrite M3, D3.
  destruct (Z.ltb_spec m 0); [lia |].
  destruct (Z.ltb_spec d 0); [lia |].
  destruct (Z.ltb_spec d 1); [lia |].
  rewrite Z.gtb_ltb.
  destruct (Z.ltb_spec (time.daysIn m y) d); [lia |].
  reflexivity.
Qed.

(** C2, amended: for a date of the calendar whose year has four digits,
    [Parse] with the layout [2006-01-02] reads [d.String()] back as [d],
    with a nil error. *)
Theorem C2_Parse_String_round_trip :
  forall (other : time.parser)
         (d : date.Date),
    four_digit_year d -> valid_date d ->
    date.Parse (time.Parse other) "2006-01-02" (date.String d) = (d, None).
Proof.
  intros other d Hy [Hm Hd]. unfold date.Parse, date.String.
  rewrite (Parse_canonical other _ _ _ Hy Hm Hd).
  unfold date.Of, time.Year, time.Month_of, time.Day.
  unfold four_digit_year in Hy.
  rewrite (absDate_Date_small (date.Year d) _ _ ltac:(lia) Hm Hd).
  destruct d; reflexivity.
Qed.

Lemma C2_witness :
  date.Parse (time.Parse no_other) "2006-01-02"
    (date.String {| date.Year := 2009; date.Month := 11; date.Day := 15 |})
  = ({| date.Year := 2009; date.Month := 11; date.Day := 15 |}, None).
Proof.
  apply (C2_Parse_String_round_trip no_other
           {| date.Year := 2009; date.Month := 11; date.Day := 15 |}).
  - unfold four_digit_year. cbn [date.Year]. lia.
  - unfold valid_date. cbn [date.Year date.Month date.Day].
    change (time.daysIn 11 2009) with 30. lia.
Defined.

(** C2 as stated, without a condition on the fields, fails: month 13 is
    printed as it is and the parser refuses it. *)
Lemma C2_counterexample :
  date.String {| date.Year := 2017; date.Month := 13; date.Day := 1 |} = "2017-13-01"
  /\ date.Parse (time.Parse no_other) "2006-01-02"
       (date.String {| date.Year := 2017; date.Month := 13; date.Day := 1 |})
     = (date.zeroDate,
        Some (date.ParseError
                (time.newParseError "2006-01-02" "2017-13-01" "01" "-01"
                   ": month out of range")))
  /\ ~ (forall (other : time.parser)
               (d : date.Date),
          date.Parse (time.Parse other) "2006-01-02" (date.String d) = (d, None)).
Proof.
  split; [reflexivity | split; [vm_compute; reflexivity |]].
  intros H.
  specialize (H no_other {| date.Year := 2017; date.Month := 13; date.Day := 1 |}).
  vm_compute in H. discriminate H.
Qed.

(** A day that the month does not have, a year of five digits and a year
    before year 0 are refused as well; so is a year below 1000, which
    [String] pads with spaces. *)
Lemma Parse_String_refused :
  forall other : time.parser,
    snd (date.Parse (time.Parse other) "2006-01-02"
           (date.String {| date.Year := 2001; date.Month := 2; date.Day := 29 |})) <> None
    /\ snd (date.Parse (time.Parse other) "2006-01-02"
              (date.String {| date.Year := 10000; date.Month := 1; date.Day := 1 |})) <> None
    /\ snd (date.Parse (time.Parse other) "2006-01-02"
              (date.String {| date.Year := -1; date.Month := 1; date.Day := 1 |})) <> None
    /\ snd (date.Parse (time.Parse other) "2006-01-02"
              (date.String {| date.Year := 7; date.Month := 1; date.Day := 3 |})) <> None.
Proof.
  intros other. repeat split; vm_compute; discriminate.
Qed.

(** ** Whole days of a duration: the arithmetic of binary64 *)

(** The bits of a positive number. *)
Lemma digits2_pos_bounds p :
  2 ^ (Z.pos (digits2_pos p) - 1) <= Z.pos p < 2 ^ Z.pos (digits2_pos p).
Proof.
  induction p as [p IH | p IH |]; cbn [digits2_pos].
  - rewrite Pos2Z.inj_succ.
    replace (Z.succ (Z.pos (digits2_pos p)) - 1) with (Z.succ (Z.pos (digits2_pos p) - 1)) by lia.
    rewrite !Z.pow_succ_r by lia. lia.
  - rewrite Pos2Z.inj_succ.
    replace (Z.succ (Z.pos (digits2_pos p)) - 1) with (Z.succ (Z.pos (digits2_pos p) - 1)) by lia.
    rewrite !Z.pow_succ_r by lia. lia.
  - simpl. lia.
Qed.

Lemma digits2_pos_unique p n :
  2 ^ (n - 1) <= Z.pos p < 2 ^ n -> Z.pos (digits2_pos p) = n.
Proof.
  intros H. pose proof (digits2_pos_bounds p) as B.
  set (D := Z.pos (digits2_pos p)) in *.
  assert (HD : 0 < D) by (unfold D; lia).
  assert (Hn : 0 < n).
  { destruct (Z_lt_le_dec 0 n) as [G | G]; [exact G |].
    exfalso. assert (2 ^ n <= 2 ^ 0) by (apply Z.pow_le_mono_r; lia). simpl in *. lia. }
  destruct (Z.lt_trichotomy D n) as [G | [G | G]]; [| exact G |]; exfalso.
  - assert (2 ^ D <= 2 ^ (n - 1)) by (apply Z.pow_le_mono_r; lia). lia.
  - assert (2 ^ n <= 2 ^ (D - 1)) by (apply Z.pow_le_mono_r; lia). lia.
Qed.

Lemma Zpos_iter_xO p d : Z.pos (Pos.iter xO p d) = Z.pos p * 2 ^ Z.pos d.
Proof.
  induction d as [| d IH] using Pos.peano_ind.
  - simpl. lia.
  - rewrite Pos.iter_succ, Pos2Z.inj_succ, Z.pow_succ_r by lia.
    rewrite Pos2Z.inj_xO, IH. ring.
Qed.

Lemma digits2_pos_iter_xO p d :
  Z.pos (digits2_pos (Pos.iter xO p d)) = Z.pos (digits2_pos p) + Z.pos d.
Proof.
  induction d as [| d IH] using Pos.peano_ind.
  - simpl. lia.
  - rewrite Pos.iter_succ. cbn [digits2_pos]. rewrite !Pos2Z.inj_succ, IH. lia.
Qed.

(** Rounding a mantissa of 53 bits, or of 54 bits with a last bit 0, is
    exact. *)
Lemma shr_fexp_53 m e :
  Z.pos (digits2_pos m) = 53 -> -1074 <= e ->
  shr_fexp 53 1024 (Z.pos m) e loc_Exact
  = ({| shr_m := Z.pos m; shr_r := false; shr_s := false |}, e).
Proof.
  intros Hm He. unfold shr_fexp, Zdigits2, fexp, emin.
  rewrite Hm.
  replace (Z.max (53 + e - 53) (3 - 1024 - 53) - e) with 0 by lia.
  reflexivity.
Qed.

Lemma binary_round_aux_53 s m e :
  Z.pos (digits2_pos m) = 53 -> -1074 <= e <= 971 ->
  binary_round_aux 53 1024 s (Z.pos m) e loc_Exact = S754_finite s m e.
Proof.
  intros Hm He. unfold binary_round_aux.
  rewrite (shr_fexp_53 m e Hm) by lia.
  cbn [shr_m loc_of_shr_record round_nearest_even].
  rewrite (shr_fexp_53 m e Hm) by lia.
  cbn [shr_m].
  destruct (Z.leb_spec e (1024 - 53)); [reflexivity | lia].
Qed.

Lemma binary_round_aux_54 s m e :
  Z.pos (digits2_pos m) = 53 -> -1074 <= e <= 970 ->
  binary_round_aux 53 1024 s (Z.pos m~0) e loc_Exact
  = S754_finite s m (e + 1).
Proof.
  intros Hm He. unfold binary_round_aux.
  assert (E : shr_fexp 53 1024 (Z.pos m~0) e loc_Exact
              = ({| shr_m := Z.pos m; shr_r := false; shr_s := false |}, e + 1)).
  { unfold shr_fexp, Zdigits2, fexp, emin.
    cbn [digits2_pos]. rewrite Pos2Z.inj_succ, Hm.
    replace (Z.max (Z.succ 53 + e - 53) (3 - 1024 - 53) - e) with 1 by lia.
    reflexivity. }
  rewrite E. cbn [shr_m loc_of_shr_record round_nearest_even].
  rewrite (shr_fexp_53 m (e + 1) Hm) by lia.
  cbn [shr_m].
  destruct (Z.leb_spec (e + 1) (1024 - 53)); [reflexivity | lia].
Qed.

(** [float64(n)] for an integer [n] of at most 53 bits. *)
Lemma binary_round_int s p :
  Z.pos (digits2_pos p) <= 53 ->
  exists m,
    binary_round 53 1024 s p 0
    = S754_finite s m (Z.pos (digits2_pos p) - 53)
    /\ Z.pos m = Z.pos p * 2 ^ (53 - Z.pos (digits2_pos p))
    /\ Z.pos (digits2_pos m) = 53.
Proof.
  intros H. unfold binary_round, shl_align, fexp, emin.
  set (D := Z.pos (digits2_pos p)) in *.
  replace (Z.max (D + 0 - 53) (3 - 1024 - 53)) with (D - 53) by lia.
  destruct (D - 53 - 0) as [| d | d] eqn:E.
  - assert (HD : D = 53) by lia. exists p.
    rewrite (binary_round_aux_53 s p 0) by (fold D; lia).
    rewrite HD. simpl. split; [reflexivity | split; [lia | fold D; exact HD]].
  - exfalso. lia.
  - assert (Hd : Z.pos d = 53 - D) by lia.
    assert (Hm : Z.pos (digits2_pos (Pos.iter xO p d)) = 53).
    { rewrite digits2_pos_iter_xO. fold D. lia. }
    exists (Pos.iter xO p d).
    rewrite (binary_round_aux_53 s _ (D - 53) Hm) by lia.
    split; [reflexivity | split; [| exact Hm]].
    rewrite Zpos_iter_xO, Hd. reflexivity.
Qed.

(** The quotient of a mantissa by the mantissa of 24, when it is whole. *)
Lemma SFdiv_core_24 m1 e1 q :
  Z.pos (digits2_pos m1) = 53 -> -52 <= e1 <= 0 ->
  Z.pos m1 * 2 ^ 53 = q * 6755399441055744 ->
  SFdiv_core_binary 53 1024 (Z.pos m1) e1 6755399441055744 (-48)
  = (q, e1 - 5, loc_Exact).
Proof.
  intros Hm He Hq. unfold SFdiv_core_binary, Zdigits2. cbv zeta.
  rewrite Hm. change (Z.pos (digits2_pos 6755399441055744)) with 53.
  unfold fexp, emin.
  replace (Z.min (Z.max (53 + e1 - (53 + -48) - 53) (3 - 1024 - 53)) (e1 - -48))
    with (e1 - 5) by lia.
  replace (e1 - -48 - (e1 - 5)) with 53 by lia.
  cbv beta iota.
  rewrite Z.shiftl_mul_pow2 by lia. rewrite Hq.
  pose proof (Z.div_eucl_eq (q * 6755399441055744) 6755399441055744 ltac:(lia)) as Hd.
  pose proof (Z.mod_pos_bound (q * 6755399441055744) 6755399441055744 ltac:(lia)) as Hb.
  unfold Z.modulo in Hb.
  destruct (Z.div_eucl (q * 6755399441055744) 6755399441055744) as [d r].
  assert (r = 0 /\ d = q) as [-> ->] by lia.
  reflexivity.
Qed.

Lemma digits2_pos_times_24 p :
  Z.pos (digits2_pos (24 * p)) = Z.pos (digits2_pos p) + 4
  \/ Z.pos (digits2_pos (24 * p)) = Z.pos (digits2_pos p) + 5.
Proof.
  pose proof (digits2_pos_bounds p) as B.
  set (D := Z.pos (digits2_pos p)) in *.
  assert (HD : 0 < D) by (unfold D; lia).
  assert (E4 : 2 ^ (D + 4 - 1) = 8 * 2 ^ D).
  { replace (D + 4 - 1) with (3 + D) by lia. rewrite Z.pow_add_r by lia. reflexivity. }
  assert (E5 : 2 ^ (D + 5 - 1) = 16 * 2 ^ D).
  { replace (D + 5 - 1) with (4 + D) by lia. rewrite Z.pow_add_r by lia. reflexivity. }
  assert (F4 : 2 ^ (D + 4) = 16 * 2 ^ D).
  { replace (D + 4) with (4 + D) by lia. rewrite Z.pow_add_r by lia. reflexivity. }
  assert (F5 : 2 ^ (D + 5) = 32 * 2 ^ D).
  { replace (D + 5) with (5 + D) by lia. rewrite Z.pow_add_r by lia. reflexivity. }
  assert (G : 2 ^ D = 2 * 2 ^ (D - 1)).
  { replace D with (Z.succ (D - 1)) at 1 by lia. apply Z.pow_succ_r. lia. }
  destruct (Z_lt_le_dec (Z.pos (24 * p)) (2 ^ (D + 4))) as [H | H].
  - left. apply digits2_pos_unique. rewrite Pos2Z.inj_mul in *. lia.
  - right. apply digits2_pos_unique. rewrite Pos2Z.inj_mul in *. lia.
Qed.

(** A whole number of days, as a duration, is turned back into that
    number: the conversion to hours, the division by 24 in binary64 and
    the conversion to an integer are all exact. *)
Lemma whole_days_exact s p :
  Z.pos p < 2 ^ 40 -> whole_days (signed s p * nsPerDay) = signed s p.
Proof.
  intros Hp. unfold whole_days, time.Hours. cbv zeta.
  assert (Hq : Z.quot (signed s p * nsPerDay) time.Hour = signed s (24 * p)).
  { replace (signed s p * nsPerDay) with (signed s (24 * p) * time.Hour).
    - apply Z.quot_mul. discriminate.
    - unfold nsPerDay. destruct s; unfold signed; lia. }
  assert (Hr : Z.rem (signed s p * nsPerDay) time.Hour = 0).
  { replace (signed s p * nsPerDay) with (signed s (24 * p) * time.Hour).
    - apply Z.rem_mul. discriminate.
    - unfold nsPerDay. destruct s; unfold signed; lia. }
  rewrite Hq, Hr.
  change (time.float64_div (time.float64_of_int 0)
            (time.float64_of_int (60 * 60 * 1000000000)))
    with (S754_zero false).
  change (time.float64_of_int 24) with (S754_finite false 6755399441055744 (-48)).
  assert (Hf : time.float64_of_int (signed s (24 * p))
               = binary_round 53 1024 s (24 * p) 0) by (destruct s; reflexivity).
  rewrite Hf.
  pose proof (digits2_pos_bounds p) as Bp.
  pose proof (digits2_pos_times_24 p) as Ha.
  set (Dp := Z.pos (digits2_pos p)) in *.
  set (Da := Z.pos (digits2_pos (24 * p))) in *.
  assert (HDp : 0 < Dp <= 40).
  { split; [unfold Dp; lia |].
    destruct (Z_lt_le_dec 40 Dp) as [G | G]; [| exact G]. exfalso.
    assert (2 ^ 40 <= 2 ^ (Dp - 1)) by (apply Z.pow_le_mono_r; lia). lia. }
  destruct (binary_round_int s (24 * p) ltac:(fold Da; lia)) as (m1 & E1 & V1 & D1).
  fold Da in E1, V1. rewrite E1.
  change (time.float64_add (S754_finite s m1 (Da - 53)) (S754_zero false))
    with (S754_finite s m1 (Da - 53)).
  unfold time.float64_div, SFdiv, time.prec, time.emax.
  destruct (58 - Da) as [| j | j] eqn:Ej; [exfalso; lia | | exfalso; lia].
  assert (Vq : Z.pos m1 * 2 ^ 53 = Z.pos (Pos.iter xO p j) * 6755399441055744).
  { rewrite V1, Zpos_iter_xO, <- Ej, Pos2Z.inj_mul.
    change 6755399441055744 with (24 * 2 ^ 48).
    assert (P : 2 ^ (53 - Da) * 2 ^ 53 = 2 ^ (58 - Da) * 2 ^ 48).
    { rewrite <- !Z.pow_add_r by lia. f_equal. lia. }
    nia. }
  rewrite (SFdiv_core_24 m1 (Da - 53) _ D1 ltac:(lia) Vq).
  rewrite xorb_false_r.
  assert (Dq : Z.pos (digits2_pos (Pos.iter xO p j)) = Dp + Z.pos j)
    by apply digits2_pos_iter_xO.
  destruct Ha as [Ha | Ha].
  - (* the quotient has 54 bits *)
    destruct (Pos.eq_dec j 1) as [-> | Hj]; [exfalso; lia |].
    assert (Ej' : j = Pos.succ (Pos.pred j)) by (symmetry; apply Pos.succ_pred; exact Hj).
    set (j' := Pos.pred j) in *. rewrite Ej', Pos.iter_succ.
    assert (Dq' : Z.pos (digits2_pos (Pos.iter xO p j')) = 53).
    { rewrite digits2_pos_iter_xO. fold Dp. lia. }
    rewrite (binary_round_aux_54 s _ (Da - 53 - 5) Dq') by lia.
    unfold time.int_of_float64.
    destruct (Z.geb_spec (Da - 53 - 5 + 1) 0); [exfalso; lia |].
    rewrite Zpos_iter_xO.
    replace (- (Da - 53 - 5 + 1)) with (Z.pos j') by lia.
    rewrite Z.quot_mul by (apply Z.pow_nonzero; lia).
    destruct s; reflexivity.
  - (* the quotient has 53 bits *)
    rewrite (binary_round_aux_53 s _ (Da - 53 - 5)) by (rewrite ?Dq; lia).
    unfold time.int_of_float64.
    destruct (Z.geb_spec (Da - 53 - 5) 0); [exfalso; lia |].
    rewrite Zpos_iter_xO.
    replace (- (Da - 53 - 5)) with (Z.pos j) by lia.
    rewrite Z.quot_mul by (apply Z.pow_nonzero; lia).
    destruct s; reflexivity.
Qed.

(** ** The duration between two midnights *)

(** [Time.Sub] of two instants on whole seconds: the difference of the
    two counts in nanoseconds when a [Duration] holds it, the largest or
    the smallest [Duration] when not. *)
Lemma Sub_whole_seconds t u :
  - 2 ^ 63 <= time.sec t < 2 ^ 63 -> - 2 ^ 63 <= time.sec u < 2 ^ 63 ->
  time.nsec t = 0 -> time.nsec u = 0 ->
  time.Sub t u = saturate ((time.sec t - time.sec u) * time.Second).
Proof.
  intros Bt Bu Ht Hu. unfold time.Sub. rewrite Ht, Hu.
  set (st := time.sec t) in *. set (su := time.sec u) in *.
  set (D := st - su).
  set (w := time.wrap64 (time.wrap64 (time.wrap64 D * time.Second) + (0 - 0))).
  assert (Hw : - 2 ^ 63 <= w < 2 ^ 63) by apply wrap64_range.
  assert (Sw : same64 w (D * time.Second)).
  { unfold w. same64. }
  unfold time.Second in *.
  assert (E : time.Equal (time.Add u w) t = true <-> w = D * 1000000000).
  { unfold time.Equal, time.Add, time.addSec. rewrite Hu, Ht. fold st su.
    pose proof (Z.quot_rem' w 1000000000) as Hqr.
    assert (Hr : - 1000000000 < Z.rem w 1000000000 < 1000000000).
    { pose proof (Z.rem_bound_abs w 1000000000 ltac:(lia)). lia. }
    assert (Hsgn : 0 <= Z.rem w 1000000000 * w) by (apply Z.rem_sign_mul; lia).
    set (q := Z.quot w 1000000000) in *. set (r := Z.rem w 1000000000) in *.
    assert (Hq : - 9223372036 <= q <= 9223372036) by nia.
    destruct (Z.geb_spec (0 + r) 1000000000); [lia |].
    destruct (Z.ltb_spec (0 + r) 0).
    - cbn [time.sec time.nsec]. rewrite andb_true_iff, !Z.eqb_eq.
      split; [lia |]. intros Hc. exfalso.
      assert (r = 1000000000 * (D - q)) by lia. lia.
    - cbn [time.sec time.nsec]. fold su.
      pose proof (wrap64_range (su + q)) as Bs.
      pose proof (wrap64_same64 (su + q)) as Ss.
      set (sum := time.wrap64 (su + q)) in *.
      rewrite andb_true_iff, !Z.eqb_eq. split.
      + intros [H1 H2]. assert (r = 0) by lia.
        assert (Ew : w = q * 1000000000) by lia.
        assert (Sq : same64 (q * 1000000000) (D * 1000000000)) by (rewrite <- Ew; exact Sw).
        rewrite !Z.gtb_ltb in H1.
        destruct (Z.ltb_spec su sum) as [L1 | L1];
          destruct (Z.ltb_spec 0 q) as [L2 | L2]; cbn [Bool.eqb] in H1.
        * assert (su + q = st).
          { apply same64_close; [rewrite <- H1; apply same64_trans with sum;
                                  [| apply same64_refl]; unfold same64 in *; congruence |].
            unfold D in *. lia. }
          unfold D. lia.
        * destruct (Z.ltb_spec 0 q); [lia |]. exfalso.
          assert (Hov : su + q < - 2 ^ 63).
          { destruct (Z_lt_le_dec (su + q) (- 2 ^ 63)) as [Hlt | Hge]; [exact Hlt |].
            exfalso. assert (sum = su + q).
            { unfold sum. apply wrap64_id. lia. }
            lia. }
          assert (q * 1000000000 = D * 1000000000).
          { apply same64_close; [exact Sq |]. unfold D in *. lia. }
          unfold D in *. lia.
        * exfalso.
          assert (Hov : 2 ^ 63 <= su + q).
          { destruct (Z_lt_le_dec (su + q) (2 ^ 63)) as [Hlt | Hge]; [| exact Hge].
            exfalso. assert (sum = su + q).
            { unfold sum. apply wrap64_id. lia. }
            lia. }
          assert (q * 1000000000 = D * 1000000000).
          { apply same64_close; [exact Sq |]. unfold D in *. lia. }
          unfold D in *. lia.
        * assert (su + q = st).
          { apply same64_close; [rewrite <- H1; unfold same64 in *; congruence |].
            unfold D in *. lia. }
          unfold D. lia.
      + intros Hc.
        assert (Hqd : q = D).
        { unfold q. rewrite Hc. apply Z.quot_mul. lia. }
        assert (Hr0 : r = 0).
        { unfold r. rewrite Hc. apply Z.rem_mul. lia. }
        assert (Hsum : sum = st).
        { unfold sum. rewrite Hqd. unfold D.
          replace (su + (st - su)) with st by ring. apply wrap64_id. exact Bt. }
        rewrite Hsum, Hqd, !Z.gtb_ltb.
        destruct (Z.ltb_spec su st); destruct (Z.ltb_spec 0 D);
          cbn [Bool.eqb]; unfold D in *; try lia. }
  unfold saturate, time.minDuration, time.maxDuration.
  destruct (time.Equal (time.Add u w) t) eqn:Eq.
  - assert (Eq' : w = D * 1000000000) by (apply E; reflexivity). rewrite <- Eq'.
    destruct (Z.ltb_spec w (- 2 ^ 63)); [lia |].
    rewrite Z.gtb_ltb. destruct (Z.ltb_spec (2 ^ 63 - 1) w); [lia | reflexivity].
  - assert (Hne : w <> D * 1000000000).
    { intros Hc. apply E in Hc. congruence. }
    assert (Hout : ~ (- 2 ^ 63 <= D * 1000000000 < 2 ^ 63)).
    { intros Hc. apply Hne. apply same64_close; [exact Sw | lia]. }
    unfold time.Before. rewrite Ht, Hu. fold st su.
    rewrite Z.ltb_irrefl, andb_false_r, orb_false_r.
    destruct (Z.ltb_spec st su).
    + destruct (Z.ltb_spec (D * 1000000000) (- 2 ^ 63)); [reflexivity | unfold D in *; lia].
    + destruct (Z.ltb_spec (D * 1000000000) (- 2 ^ 63)); [unfold D in *; lia |].
      rewrite Z.gtb_ltb.
      destruct (Z.ltb_spec (2 ^ 63 - 1) (D * 1000000000)); [reflexivity | unfold D in *; lia].
Qed.

Lemma civil_days_month y m d :
  1 <= m <= 12 ->
  civil_days y m d = epoch_days y + yday_of (time.isLeap y) m d.
Proof.
  intros Hm. unfold civil_days, yday_of. cbv zeta.
  rewrite (Z.div_small (m - 1) 12), (Z.mod_small (m - 1) 12) by lia.
  rewrite Z.add_0_r. replace (m - 1 + 1) with m by ring.
  destruct (time.isLeap y && (m >=? time.March)); ring.
Qed.

Lemma civil_days_next_day y m d : civil_days y m (d + 1) = civil_days y m d + 1.
Proof.
  unfold civil_days. cbv zeta. ring.
Qed.

(** The end of the second count. *)
Lemma endDay_fits :
  0 <= endDay
  /\ endDay * time.secondsPerDay + time.absoluteToInternal < 2 ^ 63
  /\ - 2 ^ 63 <= time.absoluteToInternal
  /\ (endDay + 1) * time.secondsPerDay < 2 ^ 64.
Proof.
  repeat split; vm_compute; first [reflexivity | discriminate].
Qed.

(** The second count of the midnight of a date within the count. *)
Lemma Date_midnight y m d :
  1 <= m <= 12 -> time.absoluteZeroYear <= y <= maxYear + 1 ->
  0 <= civil_days y m d <= endDay ->
  time.sec (time.Date y m d 0 0 0 0 time.UTC)
  = civil_days y m d * time.secondsPerDay + time.absoluteToInternal
  /\ time.nsec (time.Date y m d 0 0 0 0 time.UTC) = 0.
Proof.
  intros Hm Hy Hd. change time.UTC with (FixedZone 0).
  rewrite (Date_fixed_zone y m d 0 0 0 0 0 Hm valid_clock_midnight)
    by (unfold time.absoluteZeroYear, maxYear in *; lia).
  cbn [time.sec time.nsec]. split; [| reflexivity].
  rewrite <- (civil_days_month y m d Hm).
  destruct endDay_fits as (E0 & E1 & E2 & _).
  change time.secondsPerDay with 86400 in *.
  rewrite wrap64_id; lia.
Qed.

(** Whatever the fields, the midnight is on a whole second and its count
    is an integer of 64 bits. *)
Lemma Date_midnight_any y m d :
  time.nsec (time.Date y m d 0 0 0 0 time.UTC) = 0
  /\ - 2 ^ 63 <= time.sec (time.Date y m d 0 0 0 0 time.UTC) < 2 ^ 63.
Proof.
  unfold time.Date.
  destruct (time.norm y (time.wrap64 (m - 1)) 12) as [y' m'].
  cbv beta iota zeta.
  change (time.norm 0 0 1000000000) with (0, 0). cbv beta iota zeta.
  change (time.norm 0 0 60) with (0, 0). cbv beta iota zeta.
  change (time.norm 0 0 60) with (0, 0). cbv beta iota zeta.
  assert (Hn : time.norm d 0 24 = (d, 0)) by (apply norm_in_range; lia).
  rewrite Hn. cbv beta iota zeta.
  cbn [time.lookup_zone time.UTC]. cbv beta iota zeta. rewrite Z.eqb_refl.
  unfold time.unixTime. cbn [time.sec time.nsec].
  split; [reflexivity | apply wrap64_range].
Qed.

Lemma whole_days_in_range k :
  - maxDays <= k <= maxDays -> whole_days (k * nsPerDay) = k.
Proof.
  intros H. unfold maxDays in H. destruct k as [| p | p].
  - reflexivity.
  - apply (whole_days_exact false p). lia.
  - apply (whole_days_exact true p). lia.
Qed.

Lemma whole_days_saturate k : whole_days (saturate (k * nsPerDay)) = clamp_days k.
Proof.
  unfold clamp_days. assert (Hm : maxDays = 106751) by reflexivity.
  destruct (Z_lt_le_dec k (- maxDays)) as [Hlo | Hlo];
    [| destruct (Z_lt_le_dec maxDays k) as [Hhi | Hhi]].
  - replace (saturate (k * nsPerDay)) with time.minDuration.
    + replace (Z.max (- maxDays) (Z.min maxDays k)) with (- maxDays) by lia.
      vm_compute. reflexivity.
    + unfold saturate.
      assert (k * nsPerDay < time.minDuration).
      { unfold maxDays in Hlo.
        change nsPerDay with 86400000000000. change time.minDuration with (-9223372036854775808).
        lia. }
      destruct (Z.ltb_spec (k * nsPerDay) time.minDuration); [reflexivity | lia].
  - replace (saturate (k * nsPerDay)) with time.maxDuration.
    + replace (Z.max (- maxDays) (Z.min maxDays k)) with maxDays by lia.
      vm_compute. reflexivity.
    + unfold saturate.
      assert (k * nsPerDay > time.maxDuration /\ ~ k * nsPerDay < time.minDuration) as [H1 H2].
      { unfold maxDays in Hhi.
        change nsPerDay with 86400000000000. change time.minDuration with (-9223372036854775808).
        change time.maxDuration with 9223372036854775807.
        lia. }
      destruct (Z.ltb_spec (k * nsPerDay) time.minDuration); [lia |].
      rewrite Z.gtb_ltb.
      destruct (Z.ltb_spec time.maxDuration (k * nsPerDay)); [reflexivity | lia].
  - replace (saturate (k * nsPerDay)) with (k * nsPerDay).
    + replace (Z.max (- maxDays) (Z.min maxDays k)) with k by lia.
      apply whole_days_in_range. lia.
    + unfold saturate.
      assert (time.minDuration <= k * nsPerDay <= time.maxDuration) as [H1 H2].
      { unfold maxDays in *.
        change nsPerDay with 86400000000000. change time.minDuration with (-9223372036854775808).
        change time.maxDuration with 9223372036854775807.
        lia. }
      destruct (Z.ltb_spec (k * nsPerDay) time.minDuration); [lia |].
      rewrite Z.gtb_ltb.
      destruct (Z.ltb_spec time.maxDuration (k * nsPerDay)); [lia | reflexivity].
Qed.

Lemma Sub_midnight a b :
  date.Sub a b = whole_days (time.Sub (midnight a) (midnight b)).
Proof. unfold date.Sub, whole_days, midnight. reflexivity. Qed.

Lemma Sub_midnight_saturate a b :
  on_counter a -> on_counter b ->
  time.Sub (midnight a) (midnight b)
  = saturate ((date_days a - date_days b) * nsPerDay).
Proof.
  intros (Ma & Ya & Da) (Mb & Yb & Db). unfold midnight, date_days in *.
  destruct (Date_midnight (date.Year a) (date.Month a) (date.Day a) Ma Ya Da) as [Sa Na].
  destruct (Date_midnight (date.Year b) (date.Month b) (date.Day b) Mb Yb Db) as [Sb Nb].
  destruct (Date_midnight_any (date.Year a) (date.Month a) (date.Day a)) as [_ Ba].
  destruct (Date_midnight_any (date.Year b) (date.Month b) (date.Day b)) as [_ Bb].
  rewrite (Sub_whole_seconds _ _ Ba Bb Na Nb). rewrite Sa, Sb. f_equal.
  change nsPerDay with (time.secondsPerDay * time.Second). ring.
Qed.

(** Between two dates within the count, [Sub] is the difference of the
    day numbers, held within the days that a [Duration] spans. *)
Lemma Sub_clamp a b :
  on_counter a -> on_counter b ->
  date.Sub a b = clamp_days (date_days a - date_days b).
Proof.
  intros Ha Hb.
  rewrite Sub_midnight, (Sub_midnight_saturate a b Ha Hb). apply whole_days_saturate.
Qed.

(** Between a date and itself [Sub] is 0, whatever the fields. *)
Lemma Sub_same a : date.Sub a a = 0.
Proof.
  rewrite Sub_midnight. unfold midnight.
  destruct (Date_midnight_any (date.Year a) (date.Month a) (date.Day a)) as [Na Ba].
  rewrite (Sub_whole_seconds _ _ Ba Ba Na Na), Z.sub_diag.
  vm_compute. reflexivity.
Qed.


(** Within the days that a [Duration] spans, [Sub] is the difference of
    the day numbers. *)
Lemma Sub_day_difference a b :
  on_counter a -> on_counter b ->
  - maxDays <= date_days a - date_days b <= maxDays ->
  date.Sub a b = date_days a - date_days b.
Proof.
  intros Ha Hb H. rewrite (Sub_clamp a b Ha Hb). unfold clamp_days. lia.
Qed.

(** Further apart, [Sub] stays at the days of the largest duration: 400
    years are 146097 days. *)
Lemma Sub_400_years :
  date.Sub {| date.Year := 2400; date.Month := 1; date.Day := 1 |}
           {| date.Year := 2000; date.Month := 1; date.Day := 1 |} = 106751
  /\ date_days {| date.Year := 2400; date.Month := 1; date.Day := 1 |}
     - date_days {| date.Year := 2000; date.Month := 1; date.Day := 1 |} = 146097.
Proof. split; vm_compute; reflexivity. Qed.

(** ** Day after day *)

Lemma month_end_all :
  forall_from
    (fun m => (yday_of true (m + 1) 1 =? yday_of true m (daysIn_leap true m) + 1)
              && (yday_of false (m + 1) 1 =? yday_of false m (daysIn_leap false m) + 1))
    1 11 = true
  /\ (forall leap, yday_of leap 12 (daysIn_leap leap 12) + 1 = year_length leap)
  /\ (forall leap, yday_of leap 1 1 = 0).
Proof.
  split; [vm_compute; reflexivity |].
  split; intros []; reflexivity.
Qed.

Lemma next_day_days d :
  valid_date d -> date_days (next_day d) = date_days d + 1.
Proof.
  intros [Hm Hd]. unfold next_day, date_days.
  destruct (Z.ltb_spec (date.Day d) (time.daysIn (date.Month d) (date.Year d))) as [H | H].
  - cbn [date.Year date.Month date.Day]. apply civil_days_next_day.
  - assert (Hd' : date.Day d = daysIn_leap (time.isLeap (date.Year d)) (date.Month d)).
    { rewrite <- daysIn_leap_eq. lia. }
    destruct month_end_all as (Hmid & Hend & Hfirst).
    destruct (Z.ltb_spec (date.Month d) 12) as [H12 | H12];
      cbn [date.Year date.Month date.Day].
    + rewrite !civil_days_month by lia. rewrite Hd'.
      pose proof (forall_from_spec _ _ _ Hmid (date.Month d)) as G. cbv beta in G.
      rewrite andb_true_iff, !Z.eqb_eq in G.
      destruct G as [Gt Gf]; [change (Z.of_nat 11) with 11; lia |].
      destruct (time.isLeap (date.Year d)); lia.
    + assert (E : date.Month d = 12) by lia.
      rewrite !civil_days_month by (unfold time.January; lia).
      rewrite epoch_days_succ, Hd', E.
      unfold time.January. rewrite Hfirst.
      pose proof (Hend (time.isLeap (date.Year d))). lia.
Qed.

Lemma next_day_valid d : valid_date d -> valid_date (next_day d).
Proof.
  intros [Hm Hd]. unfold next_day, valid_date.
  destruct (Z.ltb_spec (date.Day d) (time.daysIn (date.Month d) (date.Year d))) as [H | H].
  - cbn [date.Year date.Month date.Day]. lia.
  - destruct (Z.ltb_spec (date.Month d) 12) as [H12 | H12];
      cbn [date.Year date.Month date.Day].
    + split; [lia |]. split; [lia |].
      assert (Hc : date.Month d = 1 \/ date.Month d = 2 \/ date.Month d = 3
                   \/ date.Month d = 4 \/ date.Month d = 5 \/ date.Month d = 6
                   \/ date.Month d = 7 \/ date.Month d = 8 \/ date.Month d = 9
                   \/ date.Month d = 10 \/ date.Month d = 11) by lia.
      unfold time.daysIn.
      destruct (time.isLeap (date.Year d));
      repeat (destruct Hc as [-> | Hc]; [vm_compute; discriminate |]);
      rewrite Hc; vm_compute; discriminate.
    + split; [unfold time.January; lia |]. split; [lia |].
      unfold time.daysIn. destruct (time.isLeap (date.Year d + 1)); vm_compute; discriminate.
Qed.


(** A date of the calendar in the years of the count, the day after it
    and the date with its day field one higher all have their midnight
    within the second count. *)
Lemma valid_on_counter d :
  valid_date d -> in_years d -> on_counter d /\ date_days d < endDay.
Proof.
  intros [Hm Hd] [Hy1 Hy2]. unfold on_counter, date_days.
  rewrite (civil_days_month _ _ _ Hm).
  pose proof (yday_of_valid _ _ _ Hm Hd) as Hyd.
  pose proof (epoch_days_lower _ Hy1) as Hl.
  pose proof (epoch_days_succ (date.Year d)) as Hs.
  pose proof (epoch_days_mono (date.Year d + 1) (maxYear + 1) ltac:(lia)) as Hmono.
  fold endDay in Hmono.
  split; [split; [exact Hm | split; lia] | lia].
Qed.








(** * Further properties *)

(** ** Of and the calendar *)

Lemma secondsPerDay_val : time.secondsPerDay = 86400.
Proof. reflexivity. Qed.

(** [absDate] looks at the day of an instant only. *)
Lemma absDate_within_day D c :
  0 <= c < 86400 ->
  time.absDate (D * time.secondsPerDay + c) = time.absDate (D * time.secondsPerDay).
Proof.
  intros Hc. rewrite !absDate_split.
  assert (E1 : (D * time.secondsPerDay + c) / time.secondsPerDay = D).
  { rewrite secondsPerDay_val. symmetry. apply (Z.div_unique _ _ D c); lia. }
  assert (E2 : (D * time.secondsPerDay) / time.secondsPerDay = D).
  { rewrite secondsPerDay_val. apply Z.div_mul. lia. }
  cbv zeta. rewrite E1, E2. reflexivity.
Qed.

(** X1: Of reads back the date that [time.Date] was given, whatever the
    clock time and the offset of the zone, for a date of the calendar in
    the years from the absolute zero year to year 292277024626. *)
Theorem Of_Date_any_clock_any_zone :
  forall y m d h mi s ns off,
    time.absoluteZeroYear <= y <= maxYear ->
    1 <= m <= 12 -> 1 <= d <= time.daysIn m y -> valid_clock h mi s ns ->
    date.Of (time.Date y m d h mi s ns (FixedZone off))
    = {| date.Year := y; date.Month := m; date.Day := d |}.
Proof.
  intros y m d h mi s ns off Hy Hm Hd Hc.
  unfold date.Of, time.Year, time.Month_of, time.Day.
  destruct (valid_on_counter {| date.Year := y; date.Month := m; date.Day := d |}
              (conj Hm Hd) Hy) as [(_ & _ & Hlo) Hhi].
  unfold date_days in Hlo, Hhi. cbn [date.Year date.Month date.Day] in Hlo, Hhi.
  rewrite (civil_days_month y m d Hm) in Hlo, Hhi.
  destruct endDay_fits as (_ & _ & _ & He).
  rewrite (abs_Date_clock y m d h mi s ns off Hm Hc).
  - rewrite absDate_within_day by (destruct Hc as (? & ? & ? & ?); lia).
    rewrite (absDate_civil y m d Hm Hd). reflexivity.
  - unfold time.absoluteZeroYear, maxYear in *. lia.
  - destruct Hc as (? & ? & ? & ?). change time.secondsPerDay with 86400 in *. lia.
Qed.

Lemma Of_Date_witness :
  date.Of (time.Date 2009 11 15 23 59 59 999999999 (FixedZone (-28800)))
  = {| date.Year := 2009; date.Month := 11; date.Day := 15 |}.
Proof.
  apply (Of_Date_any_clock_any_zone 2009 11 15 23 59 59 999999999 (-28800)).
  - unfold time.absoluteZeroYear, maxYear. lia.
  - lia.
  - change (time.daysIn 11 2009) with 30. lia.
  - unfold valid_clock. lia.
Defined.

Lemma check_yday_all :
  forall_from (check_yday true) 0 366 = true
  /\ forall_from (check_yday false) 0 365 = true.
Proof. split; vm_compute; reflexivity. Qed.

Lemma month_day_valid leap yd :
  0 <= yd < year_length leap ->
  exists m d, month_day leap yd = (m, d)
              /\ 1 <= m <= 12 /\ 1 <= d <= daysIn_leap leap m
              /\ yday_of leap m d = yd.
Proof.
  intros H.
  assert (C : check_yday leap yd = true).
  { destruct check_yday_all as [Ht Hf].
    unfold year_length in H.
    destruct leap; [apply (forall_from_spec _ _ _ Ht) | apply (forall_from_spec _ _ _ Hf)].
    - change (Z.of_nat 366) with 366. lia.
    - change (Z.of_nat 365) with 365. lia. }
  unfold check_yday in C. destruct (month_day leap yd) as [m d].
  rewrite !andb_true_iff in C. destruct C as [[[[C1 C2] C3] C4] C5].
  exists m, d. split; [reflexivity |]. lia.
Qed.

(** Every day of a cycle of 400 years is a day of one of its years. *)
Lemma cycle_day_year d :
  0 <= d < time.daysPer400Years ->
  exists r yd, 0 <= r < 400 /\ 0 <= yd < year_length (leap400 r)
               /\ d = year400_days r + yd.
Proof.
  intros Hd.
  assert (P : forall k : nat, (k <= 399)%nat ->
            forall x, 0 <= x < year400_days (Z.of_nat k) ->
            exists r yd, 0 <= r < Z.of_nat k /\ 0 <= yd < year_length (leap400 r)
                         /\ x = year400_days r + yd).
  { induction k as [| k IH]; intros Hk x Hx.
    - change (year400_days (Z.of_nat 0)) with 0 in Hx. lia.
    - assert (S : year400_days (Z.of_nat k + 1)
                  = year400_days (Z.of_nat k) + year_length (leap400 (Z.of_nat k))).
      { apply Z.eqb_eq.
        apply (forall_from_spec _ _ _ year400_days_succ_all (Z.of_nat k)).
        change (Z.of_nat 399) with 399. lia. }
      rewrite Nat2Z.inj_succ in *. unfold Z.succ in *.
      destruct (Z_lt_le_dec x (year400_days (Z.of_nat k))) as [L | L].
      + destruct (IH ltac:(lia) x ltac:(lia)) as (r & yd & Hr & Hyd & E).
        exists r, yd. repeat split; lia.
      + exists (Z.of_nat k), (x - year400_days (Z.of_nat k)). repeat split; lia. }
  destruct (Z_lt_le_dec d (year400_days 399)) as [L | L].
  - destruct (P 399%nat ltac:(lia) d ltac:(change (Z.of_nat 399) with 399; lia))
      as (r & yd & Hr & Hyd & E).
    exists r, yd. change (Z.of_nat 399) with 399 in Hr. repeat split; lia.
  - exists 399, (d - year400_days 399).
    change (year_length (leap400 399)) with 366.
    change (year400_days 399) with 145731 in *.
    change time.daysPer400Years with 146097 in Hd. repeat split; lia.
Qed.

(** What [absDate] returns, for every absolute second count: a date of
    the calendar, on the day that holds the second. *)
Lemma absDate_valid a :
  exists y m d yd,
    time.absDate a = (y, m, d, yd)
    /\ 1 <= m <= 12 /\ 1 <= d <= time.daysIn m y
    /\ epoch_days y + yday_of (time.isLeap y) m d = a / time.secondsPerDay
    /\ (0 <= a -> time.absoluteZeroYear <= y).
Proof.
  rewrite absDate_split. cbv zeta.
  set (D := a / time.secondsPerDay).
  set (n := D / time.daysPer400Years).
  assert (Hrem : 0 <= D - time.daysPer400Years * n < time.daysPer400Years).
  { unfold n. change time.daysPer400Years with 146097.
    pose proof (Z.mod_pos_bound D 146097 ltac:(lia)) as B.
    rewrite Z.mod_eq in B by lia. lia. }
  destruct (cycle_day_year _ Hrem) as (r & yd & Hr & Hyd & E).
  destruct (split400_year r yd Hr Hyd) as [_ Hs].
  rewrite split400_shift, E, Hs. cbn [fst snd].
  set (y := 400 * n + r + time.absoluteZeroYear).
  assert (Hq : (y - time.absoluteZeroYear) / 400 = n).
  { unfold y. symmetry. apply (Z.div_unique _ _ n r); lia. }
  assert (Hmod : (y - time.absoluteZeroYear) mod 400 = r).
  { unfold y. symmetry. apply (Z.mod_unique _ _ n r); lia. }
  assert (Hleap : time.isLeap y = leap400 r) by (rewrite isLeap_cycle, Hmod; reflexivity).
  rewrite Hleap.
  destruct (month_day_valid (leap400 r) yd Hyd) as (m & d & Emd & Hm & Hdd & Hy).
  rewrite Emd. exists y, m, d, yd. split; [reflexivity |].
  split; [exact Hm |]. split; [| split].
  - rewrite daysIn_leap_eq, Hleap. exact Hdd.
  - rewrite epoch_days_cycle, Hq, Hmod, Hleap, Hy. lia.
  - intros Ha.
    assert (0 <= D) by (apply Z.div_pos; [exact Ha | reflexivity]).
    assert (0 <= n) by (apply Z.div_pos; [assumption | reflexivity]).
    unfold y. lia.
Qed.

Lemma Of_fields t :
  exists y m d yd,
    time.absDate (time.abs t) = (y, m, d, yd)
    /\ date.Of t = {| date.Year := y; date.Month := m; date.Day := d |}
    /\ 1 <= m <= 12 /\ 1 <= d <= time.daysIn m y
    /\ epoch_days y + yday_of (time.isLeap y) m d
       = time.abs t / time.secondsPerDay
    /\ time.absoluteZeroYear <= y.
Proof.
  destruct (absDate_valid (time.abs t)) as (y & m & d & yd & E & Hm & Hd & Hday & Hy).
  exists y, m, d, yd. unfold date.Of, time.Year, time.Month_of, time.Day.
  rewrite E.
  split; [reflexivity | split; [reflexivity | split; [exact Hm | split; [exact Hd |]]]].
  split; [exact Hday |]. apply Hy. unfold time.abs. apply uint64_range.
Qed.

(** The midnight in UTC of a date of the calendar is projected back to
    the date, as long as its seconds fit the unsigned count. *)
Lemma Of_midnight d :
  valid_date d ->
  time.absoluteZeroYear <= date.Year d ->
  (epoch_days (date.Year d)
   + yday_of (time.isLeap (date.Year d)) (date.Month d) (date.Day d))
  * time.secondsPerDay < 2 ^ 64 ->
  date.Of (midnight d) = d.
Proof.
  intros [Hm Hd] Hy Hb. unfold date.Of, midnight, time.Year, time.Month_of, time.Day.
  rewrite (absDate_Date _ _ _ Hm Hd Hy Hb). destruct d; reflexivity.
Qed.

Lemma Of_midnight_small d :
  valid_date d -> 0 <= date.Year d <= 9999 -> date.Of (midnight d) = d.
Proof.
  intros [Hm Hd] Hy. unfold date.Of, midnight, time.Year, time.Month_of, time.Day.
  rewrite (absDate_Date_small _ _ _ Hy Hm Hd). destruct d; reflexivity.
Qed.

Lemma Of_valid_date t : valid_date (date.Of t).
Proof.
  destruct (Of_fields t) as (y & m & d & yd & _ & E & Hm & Hd & _).
  rewrite E. split; assumption.
Qed.

(** X2: Of, and so [Now], gives a date of the calendar for every instant
    and location: the month is one of the twelve and the day is a day of
    that month in that year.  Its midnight in UTC is projected back to
    it, and begins the day that holds the instant. *)
Theorem Of_is_a_calendar_date :
  forall t : time.Time,
    valid_date (date.Of t)
    /\ valid_date (date.Now t)
    /\ date.Of (midnight (date.Of t)) = date.Of t
    /\ time.abs (midnight (date.Of t))
       = time.abs t / time.secondsPerDay * time.secondsPerDay.
Proof.
  intros t. split; [apply Of_valid_date |]. split; [apply Of_valid_date |].
  destruct (Of_fields t) as (y & m & d & yd & _ & E & Hm & Hd & Hday & Hy).
  assert (Ha : 0 <= time.abs t < 2 ^ 64) by (unfold time.abs; apply uint64_range).
  pose proof (yday_of_valid y m d Hm Hd) as Hyd.
  pose proof (epoch_days_lower y Hy) as Hl.
  assert (Hb : 0 <= (epoch_days y + yday_of (time.isLeap y) m d) * time.secondsPerDay
               < 2 ^ 64).
  { rewrite Hday. change time.secondsPerDay with 86400.
    pose proof (Z.mul_div_le (time.abs t) 86400 ltac:(lia)).
    assert (0 <= time.abs t / 86400) by (apply Z.div_pos; lia). lia. }
  rewrite E. split.
  - apply Of_midnight; [split; assumption | exact Hy | apply Hb].
  - unfold midnight. cbn [date.Year date.Month date.Day].
    rewrite (abs_Date y m d Hm); [rewrite Hday; reflexivity | | exact Hb].
    change time.secondsPerDay with 86400 in Hb. lia.
Qed.

Lemma Parse_success_valid (tp : time.parser) layout s d :
  date.Parse tp layout s = (d, None) -> valid_date d.
Proof.
  unfold date.Parse. destruct (tp layout s) as [t [e |]]; [discriminate |].
  intros [= <-]. apply Of_valid_date.
Qed.

Lemma UnmarshalText_success_valid (tp : time.parser) d0 b d :
  date.UnmarshalText tp d0 b = (d, None) -> valid_date d.
Proof.
  unfold date.UnmarshalText.
  generalize date.layouts d0. induction l as [| layout ls IH]; intros d1; simpl.
  - discriminate.
  - destruct (date.Parse tp layout (string_of_bytes b)) as [d' [e |]] eqn:E.
    + apply IH.
    + intros [= <-]. apply (Parse_success_valid tp layout _ _ E).
Qed.

(** X3: A Date that [Parse], [UnmarshalText] or [Scan] returns with a nil
    error is a date of the calendar, whatever parser the platform has. *)
Theorem Parsed_dates_are_calendar_dates :
  forall (tp : time.parser) (d : date.Date),
    (forall layout s, date.Parse tp layout s = (d, None) -> valid_date d)
    /\ (forall d0 b, date.UnmarshalText tp d0 b = (d, None) -> valid_date d)
    /\ (forall d0 v, date.Scan tp d0 v = (d, None) -> valid_date d).
Proof.
  intros tp d. split; [| split].
  - intros layout s. apply Parse_success_valid.
  - intros d0 b. apply UnmarshalText_success_valid.
  - intros d0 v. destruct v; cbn [date.Scan]; try discriminate.
    + intros [= <-]. apply Of_valid_date.
    + apply UnmarshalText_success_valid.
    + apply UnmarshalText_success_valid.
Qed.

Lemma Parsed_dates_witness :
  valid_date {| date.Year := 2009; date.Month := 11; date.Day := 15 |}.
Proof.
  destruct (Parsed_dates_are_calendar_dates (time.Parse no_other)
              {| date.Year := 2009; date.Month := 11; date.Day := 15 |}) as (_ & _ & H).
  apply (H date.zeroDate (date.any_string "15 Nov 2009")).
  vm_compute. reflexivity.
Defined.

(** ** Text written and read back *)

Lemma Parse_String_valid (other : time.parser) d :
  four_digit_year d -> valid_date d ->
  date.Parse (time.Parse other) "2006-01-02" (date.String d) = (d, None).
Proof.
  intros Hy [Hm Hd]. unfold date.Parse, date.String.
  rewrite (Parse_canonical other _ _ _ Hy Hm Hd).
  unfold four_digit_year in Hy.
  fold (midnight d). rewrite (Of_midnight_small d (conj Hm Hd)) by lia. reflexivity.
Qed.

Lemma UnmarshalText_String (other : time.parser) d0 d :
  four_digit_year d -> valid_date d ->
  date.UnmarshalText (time.Parse other) d0 (bytes_of_string (date.String d)) = (d, None).
Proof.
  intros Hy Hv. unfold date.UnmarshalText, date.layouts, bytes_of_string, string_of_bytes.
  cbn [date.UnmarshalText_range]. rewrite string_of_list_ascii_of_string.
  rewrite (Parse_String_valid other d Hy Hv). reflexivity.
Qed.

(** X4: What [MarshalText] writes for a date of the calendar with a year of
    four digits, [UnmarshalText] reads back as that date, whatever the
    receiver held. *)
Theorem MarshalText_UnmarshalText_round_trip :
  forall (other : time.parser) (d0 d : date.Date),
    four_digit_year d -> valid_date d ->
    date.UnmarshalText (time.Parse other) d0 (fst (date.MarshalText d)) = (d, None).
Proof.
  intros other d0 d Hy Hv. unfold date.MarshalText. cbn [fst app].
  apply UnmarshalText_String; assumption.
Qed.

Lemma MarshalText_UnmarshalText_witness :
  date.UnmarshalText (time.Parse no_other) date.zeroDate
    (fst (date.MarshalText {| date.Year := 2008; date.Month := 2; date.Day := 29 |}))
  = ({| date.Year := 2008; date.Month := 2; date.Day := 29 |}, None).
Proof.
  apply (MarshalText_UnmarshalText_round_trip no_other date.zeroDate
           {| date.Year := 2008; date.Month := 2; date.Day := 29 |}).
  - unfold four_digit_year. cbn [date.Year]. lia.
  - unfold valid_date. cbn [date.Year date.Month date.Day].
    change (time.daysIn 2 2008) with 29. lia.
Defined.

(** X5: What [Value] hands to the database for such a date, [Scan] reads
    back as that date. *)
Theorem Value_Scan_round_trip :
  forall (other : time.parser) (d0 d : date.Date),
    four_digit_year d -> valid_date d ->
    date.Scan (time.Parse other) d0 (fst (date.Value d)) = (d, None)
    /\ snd (date.Value d) = None.
Proof.
  intros other d0 d Hy Hv. split; [| reflexivity].
  unfold date.Value. cbn [fst date.Scan].
  apply UnmarshalText_String; assumption.
Qed.

Lemma Value_Scan_witness :
  date.Scan (time.Parse no_other) date.zeroDate
    (fst (date.Value {| date.Year := 2001; date.Month := 3; date.Day := 5 |}))
  = ({| date.Year := 2001; date.Month := 3; date.Day := 5 |}, None)
  /\ snd (date.Value {| date.Year := 2001; date.Month := 3; date.Day := 5 |}) = None.
Proof.
  apply (Value_Scan_round_trip no_other date.zeroDate
           {| date.Year := 2001; date.Month := 3; date.Day := 5 |}).
  - unfold four_digit_year. cbn [date.Year]. lia.
  - unfold valid_date. cbn [date.Year date.Month date.Day].
    change (time.daysIn 3 2001) with 31. lia.
Defined.

(** X6: Two dates of the calendar with years of four digits that [String]
    prints alike are the same date: [Equal] holds exactly when the texts
    agree. *)
Theorem String_tells_dates_apart :
  forall a b : date.Date,
    four_digit_year a -> valid_date a -> four_digit_year b -> valid_date b ->
    (date.String a = date.String b <-> date.Equal a b = true).
Proof.
  intros a b Ya Va Yb Vb. rewrite Equal_fields, same_fields_eq. split.
  - intros E.
    pose proof (Parse_String_valid no_other a Ya Va) as Pa.
    pose proof (Parse_String_valid no_other b Yb Vb) as Pb.
    rewrite E in Pa. rewrite Pa in Pb. congruence.
  - intros ->. reflexivity.
Qed.

Lemma String_tells_dates_apart_witness :
  date.String {| date.Year := 2009; date.Month := 11; date.Day := 15 |}
  = date.String {| date.Year := 2009; date.Month := 11; date.Day := 15 |}
  <-> date.Equal {| date.Year := 2009; date.Month := 11; date.Day := 15 |}
                 {| date.Year := 2009; date.Month := 11; date.Day := 15 |} = true.
Proof.
  apply (String_tells_dates_apart
           {| date.Year := 2009; date.Month := 11; date.Day := 15 |}
           {| date.Year := 2009; date.Month := 11; date.Day := 15 |});
  unfold four_digit_year, valid_date; cbn [date.Year date.Month date.Day];
  try change (time.daysIn 11 2009) with 30; lia.
Defined.

(** ** The receiver *)

Lemma UnmarshalText_forgets_receiver (tp : time.parser) d d' b :
  date.UnmarshalText tp d b = date.UnmarshalText tp d' b.
Proof.
  unfold date.UnmarshalText, date.layouts. cbn [date.UnmarshalText_range].
  destruct (date.Parse tp "2006-01-02" (string_of_bytes b)) as [d1 [e1 |]]; reflexivity.
Qed.

(** X7: What the receiver held before the call has no part in what
    [UnmarshalText] returns and leaves in it; [Scan] either is in the same
    case, for a timestamp, a byte sequence or a string, or returns the
    receiver as it was. *)
Theorem UnmarshalText_Scan_forget_the_receiver :
  forall (tp : time.parser) (d d' : date.Date),
    (forall b, date.UnmarshalText tp d b = date.UnmarshalText tp d' b)
    /\ (forall v, if scannable v
                  then date.Scan tp d v = date.Scan tp d' v
                  else fst (date.Scan tp d v) = d /\ snd (date.Scan tp d v) <> None).
Proof.
  intros tp d d'. split.
  - intros b. apply UnmarshalText_forgets_receiver.
  - intros v. destruct v; cbn [scannable date.Scan fst snd];
      try (split; [reflexivity | discriminate]).
    + reflexivity.
    + apply UnmarshalText_forgets_receiver.
    + apply UnmarshalText_forgets_receiver.
Qed.

(** ** Day differences and the order of dates *)

Lemma clamp_days_bounds k : - maxDays <= clamp_days k <= maxDays.
Proof. unfold clamp_days, maxDays. lia. Qed.

Lemma clamp_days_sign k :
  (0 < clamp_days k <-> 0 < k) /\ (clamp_days k = 0 <-> k = 0)
  /\ (clamp_days k < 0 <-> k < 0).
Proof. unfold clamp_days, maxDays. lia. Qed.

Lemma clamp_days_inside k : - maxDays < clamp_days k < maxDays -> clamp_days k = k.
Proof. unfold clamp_days, maxDays. lia. Qed.

Lemma check_month_order_all :
  forall_from (check_month_order true) 1 12 = true
  /\ forall_from (check_month_order false) 1 12 = true.
Proof. split; vm_compute; reflexivity. Qed.

Lemma yday_of_day leap m d : yday_of leap m d = yday_of leap m 1 + (d - 1).
Proof. unfold yday_of. cbv zeta. ring. Qed.

Lemma yday_of_later_month leap m d m' d' :
  1 <= m <= 12 -> 1 <= m' <= 12 -> m < m' ->
  d <= daysIn_leap leap m -> 1 <= d' ->
  yday_of leap m d < yday_of leap m' d'.
Proof.
  intros Hm Hm' Hlt Hd Hd'.
  assert (H : check_month_order leap m = true).
  { destruct check_month_order_all as [Ht Hf].
    destruct leap; [apply (forall_from_spec _ _ _ Ht) | apply (forall_from_spec _ _ _ Hf)];
      change (Z.of_nat 12) with 12; lia. }
  unfold check_month_order in H.
  pose proof (forall_from_spec _ _ _ H m') as G. cbv beta in G.
  assert (G' : (m' <=? m) || (yday_of leap m (daysIn_leap leap m) <? yday_of leap m' 1) = true).
  { apply G. change (Z.of_nat 12) with 12. lia. }
  rewrite orb_true_iff, Z.leb_le, Z.ltb_lt in G'.
  rewrite (yday_of_day leap m d), (yday_of_day leap m' d').
  rewrite (yday_of_day leap m (daysIn_leap leap m)) in G'. lia.
Qed.

Lemma date_days_valid d :
  valid_date d ->
  date_days d = epoch_days (date.Year d)
                + yday_of (time.isLeap (date.Year d)) (date.Month d) (date.Day d)
  /\ 0 <= yday_of (time.isLeap (date.Year d)) (date.Month d) (date.Day d)
       < year_length (time.isLeap (date.Year d)).
Proof.
  intros [Hm Hd]. split.
  - unfold date_days. apply civil_days_month. exact Hm.
  - rewrite daysIn_leap_eq in Hd. apply (month_day_yday _ _ _ Hm Hd).
Qed.

Lemma date_days_lex a b :
  valid_date a -> valid_date b -> lex_gt a b -> date_days b < date_days a.
Proof.
  intros Va Vb L.
  destruct (date_days_valid a Va) as [Ea Ba], (date_days_valid b Vb) as [Eb Bb].
  rewrite Ea, Eb. destruct Va as [Ma Da], Vb as [Mb Db].
  destruct L as [Hy | [Hy [Hm | [Hm Hd]]]].
  - pose proof (epoch_days_next_year (date.Year b) (date.Year a)). lia.
  - rewrite Hy in *. rewrite daysIn_leap_eq in Db.
    pose proof (yday_of_later_month (time.isLeap (date.Year b)) (date.Month b) (date.Day b)
                  (date.Month a) (date.Day a)). lia.
  - rewrite Hy, Hm.
    rewrite (yday_of_day _ _ (date.Day a)), (yday_of_day _ _ (date.Day b)). lia.
Qed.

Lemma lex_trichotomy a b : lex_gt a b \/ same_fields a b \/ lex_gt b a.
Proof. unfold lex_gt, same_fields. lia. Qed.

Lemma date_days_order a b :
  valid_date a -> valid_date b ->
  (lex_gt a b <-> date_days b < date_days a)
  /\ (same_fields a b <-> date_days a = date_days b).
Proof.
  intros Va Vb.
  pose proof (date_days_lex a b Va Vb) as Hab.
  pose proof (date_days_lex b a Vb Va) as Hba.
  assert (Hs : same_fields a b -> date_days a = date_days b).
  { intros S. apply same_fields_eq in S. rewrite S. reflexivity. }
  destruct (lex_trichotomy a b) as [L | [S | L]]; split; split; intros H;
    try assumption; try (apply Hab; assumption); try (apply Hs; assumption);
    try (specialize (Hab L)); try (specialize (Hba L)); try (specialize (Hs S)); lia.
Qed.

(** X9: On dates of the calendar in the years from the absolute zero
    year to year 292277024626 the sign of [Sub] tells the order that
    [After], [Equal] and [Before] decide: positive exactly when the
    receiver is after the argument, zero exactly when they are equal,
    negative exactly when it is before. *)
Theorem Sub_sign_is_the_order :
  forall a b : date.Date,
    valid_date a -> in_years a -> valid_date b -> in_years b ->
    (date.After a b = true <-> 0 < date.Sub a b)
    /\ (date.Equal a b = true <-> date.Sub a b = 0)
    /\ (date.Before a b = true <-> date.Sub a b < 0).
Proof.
  intros a b Va Ya Vb Yb.
  destruct (valid_on_counter a Va Ya) as [Ca _].
  destruct (valid_on_counter b Vb Yb) as [Cb _].
  destruct (date_days_order a b Va Vb) as [Hgt Heq].
  destruct (date_days_order b a Vb Va) as [Hlt _].
  destruct (clamp_days_sign (date_days a - date_days b)) as (Cp & Cz & Cn).
  rewrite (Sub_clamp a b Ca Cb). split; [| split].
  - rewrite After_lex, Hgt, Cp. lia.
  - rewrite Equal_fields, Heq, Cz. lia.
  - change (date.Before a b) with (date.After b a).
    rewrite After_lex, Hlt, Cn. lia.
Qed.

Lemma Sub_sign_witness :
  (date.After {| date.Year := 2009; date.Month := 3; date.Day := 1 |}
              {| date.Year := 2009; date.Month := 2; date.Day := 28 |} = true
   <-> 0 < date.Sub {| date.Year := 2009; date.Month := 3; date.Day := 1 |}
                    {| date.Year := 2009; date.Month := 2; date.Day := 28 |})
  /\ (date.Equal {| date.Year := 2009; date.Month := 3; date.Day := 1 |}
                 {| date.Year := 2009; date.Month := 2; date.Day := 28 |} = true
      <-> date.Sub {| date.Year := 2009; date.Month := 3; date.Day := 1 |}
                   {| date.Year := 2009; date.Month := 2; date.Day := 28 |} = 0)
  /\ (date.Before {| date.Year := 2009; date.Month := 3; date.Day := 1 |}
                  {| date.Year := 2009; date.Month := 2; date.Day := 28 |} = true
      <-> date.Sub {| date.Year := 2009; date.Month := 3; date.Day := 1 |}
                   {| date.Year := 2009; date.Month := 2; date.Day := 28 |} < 0).
Proof.
  apply (Sub_sign_is_the_order
           {| date.Year := 2009; date.Month := 3; date.Day := 1 |}
           {| date.Year := 2009; date.Month := 2; date.Day := 28 |});
  unfold valid_date, in_years, time.absoluteZeroYear, maxYear;
  cbn [date.Year date.Month date.Day];
  try change (time.daysIn 3 2009) with 31; try change (time.daysIn 2 2009) with 28; lia.
Defined.

(** X10: Between dates of the calendar in the years from the absolute
    zero year to year 292277024626, day differences add up along a third
    date, as long as none of the three differences has reached the bound
    of 106751 days. *)
Theorem Sub_adds_up :
  forall a b c : date.Date,
    valid_date a -> in_years a -> valid_date b -> in_years b ->
    valid_date c -> in_years c ->
    - 106751 < date.Sub a b < 106751 ->
    - 106751 < date.Sub b c < 106751 ->
    - 106751 < date.Sub a c < 106751 ->
    date.Sub a c = date.Sub a b + date.Sub b c.
Proof.
  intros a b c Va Ya Vb Yb Vc Yc.
  destruct (valid_on_counter a Va Ya) as [Ca _].
  destruct (valid_on_counter b Vb Yb) as [Cb _].
  destruct (valid_on_counter c Vc Yc) as [Cc _].
  rewrite (Sub_clamp a b Ca Cb), (Sub_clamp b c Cb Cc), (Sub_clamp a c Ca Cc).
  intros Hab Hbc Hac.
  rewrite (clamp_days_inside _ Hab), (clamp_days_inside _ Hbc), (clamp_days_inside _ Hac).
  ring.
Qed.

Lemma Sub_adds_up_witness :
  date.Sub {| date.Year := 2010; date.Month := 1; date.Day := 1 |}
           {| date.Year := 2008; date.Month := 2; date.Day := 28 |}
  = date.Sub {| date.Year := 2010; date.Month := 1; date.Day := 1 |}
             {| date.Year := 2009; date.Month := 3; date.Day := 1 |}
    + date.Sub {| date.Year := 2009; date.Month := 3; date.Day := 1 |}
               {| date.Year := 2008; date.Month := 2; date.Day := 28 |}.
Proof.
  apply (Sub_adds_up
           {| date.Year := 2010; date.Month := 1; date.Day := 1 |}
           {| date.Year := 2009; date.Month := 3; date.Day := 1 |}
           {| date.Year := 2008; date.Month := 2; date.Day := 28 |});
  first [ unfold valid_date; cbn [date.Year date.Month date.Day];
          split; [lia | vm_compute; split; discriminate]
        | unfold in_years, time.absoluteZeroYear, maxYear; cbn [date.Year]; lia
        | vm_compute; split; reflexivity ].
Defined.

Lemma days_later_spec (n : nat) d :
  valid_date d ->
  valid_date (days_later n d) /\ date_days (days_later n d) = date_days d + Z.of_nat n.
Proof.
  intros Hd. induction n as [| n [IHv IHd]].
  - split; [exact Hd | cbn [days_later Z.of_nat]; lia].
  - cbn [days_later]. split.
    + apply next_day_valid. exact IHv.
    + rewrite (next_day_days _ IHv), IHd. lia.
Qed.

(** X11: For a date of the calendar [d] and the date [n] days later in
    the calendar, both in the years from the absolute zero year to year
    292277024626, the later date is [n] days away by [Sub], up to 106751
    days; further away [Sub] stays at 106751. *)
Theorem Sub_counts_calendar_days :
  forall (n : nat) (d : date.Date),
    valid_date d -> in_years d -> in_years (days_later n d) ->
    date.Sub (days_later n d) d = Z.min (Z.of_nat n) 106751.
Proof.
  intros n d Hd Yd Yn. destruct (days_later_spec n d Hd) as [Vn E].
  destruct (valid_on_counter d Hd Yd) as [Cd _].
  destruct (valid_on_counter _ Vn Yn) as [Cn _].
  rewrite (Sub_clamp _ _ Cn Cd), E. unfold clamp_days, maxDays. lia.
Qed.

Lemma Sub_counts_witness :
  date.Sub (days_later 3 {| date.Year := 2008; date.Month := 2; date.Day := 27 |})
           {| date.Year := 2008; date.Month := 2; date.Day := 27 |}
  = Z.min (Z.of_nat 3) 106751.
Proof.
  apply (Sub_counts_calendar_days 3 {| date.Year := 2008; date.Month := 2; date.Day := 27 |}).
  - unfold valid_date. cbn [date.Year date.Month date.Day].
    change (time.daysIn 2 2008) with 29. lia.
  - unfold in_years, time.absoluteZeroYear, maxYear. cbn [date.Year]. lia.
  - vm_compute. split; discriminate.
Defined.

(** ** Months outside of the year *)

(** [norm] on a month of any year: the months are counted from 0 in
    whole years, as long as the year stays an [int]. *)
Lemma norm_floor hi lo :
  - 2 ^ 63 < lo < 2 ^ 63 -> - 2 ^ 63 <= hi + lo / 12 < 2 ^ 63 ->
  time.norm hi lo 12 = (hi + lo / 12, lo mod 12).
Proof.
  intros Hlo Hhi. unfold time.norm.
  pose proof (Z.div_mod lo 12 ltac:(lia)) as E.
  pose proof (Z.mod_pos_bound lo 12 ltac:(lia)) as B.
  destruct (Z.ltb_spec lo 0) as [Hneg | Hpos].
  - rewrite (wrap64_id (- lo)) by lia. rewrite (wrap64_id (- lo - 1)) by lia.
    assert (Q : Z.quot (- lo - 1) 12 + 1 = - (lo / 12)).
    { rewrite Z.quot_div_nonneg by lia.
      assert ((- lo - 1) / 12 = - (lo / 12) - 1); [| lia].
      symmetry. apply (Z.div_unique _ _ _ (12 - 1 - lo mod 12)); lia. }
    rewrite Q. rewrite (wrap64_id (- (lo / 12))) by lia.
    replace (hi - - (lo / 12)) with (hi + lo / 12) by ring.
    rewrite (wrap64_id (hi + lo / 12)) by exact Hhi.
    assert (L : time.wrap64 (lo + time.wrap64 (- (lo / 12) * 12)) = lo mod 12).
    { apply same64_close.
      - eapply same64_trans; [strip64 |].
        replace (lo + - (lo / 12) * 12) with (lo mod 12) by lia. apply same64_refl.
      - pose proof (wrap64_range (lo + time.wrap64 (- (lo / 12) * 12))). lia. }
    rewrite L.
    destruct (Z.geb_spec (lo mod 12) 12) as [H | H]; [lia | reflexivity].
  - destruct (Z.geb_spec lo 12) as [H | H].
    + rewrite Z.quot_div_nonneg by lia.
      assert (0 <= lo / 12) by (apply Z.div_pos; lia).
      rewrite (wrap64_id (hi + lo / 12)) by exact Hhi.
      rewrite (wrap64_id (lo / 12 * 12)) by lia.
      rewrite (wrap64_id (lo - lo / 12 * 12)) by lia.
      f_equal. lia.
    + rewrite Z.div_small, Z.mod_small by lia. f_equal. ring.
Qed.

(** The midnight of a date with a month of any year is the midnight of
    the date with that month of the year brought into 1 .. 12. *)
Lemma midnight_normal_month d :
  - 2 ^ 63 + 1 < date.Month d < 2 ^ 63 ->
  - 2 ^ 63 <= date.Year d + (date.Month d - 1) / 12 < 2 ^ 63 ->
  midnight (normal_month d) = midnight d.
Proof.
  intros Hm Hy. unfold midnight, normal_month, time.Date.
  cbn [date.Year date.Month date.Day].
  pose proof (Z.mod_pos_bound (date.Month d - 1) 12 ltac:(lia)) as B.
  replace ((date.Month d - 1) mod 12 + 1 - 1) with ((date.Month d - 1) mod 12) by ring.
  rewrite (wrap64_id ((date.Month d - 1) mod 12)) by lia.
  rewrite (norm_in_range _ ((date.Month d - 1) mod 12) 12) by lia.
  rewrite (wrap64_id (date.Month d - 1)) by lia.
  rewrite (norm_floor (date.Year d) (date.Month d - 1)) by lia.
  reflexivity.
Qed.

(** X12: Sub reads a month outside 1 .. 12 as the month of a neighbouring
    year that lies as many months away, as long as the month and that
    year are integers of 64 bits: month 13 as January of the next year
    and month 0 as December of the year before, while [Equal] compares
    the fields as they are. *)
Theorem Sub_counts_months_across_years :
  (forall a b : date.Date,
      - 2 ^ 63 + 1 < date.Month a < 2 ^ 63 ->
      - 2 ^ 63 <= date.Year a + (date.Month a - 1) / 12 < 2 ^ 63 ->
      date.Sub a b = date.Sub (normal_month a) b
      /\ date.Sub b a = date.Sub b (normal_month a))
  /\ (forall y d,
        - 2 ^ 63 <= y + 1 < 2 ^ 63 ->
        date.Sub {| date.Year := y; date.Month := 13; date.Day := d |}
                 {| date.Year := y + 1; date.Month := 1; date.Day := d |} = 0
        /\ date.Equal {| date.Year := y; date.Month := 13; date.Day := d |}
                      {| date.Year := y + 1; date.Month := 1; date.Day := d |} = false)
  /\ (forall y d,
        - 2 ^ 63 <= y - 1 < 2 ^ 63 ->
        date.Sub {| date.Year := y; date.Month := 0; date.Day := d |}
                 {| date.Year := y - 1; date.Month := 12; date.Day := d |} = 0).
Proof.
  split; [| split].
  - intros a b Hm Hy.
    rewrite !Sub_midnight, (midnight_normal_month a Hm Hy). split; reflexivity.
  - intros y d Hy. split.
    + rewrite Sub_midnight.
      rewrite <- (midnight_normal_month {| date.Year := y; date.Month := 13; date.Day := d |})
        by (cbn [date.Year date.Month]; change ((13 - 1) / 12) with 1; lia).
      unfold normal_month. cbn [date.Year date.Month date.Day].
      change ((13 - 1) / 12) with 1. change ((13 - 1) mod 12 + 1) with 1.
      rewrite <- Sub_midnight. apply Sub_same.
    + apply not_true_is_false. rewrite Equal_fields. unfold same_fields.
      cbn [date.Year date.Month date.Day]. lia.
  - intros y d Hy. rewrite Sub_midnight.
    rewrite <- (midnight_normal_month {| date.Year := y; date.Month := 0; date.Day := d |})
      by (cbn [date.Year date.Month]; change ((0 - 1) / 12) with (-1); lia).
    unfold normal_month. cbn [date.Year date.Month date.Day].
    change ((0 - 1) / 12) with (-1). change ((0 - 1) mod 12 + 1) with 12.
    replace (y + -1) with (y - 1) by ring.
    rewrite <- Sub_midnight. apply Sub_same.
Qed.

(** ** Comparison *)

(** X13: Of two dates exactly one of [After], [Equal] and [Before] holds, and
    [After] and [Before] cannot both fail unless the dates are equal. *)
Theorem After_Equal_Before_trichotomy :
  forall a b : date.Date,
    (date.After a b = true /\ date.Equal a b = false /\ date.Before a b = false)
    \/ (date.After a b = false /\ date.Equal a b = true /\ date.Before a b = false)
    \/ (date.After a b = false /\ date.Equal a b = false /\ date.Before a b = true).
Proof.
  intros a b. change (date.Before a b) with (date.After b a).
  destruct (date.After a b) eqn:Ea, (date.Equal a b) eqn:Ee, (date.After b a) eqn:Eb;
    try rewrite After_lex in *; try rewrite After_false in *;
    try rewrite Equal_fields in *;
    try (apply not_true_iff_false in Ee; rewrite Equal_fields in Ee);
    unfold lex_gt, same_fields in *; try tauto; exfalso; lia.
Qed.

(** ** The two revisions of the package *)

Lemma date_go_UnmarshalText_cases (tp : time.parser) d b :
  (exists d', date.UnmarshalText tp d b = (d', None)
              /\ date_go.UnmarshalText tp d b = (d', None))
  \/ (exists e e', date.UnmarshalText tp d b = (date.zeroDate, Some e)
                   /\ date_go.UnmarshalText tp d b = (d, Some e')).
Proof.
  unfold date.UnmarshalText, date_go.UnmarshalText, date.layouts.
  cbn [date.UnmarshalText_range date_go.UnmarshalText_range]. unfold date.Parse.
  destruct (tp "2006-01-02" (string_of_bytes b)) as [t1 [e1 |]];
    [| left; eexists; split; reflexivity].
  destruct (tp "2006/01/02" (string_of_bytes b)) as [t2 [e2 |]];
    [| left; eexists; split; reflexivity].
  destruct (tp "02 Jan 2006" (string_of_bytes b)) as [t3 [e3 |]];
    [| left; eexists; split; reflexivity].
  right. eexists. eexists. split; reflexivity.
Qed.

(** X14: The two revisions of [UnmarshalText] accept the same texts and read
    the same date from them; on a text that neither accepts, the one of
    src/date.go returns the receiver as it was, the other the zero Date. *)
Theorem UnmarshalText_revisions_agree_on_success :
  forall (tp : time.parser) (d : date.Date) (b : bytes),
    (forall d', date.UnmarshalText tp d b = (d', None)
                <-> date_go.UnmarshalText tp d b = (d', None))
    /\ (snd (date.UnmarshalText tp d b) = None
        <-> snd (date_go.UnmarshalText tp d b) = None)
    /\ (snd (date_go.UnmarshalText tp d b) <> None ->
        fst (date_go.UnmarshalText tp d b) = d
        /\ fst (date.UnmarshalText tp d b) = date.zeroDate).
Proof.
  intros tp d b.
  destruct (date_go_UnmarshalText_cases tp d b) as [(d1 & E & G) | (e & e' & E & G)];
    rewrite E, G; cbn [fst snd]; repeat split; try congruence; try tauto;
    intros H; try discriminate H; try (exfalso; apply H; reflexivity).
Qed.

(** X15: In src/date.go, [Scan] leaves the receiver as it was whenever it
    returns an error, and a value that it reads, the later [Scan] reads as
    the same date; a string it does not read at all. *)
Theorem Scan_revisions :
  forall (tp : time.parser) (d : date.Date) (v : date.any),
    (snd (date_go.Scan tp d v) <> None -> fst (date_go.Scan tp d v) = d)
    /\ (forall d', date_go.Scan tp d v = (d', None) -> date.Scan tp d v = (d', None))
    /\ (forall s, v = date.any_string s -> snd (date_go.Scan tp d v) <> None).
Proof.
  intros tp d v. split; [| split].
  - destruct v; cbn [date_go.Scan fst snd]; try reflexivity.
    + intros H. exfalso. apply H. reflexivity.
    + destruct (tp "2006-01-02" (string_of_bytes b)) as [t [e |]]; cbn [fst snd].
      * reflexivity.
      * intros H. exfalso. apply H. reflexivity.
  - intros d'. destruct v; cbn [date_go.Scan date.Scan]; try discriminate.
    + trivial.
    + unfold date.UnmarshalText, date.layouts. cbn [date.UnmarshalText_range].
      unfold date.Parse.
      destruct (tp "2006-01-02" (string_of_bytes b)) as [t [e |]]; [discriminate |].
      trivial.
  - intros s ->. cbn [date_go.Scan snd]. discriminate.
Qed.

(** ** The length of the text *)

Lemma length_append (s t : string) :
  String.length (s ++ t) = (String.length s + String.length t)%nat.
Proof. induction s as [| c s IH]; cbn [append String.length]; [| rewrite IH]; reflexivity. Qed.

Lemma length_repeat_byte c n : String.length (repeat_byte c n) = n.
Proof. induction n as [| n IH]; cbn [repeat_byte String.length]; [| rewrite IH]; reflexivity. Qed.

Lemma fmtInteger_width wid zero n :
  (wid <= String.length (fmt.fmtInteger wid zero n))%nat.
Proof.
  unfold fmt.fmtInteger. cbv zeta. rewrite length_append, length_repeat_byte. lia.
Qed.

Lemma canonical_text_length s : canonical_text s = true -> String.length s = 10%nat.
Proof.
  destruct s as [| ? [| ? [| ? [| ? [| ? [| ? [| ? [| ? [| ? [| ? [| ? ?]]]]]]]]]]];
    cbn [canonical_text]; try discriminate. reflexivity.
Qed.

(** X16: String never gives less than the ten bytes of YYYY-MM-DD; with a
    year of four digits and a month and a day of at most two digits it
    gives exactly ten: four digits, a hyphen, two digits, a hyphen, two
    digits. *)
Theorem String_at_least_ten_bytes :
  forall d : date.Date,
    (10 <= String.length (date.String d))%nat
    /\ (1000 <= date.Year d <= 9999 -> 0 <= date.Month d <= 99 ->
        0 <= date.Day d <= 99 ->
        canonical_text (date.String d) = true
        /\ String.length (date.String d) = 10%nat).
Proof.
  intros d. split.
  - unfold date.String, fmt.Sprintf_4d_02d_02d.
    rewrite !length_append. cbn [String.length].
    pose proof (fmtInteger_width 4 false (date.Year d)).
    pose proof (fmtInteger_width 2 true (date.Month d)).
    pose proof (fmtInteger_width 2 true (date.Day d)).
    lia.
  - intros Hy Hm Hd. pose proof (String_canonical d Hy Hm Hd) as C.
    split; [exact C | apply canonical_text_length; exact C].
Qed.

(** ** What the layout 2006-01-02 accepts *)

Lemma digit_bounds c : time.between (Some c) "0" "9" = true -> 0 <= digit_val c <= 9.
Proof.
  unfold time.between, digit_val. rewrite andb_true_iff, !Z.leb_le.
  change (byte_val "0") with 48. change (byte_val "9") with 57. lia.
Qed.

Lemma byte_val_inj a b : byte_val a = byte_val b -> a = b.
Proof.
  unfold byte_val. intros H. apply Nat2Z.inj in H.
  rewrite <- (ascii_nat_embedding a), <- (ascii_nat_embedding b), H. reflexivity.
Qed.

Lemma digit_val_inj a b : digit_val a = digit_val b -> a = b.
Proof. unfold digit_val. intros H. apply byte_val_inj. lia. Qed.

Lemma digit_not_sign c p :
  time.between (Some c) "0" "9" = true ->
  time.between (Some p) "0" "9" = false -> Ascii.eqb c p = false.
Proof.
  intros Hc Hp. destruct (Ascii.eqb_spec c p) as [-> | _]; [congruence | reflexivity].
Qed.

Lemma atoi_four a b c e y :
  time.between (Some a) "0" "9" = true ->
  time.atoi (String a (String b (String c (String e EmptyString)))) = Some y ->
  time.between (Some b) "0" "9" = true /\ time.between (Some c) "0" "9" = true
  /\ time.between (Some e) "0" "9" = true
  /\ y = 1000 * digit_val a + 100 * digit_val b + 10 * digit_val c + digit_val e.
Proof.
  intros Ha. unfold time.atoi.
  rewrite (digit_not_sign a "-" Ha eq_refl), (digit_not_sign a "+" Ha eq_refl).
  cbn [time.leadingInt]. rewrite Ha.
  change (2 ^ 63 / 10) with 922337203685477580. change (2 ^ 63) with 9223372036854775808.
  pose proof (digit_bounds a Ha) as Ba. unfold digit_val in Ba.
  rewrite !Z.gtb_ltb.
  destruct (Z.ltb_spec 922337203685477580 0); [lia |].
  destruct (Z.ltb_spec 9223372036854775808 (0 * 10 + byte_val a - 48)); [lia |].
  destruct (time.between (Some b) "0" "9") eqn:Hb; [| discriminate].
  pose proof (digit_bounds b Hb) as Bb. unfold digit_val in Bb.
  destruct (Z.ltb_spec 922337203685477580 (0 * 10 + byte_val a - 48)); [lia |].
  destruct (Z.ltb_spec 9223372036854775808
              ((0 * 10 + byte_val a - 48) * 10 + byte_val b - 48)); [lia |].
  destruct (time.between (Some c) "0" "9") eqn:Hc; [| discriminate].
  pose proof (digit_bounds c Hc) as Bc. unfold digit_val in Bc.
  destruct (Z.ltb_spec 922337203685477580
              ((0 * 10 + byte_val a - 48) * 10 + byte_val b - 48)); [lia |].
  destruct (Z.ltb_spec 9223372036854775808
              (((0 * 10 + byte_val a - 48) * 10 + byte_val b - 48) * 10 + byte_val c - 48));
    [lia |].
  destruct (time.between (Some e) "0" "9") eqn:He; [| discriminate].
  pose proof (digit_bounds e He) as Be. unfold digit_val in Be.
  destruct (Z.ltb_spec 922337203685477580
              (((0 * 10 + byte_val a - 48) * 10 + byte_val b - 48) * 10 + byte_val c - 48));
    [lia |].
  destruct (Z.ltb_spec 9223372036854775808
              ((((0 * 10 + byte_val a - 48) * 10 + byte_val b - 48) * 10 + byte_val c - 48)
                 * 10 + byte_val e - 48)); [lia |].
  intros E. injection E as <-. unfold digit_val. repeat split; lia.
Qed.

Lemma skip_hyphen value v :
  time.skip value "-" = (v, true) -> value = String "-" v.
Proof.
  unfold time.skip. cbn [String.length time.skip_loop].
  change (Ascii.eqb "-" " ") with false. cbv iota.
  destruct value as [| c r]; [discriminate |].
  destruct (Ascii.eqb_spec c "-") as [-> | _]; [| discriminate].
  destruct r; cbn [time.skip_loop]; intros H; injection H as <-; reflexivity.
Qed.

Section StepsBack.

Variables (k : nat) (alayout avalue layout value pfx suffix : string).
Variables (year month day : Z) (R : time.parsed).

Lemma back_LongYear :
  time.nextStdChunk layout = (pfx, time.stdLongYear, suffix) ->
  time.parse_loop (S k) alayout avalue layout value year month day = R ->
  failed R
  \/ exists a b c e r y,
       time.skip value pfx = (String a (String b (String c (String e r))), true)
       /\ time.between (Some a) "0" "9" = true
       /\ time.atoi (String a (String b (String c (String e EmptyString)))) = Some y
       /\ time.parse_loop k alayout avalue suffix r y month day = R.
Proof.
  intros Hc <-. cbn [time.parse_loop]. rewrite Hc. cbv beta iota zeta.
  destruct (time.skip value pfx) as [v [|]]; [| left; eexists; reflexivity].
  destruct v as [| a [| b [| c [| e r]]]]; try (left; eexists; reflexivity).
  unfold time.isDigit, time.byte_at. cbn [String.get String.length Nat.ltb Nat.leb].
  destruct (time.between (Some a) "0" "9") eqn:Ha; cbn [negb orb];
    [| left; eexists; reflexivity].
  cbn [substring time.drop]. rewrite substring_0_0.
  destruct (time.atoi (String a (String b (String c (String e EmptyString))))) as [y |] eqn:Hy;
    [| left; eexists; reflexivity].
  right. exists a, b, c, e, r, y.
  split; [reflexivity | split; [exact Ha | split; [exact Hy | reflexivity]]].
Qed.

Lemma back_ZeroMonth :
  time.nextStdChunk layout = (pfx, time.stdZeroMonth, suffix) ->
  time.parse_loop (S k) alayout avalue layout value year month day = R ->
  failed R
  \/ exists a b r,
       time.skip value pfx = (String a (String b r), true)
       /\ time.between (Some a) "0" "9" = true
       /\ time.between (Some b) "0" "9" = true
       /\ 1 <= digit_val a * 10 + digit_val b <= 12
       /\ time.parse_loop k alayout avalue suffix r year
            (digit_val a * 10 + digit_val b) day = R.
Proof.
  intros Hc <-. cbn [time.parse_loop]. rewrite Hc. cbv beta iota zeta.
  destruct (time.skip value pfx) as [v [|]]; [| left; eexists; reflexivity].
  unfold time.getnum.
  destruct v as [| a [| b r]]; try (left; eexists; reflexivity).
  - destruct (time.between (Some a) "0" "9"); left; eexists; reflexivity.
  - destruct (time.between (Some a) "0" "9") eqn:Hb0; [| left; eexists; reflexivity].
    destruct (time.between (Some b) "0" "9") eqn:Hb; [| left; eexists; reflexivity].
    fold (digit_val a). fold (digit_val b).
    destruct (Z.leb_spec (digit_val a * 10 + digit_val b) 0);
      [left; eexists; reflexivity |].
    destruct (Z.ltb_spec 12 (digit_val a * 10 + digit_val b));
      [left; eexists; reflexivity |].
    cbn [orb]. right. exists a, b, r.
    split; [reflexivity | split; [exact Hb0 | split; [exact Hb | split; [lia | reflexivity]]]].
Qed.

Lemma back_ZeroDay :
  time.nextStdChunk layout = (pfx, time.stdZeroDay, suffix) ->
  time.parse_loop (S k) alayout avalue layout value year month day = R ->
  failed R
  \/ exists a b r,
       time.skip value pfx = (String a (String b r), true)
       /\ time.between (Some a) "0" "9" = true
       /\ time.between (Some b) "0" "9" = true
       /\ time.parse_loop k alayout avalue suffix r year month
            (digit_val a * 10 + digit_val b) = R.
Proof.
  intros Hc <-. cbn [time.parse_loop]. rewrite Hc. cbv beta iota zeta.
  destruct (time.skip value pfx) as [v [|]]; [| left; eexists; reflexivity].
  unfold time.getnum.
  destruct v as [| a [| b r]]; try (left; eexists; reflexivity).
  - destruct (time.between (Some a) "0" "9"); left; eexists; reflexivity.
  - destruct (time.between (Some a) "0" "9") eqn:Hb0; [| left; eexists; reflexivity].
    destruct (time.between (Some b) "0" "9") eqn:Hb; [| left; eexists; reflexivity].
    fold (digit_val a). fold (digit_val b).
    right. exists a, b, r.
    split; [reflexivity | split; [exact Hb0 | split; [exact Hb | reflexivity]]].
Qed.

Lemma back_end :
  time.nextStdChunk layout = (pfx, time.stdNone, suffix) ->
  time.parse_loop (S k) alayout avalue layout value year month day = R ->
  failed R
  \/ (time.skip value pfx = (EmptyString, true) /\ R = time.Done year month day).
Proof.
  intros Hc <-. cbn [time.parse_loop]. rewrite Hc. cbv beta iota zeta.
  destruct (time.skip value pfx) as [v [|]]; [| left; eexists; reflexivity].
  destruct v as [| c r]; [right; split; reflexivity | left; eexists; reflexivity].
Qed.

End StepsBack.

Lemma skip_nothing value v : time.skip value EmptyString = (v, true) -> value = v.
Proof.
  unfold time.skip. cbn [String.length time.skip_loop]. intros H. injection H as <-.
  reflexivity.
Qed.

Lemma parse_loop_canonical_back s R :
  time.parse_loop 11 "2006-01-02" s "2006-01-02" s 0 (-1) (-1) = R ->
  failed R
  \/ exists y1 y2 y3 y4 m1 m2 d1 d2,
       s = String y1 (String y2 (String y3 (String y4 (String "-" (String m1 (String m2
             (String "-" (String d1 (String d2 EmptyString)))))))))
       /\ time.between (Some y1) "0" "9" = true /\ time.between (Some y2) "0" "9" = true
       /\ time.between (Some y3) "0" "9" = true /\ time.between (Some y4) "0" "9" = true
       /\ time.between (Some m1) "0" "9" = true /\ time.between (Some m2) "0" "9" = true
       /\ time.between (Some d1) "0" "9" = true /\ time.between (Some d2) "0" "9" = true
       /\ 1 <= digit_val m1 * 10 + digit_val m2 <= 12
       /\ R = time.Done
                (1000 * digit_val y1 + 100 * digit_val y2 + 10 * digit_val y3 + digit_val y4)
                (digit_val m1 * 10 + digit_val m2) (digit_val d1 * 10 + digit_val d2).
Proof.
  intros H.
  destruct (back_LongYear 10 _ _ "2006-01-02" s EmptyString "-01-02" _ _ _ R
              ltac:(vm_compute; reflexivity) H)
    as [F | (y1 & y2 & y3 & y4 & r1 & y & S1 & Y1 & Ay & H1)]; [left; exact F |].
  apply skip_nothing in S1. subst s.
  destruct (atoi_four _ _ _ _ _ Y1 Ay) as (Y2 & Y3 & Y4 & ->).
  destruct (back_ZeroMonth 9 _ _ "-01-02" r1 "-" "-02" _ _ _ R
              ltac:(vm_compute; reflexivity) H1)
    as [F | (m1 & m2 & r2 & S2 & M1 & M2 & Mr & H2)]; [left; exact F |].
  apply skip_hyphen in S2. subst r1.
  destruct (back_ZeroDay 8 _ _ "-02" r2 "-" EmptyString _ _ _ R
              ltac:(vm_compute; reflexivity) H2)
    as [F | (d1 & d2 & r3 & S3 & D1 & D2 & H3)]; [left; exact F |].
  apply skip_hyphen in S3. subst r2.
  destruct (back_end 7 _ _ EmptyString r3 EmptyString EmptyString _ _ _ R
              ltac:(vm_compute; reflexivity) H3)
    as [F | [S4 E]]; [left; exact F |].
  apply skip_nothing in S4. subst r3.
  right. exists y1, y2, y3, y4, m1, m2, d1, d2.
  repeat (split; [first [reflexivity | assumption] |]). exact E.
Qed.

Lemma padded_year_all : forall_from padded_year 0 1000 = true.
Proof. vm_compute. reflexivity. Qed.

Lemma four_digits_unique a b c e a' b' c' e' :
  time.between (Some a) "0" "9" = true -> time.between (Some b) "0" "9" = true ->
  time.between (Some c) "0" "9" = true -> time.between (Some e) "0" "9" = true ->
  time.between (Some a') "0" "9" = true -> time.between (Some b') "0" "9" = true ->
  time.between (Some c') "0" "9" = true -> time.between (Some e') "0" "9" = true ->
  1000 * digit_val a + 100 * digit_val b + 10 * digit_val c + digit_val e
  = 1000 * digit_val a' + 100 * digit_val b' + 10 * digit_val c' + digit_val e' ->
  a = a' /\ b = b' /\ c = c' /\ e = e'.
Proof.
  intros A B C E A' B' C' E' H.
  apply digit_bounds in A, B, C, E, A', B', C', E'.
  repeat split; apply digit_val_inj; lia.
Qed.

Lemma two_digits_unique a b a' b' :
  time.between (Some a) "0" "9" = true -> time.between (Some b) "0" "9" = true ->
  time.between (Some a') "0" "9" = true -> time.between (Some b') "0" "9" = true ->
  digit_val a * 10 + digit_val b = digit_val a' * 10 + digit_val b' ->
  a = a' /\ b = b'.
Proof.
  intros A B A' B' H.
  apply digit_bounds in A, B, A', B'.
  split; apply digit_val_inj; lia.
Qed.

Lemma fmt_year_back y1 y2 y3 y4 :
  time.between (Some y1) "0" "9" = true -> time.between (Some y2) "0" "9" = true ->
  time.between (Some y3) "0" "9" = true -> time.between (Some y4) "0" "9" = true ->
  1000 <= 1000 * digit_val y1 + 100 * digit_val y2 + 10 * digit_val y3 + digit_val y4 ->
  fmt.fmtInteger 4 false
    (1000 * digit_val y1 + 100 * digit_val y2 + 10 * digit_val y3 + digit_val y4)
  = String y1 (String y2 (String y3 (String y4 EmptyString))).
Proof.
  intros Y1 Y2 Y3 Y4 Hy.
  set (y := 1000 * digit_val y1 + 100 * digit_val y2 + 10 * digit_val y3 + digit_val y4) in *.
  assert (Hr : 1000 <= y <= 9999).
  { pose proof (digit_bounds _ Y1). pose proof (digit_bounds _ Y2).
    pose proof (digit_bounds _ Y3). pose proof (digit_bounds _ Y4). unfold y. lia. }
  pose proof (year_ok_range y Hr) as Y. unfold year_ok in Y.
  destruct (fmt.fmtInteger 4 false y) as [| a [| b [| c [| e [| ? ?]]]]]; try discriminate Y.
  rewrite !andb_true_iff in Y. destruct Y as [[[[A B] C] E] Y].
  destruct (time.atoi (String a (String b (String c (String e EmptyString))))) as [v |] eqn:Ev;
    [| discriminate Y].
  apply Z.eqb_eq in Y. subst v.
  destruct (atoi_four _ _ _ _ _ A Ev) as (_ & _ & _ & Ey).
  destruct (four_digits_unique _ _ _ _ _ _ _ _ A B C E Y1 Y2 Y3 Y4 (eq_sym Ey))
    as (-> & -> & -> & ->).
  reflexivity.
Qed.

Lemma fmt_two_back a b :
  time.between (Some a) "0" "9" = true -> time.between (Some b) "0" "9" = true ->
  fmt.fmtInteger 2 true (digit_val a * 10 + digit_val b) = String a (String b EmptyString).
Proof.
  intros A B.
  set (n := digit_val a * 10 + digit_val b) in *.
  assert (Hr : 0 <= n <= 99).
  { pose proof (digit_bounds _ A). pose proof (digit_bounds _ B). unfold n. lia. }
  pose proof (two_ok_range n Hr) as T. unfold two_ok in T.
  destruct (fmt.fmtInteger 2 true n) as [| a' [| b' [| ? ?]]]; try discriminate T.
  rewrite !andb_true_iff in T. destruct T as [[A' B'] T]. apply Z.eqb_eq in T.
  fold (digit_val a') in T. fold (digit_val b') in T.
  destruct (two_digits_unique _ _ _ _ A' B' A B T) as (-> & ->).
  reflexivity.
Qed.

Lemma fmt_year_padded y c r :
  0 <= y < 1000 -> time.between (Some c) "0" "9" = true ->
  fmt.fmtInteger 4 false y <> String c r.
Proof.
  intros Hy Hc E.
  assert (P : padded_year y = true).
  { apply (forall_from_spec _ _ _ padded_year_all). change (Z.of_nat 1000) with 1000. lia. }
  unfold padded_year in P. rewrite E in P.
  apply Ascii.eqb_eq in P. subst c. discriminate Hc.
Qed.

(** X17: Parse with the layout 2006-01-02 accepts nothing but four digits, a
    hyphen, two digits, a hyphen and two digits that name a date of the
    calendar; it returns that date, and [String] gives the accepted text
    back exactly when the year is 1000 or later. *)
Theorem Parse_accepts_only_canonical_text :
  forall (other : time.parser) (s : string) (d : date.Date),
    date.Parse (time.Parse other) "2006-01-02" s = (d, None) ->
    canonical_text s = true
    /\ valid_date d
    /\ 0 <= date.Year d <= 9999
    /\ (date.String d = s <-> 1000 <= date.Year d).
Proof.
  intros other s d. unfold date.Parse, time.Parse.
  change (S (String.length "2006-01-02")) with 11%nat.
  destruct (parse_loop_canonical_back s _ eq_refl)
    as [[e E] | (y1 & y2 & y3 & y4 & m1 & m2 & d1 & d2 & Es & Y1 & Y2 & Y3 & Y4
                 & M1 & M2 & D1 & D2 & Mr & E)]; rewrite E; [discriminate |].
  clear E. subst s.
  set (y := 1000 * digit_val y1 + 100 * digit_val y2 + 10 * digit_val y3 + digit_val y4).
  set (m := digit_val m1 * 10 + digit_val m2) in *.
  set (dd := digit_val d1 * 10 + digit_val d2).
  destruct (Z.ltb_spec m 0); [lia |].
  assert (Bd : 0 <= dd).
  { pose proof (digit_bounds _ D1). pose proof (digit_bounds _ D2). unfold dd. lia. }
  destruct (Z.ltb_spec dd 0); [lia |].
  destruct (Z.ltb_spec dd 1); cbn [orb]; [discriminate |].
  rewrite Z.gtb_ltb. destruct (Z.ltb_spec (time.daysIn m y) dd); [discriminate |].
  intros Ed. injection Ed as <-.
  assert (V : valid_date {| date.Year := y; date.Month := m; date.Day := dd |}).
  { unfold valid_date. cbn [date.Year date.Month date.Day]. lia. }
  change (time.Date y m dd 0 0 0 0 time.UTC)
    with (midnight {| date.Year := y; date.Month := m; date.Day := dd |}).
  assert (By : 0 <= y <= 9999).
  { pose proof (digit_bounds _ Y1). pose proof (digit_bounds _ Y2).
    pose proof (digit_bounds _ Y3). pose proof (digit_bounds _ Y4). unfold y. lia. }
  rewrite (Of_midnight_small _ V By). cbn [date.Year].
  split; [| split; [exact V | split; [exact By |]]].
  - cbn [canonical_text]. rewrite Y1, Y2, Y3, Y4, M1, M2, D1, D2. reflexivity.
  - unfold date.String, fmt.Sprintf_4d_02d_02d. cbn [date.Year date.Month date.Day].
    split.
    + intros E. destruct (Z.le_gt_cases 1000 y) as [G | G]; [exact G | exfalso].
      destruct (fmt.fmtInteger 4 false y) as [| c r] eqn:F; cbn [append] in E.
      { injection E as E1 _. rewrite <- E1 in Y1. discriminate Y1. }
      injection E as -> _.
      apply (fmt_year_padded y y1 r); [lia | exact Y1 | exact F].
    + intros G. unfold y, m, dd.
      rewrite (fmt_year_back _ _ _ _ Y1 Y2 Y3 Y4 G), (fmt_two_back _ _ M1 M2),
        (fmt_two_back _ _ D1 D2).
      reflexivity.
Qed.

Lemma Parse_accepts_only_witness :
  canonical_text "0999-02-28" = true
  /\ valid_date {| date.Year := 999; date.Month := 2; date.Day := 28 |}
  /\ 0 <= date.Year {| date.Year := 999; date.Month := 2; date.Day := 28 |} <= 9999
  /\ (date.String {| date.Year := 999; date.Month := 2; date.Day := 28 |} = "0999-02-28"
      <-> 1000 <= date.Year {| date.Year := 999; date.Month := 2; date.Day := 28 |}).
Proof.
  apply (Parse_accepts_only_canonical_text no_other "0999-02-28"
           {| date.Year := 999; date.Month := 2; date.Day := 28 |}).
  vm_compute. reflexivity.
Defined.

(** ** The three spellings of a date *)

Lemma step_Month (k : nat) (alayout avalue layout value pfx suffix : string)
  (year month day : Z) v i r :
  time.nextStdChunk layout = (pfx, time.stdMonth, suffix) ->
  time.skip value pfx = (v, true) ->
  time.lookup time.shortMonthNames v 0 = Some (i, r) ->
  time.parse_loop (S k) alayout avalue layout value year month day
  = time.parse_loop k alayout avalue suffix r year (i + 1) day.
Proof.
  intros Hc Hs Hl. cbn [time.parse_loop]. rewrite Hc, Hs. cbv beta iota zeta.
  rewrite Hl. reflexivity.
Qed.

Lemma skip_space_digit c r :
  time.between (Some c) "0" "9" = true ->
  time.skip (String " " (String c r)) " " = (String c r, true).
Proof.
  intros Hc. unfold time.skip. cbn [String.length time.skip_loop].
  change (Ascii.eqb " " " ") with true. cbv iota.
  unfold time.byte_at, time.is_byte. cbn [String.get].
  change (Ascii.eqb " " " ") with true. cbn [negb andb time.cutspace].
  change (Ascii.eqb " " " ") with true. cbv iota.
  rewrite (digit_not_sign c " " Hc eq_refl). reflexivity.
Qed.

Lemma canonical_fields y m d :
  1000 <= y <= 9999 -> 0 <= m <= 99 -> 0 <= d <= 99 ->
  exists y1 y2 y3 y4 m1 m2 d1 d2,
    fmt.fmtInteger 4 false y = String y1 (String y2 (String y3 (String y4 EmptyString)))
    /\ fmt.fmtInteger 2 true m = String m1 (String m2 EmptyString)
    /\ fmt.fmtInteger 2 true d = String d1 (String d2 EmptyString)
    /\ time.between (Some y1) "0" "9" = true
    /\ time.atoi (String y1 (String y2 (String y3 (String y4 EmptyString)))) = Some y
    /\ time.between (Some m1) "0" "9" = true /\ time.between (Some m2) "0" "9" = true
    /\ (byte_val m1 - 48) * 10 + (byte_val m2 - 48) = m
    /\ time.between (Some d1) "0" "9" = true /\ time.between (Some d2) "0" "9" = true
    /\ (byte_val d1 - 48) * 10 + (byte_val d2 - 48) = d.
Proof.
  intros Hy Hm Hd.
  pose proof (year_ok_range y Hy) as Y.
  pose proof (two_ok_range m Hm) as M.
  pose proof (two_ok_range d Hd) as D.
  unfold year_ok in Y. unfold two_ok in M, D.
  destruct (fmt.fmtInteger 4 false y) as [| y1 [| y2 [| y3 [| y4 [| ? ?]]]]]; try discriminate Y.
  destruct (fmt.fmtInteger 2 true m) as [| m1 [| m2 [| ? ?]]]; try discriminate M.
  destruct (fmt.fmtInteger 2 true d) as [| d1 [| d2 [| ? ?]]]; try discriminate D.
  rewrite !andb_true_iff in Y. rewrite !andb_true_iff in M. rewrite !andb_true_iff in D.
  destruct Y as [[[[Y1 Yb] Yc] Ye] Y2]. destruct M as [[M1 M2] M3]. destruct D as [[D1 D2] D3].
  apply Z.eqb_eq in M3, D3.
  destruct (time.atoi (String y1 (String y2 (String y3 (String y4 EmptyString))))) as [v |] eqn:Ev;
    [| discriminate Y2].
  apply Z.eqb_eq in Y2. subst v.
  exists y1, y2, y3, y4, m1, m2, d1, d2.
  repeat (split; [first [reflexivity | assumption] |]). assumption.
Qed.

Lemma daysIn_at_most_31 m y : 1 <= m <= 12 -> time.daysIn m y <= 31.
Proof.
  intros Hm. unfold time.daysIn.
  destruct ((m =? time.February) && time.isLeap y); [lia |].
  assert (Hc : m = 1 \/ m = 2 \/ m = 3 \/ m = 4 \/ m = 5 \/ m = 6 \/ m = 7
               \/ m = 8 \/ m = 9 \/ m = 10 \/ m = 11 \/ m = 12) by lia.
  repeat (destruct Hc as [-> | Hc]; [vm_compute; discriminate |]).
  subst m. vm_compute. discriminate.
Qed.

Lemma Parse_done other layout value y m d :
  time.parse_loop (S (String.length layout)) layout value layout value 0 (-1) (-1)
  = time.Done y m d ->
  1 <= m <= 12 -> 1 <= d <= time.daysIn m y ->
  time.Parse other layout value = (time.Date y m d 0 0 0 0 time.UTC, None).
Proof.
  intros E Hm Hd. unfold time.Parse. rewrite E.
  destruct (Z.ltb_spec m 0); [lia |].
  destruct (Z.ltb_spec d 0); [lia |].
  destruct (Z.ltb_spec d 1); [lia |].
  rewrite Z.gtb_ltb.
  destruct (Z.ltb_spec (time.daysIn m y) d); [lia |].
  reflexivity.
Qed.

Lemma Parse_failed other layout value :
  failed (time.parse_loop (S (String.length layout)) layout value layout value 0 (-1) (-1)) ->
  rejects (time.Parse other) layout value.
Proof.
  intros [e E]. unfold rejects, time.Parse. rewrite E. exists time.zeroTime, e. reflexivity.
Qed.

Lemma lookup_short_month m r :
  1 <= m <= 12 ->
  (exists c n, short_month_name m = String c n /\ Ascii.eqb c " " = false)
  /\ time.lookup time.shortMonthNames (short_month_name m ++ r) 0 = Some (m - 1, r).
Proof.
  intros Hm.
  assert (Hc : m = 1 \/ m = 2 \/ m = 3 \/ m = 4 \/ m = 5 \/ m = 6 \/ m = 7
               \/ m = 8 \/ m = 9 \/ m = 10 \/ m = 11 \/ m = 12) by lia.
  clear Hm.
  repeat (destruct Hc as [-> | Hc];
          [split; [eexists; eexists; split; reflexivity | destruct r; reflexivity] |]).
  subst m. split; [eexists; eexists; split; reflexivity | destruct r; reflexivity].
Qed.

Lemma skip_space_name c n :
  Ascii.eqb c " " = false ->
  time.skip (String " " (String c n)) " " = (String c n, true).
Proof.
  intros Hc. unfold time.skip. cbn [String.length time.skip_loop].
  change (Ascii.eqb " " " ") with true. cbv iota.
  unfold time.byte_at, time.is_byte. cbn [String.get].
  change (Ascii.eqb " " " ") with true. cbn [negb andb time.cutspace].
  change (Ascii.eqb " " " ") with true. cbv iota.
  rewrite Hc. reflexivity.
Qed.

Section Spellings.

Variable other : time.parser.
Variables (y m d : Z).
Hypothesis Hy : 1000 <= y <= 9999.
Hypothesis Hm : 1 <= m <= 12.
Hypothesis Hd : 1 <= d <= time.daysIn m y.

Lemma slash_text_not_hyphens :
  rejects (time.Parse other) "2006-01-02"
    (slash_text {| date.Year := y; date.Month := m; date.Day := d |}).
Proof.
  pose proof (daysIn_at_most_31 m y Hm) as H31.
  destruct (canonical_fields y m d Hy ltac:(lia) ltac:(lia))
    as (y1 & y2 & y3 & y4 & m1 & m2 & d1 & d2 & Fy & Fm & Fd & Y1 & Ay & M1 & M2 & Em
        & D1 & D2 & Ed).
  apply Parse_failed. unfold slash_text. cbn [date.Year date.Month date.Day].
  rewrite Fy, Fm, Fd. cbn [append].
  change (S (String.length "2006-01-02")) with 11%nat.
  erewrite step_LongYear; [| vm_compute; reflexivity | reflexivity | exact Y1 | exact Ay].
  match goal with |- failed ?R =>
    destruct (back_ZeroMonth 9 _ _ "-01-02" _ "-" "-02" _ _ _ R
                ltac:(vm_compute; reflexivity) eq_refl)
      as [F | (a & b & r & S2 & _)]; [exact F |]
  end.
  apply skip_hyphen in S2. discriminate S2.
Qed.

Lemma slash_text_slashes :
  accepts (time.Parse other) "2006/01/02"
    (slash_text {| date.Year := y; date.Month := m; date.Day := d |})
    (midnight {| date.Year := y; date.Month := m; date.Day := d |}).
Proof.
  pose proof (daysIn_at_most_31 m y Hm) as H31.
  destruct (canonical_fields y m d Hy ltac:(lia) ltac:(lia))
    as (y1 & y2 & y3 & y4 & m1 & m2 & d1 & d2 & Fy & Fm & Fd & Y1 & Ay & M1 & M2 & Em
        & D1 & D2 & Ed).
  unfold accepts. apply Parse_done; [| exact Hm | exact Hd].
  unfold slash_text. cbn [date.Year date.Month date.Day].
  rewrite Fy, Fm, Fd. cbn [append].
  change (S (String.length "2006/01/02")) with 11%nat.
  erewrite step_LongYear; [| vm_compute; reflexivity | reflexivity | exact Y1 | exact Ay].
  erewrite step_ZeroMonth; [| vm_compute; reflexivity | reflexivity | exact M1 | exact M2 | lia].
  erewrite step_ZeroDay; [| vm_compute; reflexivity | reflexivity | exact D1 | exact D2].
  erewrite step_end; [| vm_compute; reflexivity | reflexivity].
  rewrite Em, Ed. reflexivity.
Qed.

Lemma day_first_not_year (k : nat) al av layout suffix d1 d2 r y0 m0 d0 :
  time.nextStdChunk layout = (EmptyString, time.stdLongYear, suffix) ->
  failed (time.parse_loop (S k) al av layout (String d1 (String d2 (String " " r)))
            y0 m0 d0).
Proof.
  intros Hc.
  match goal with |- failed ?R =>
    destruct (back_LongYear k al av layout _ EmptyString suffix y0 m0 d0 R Hc eq_refl)
      as [F | (a & b & c & e & r' & y' & S1 & A & Ay & _)]; [exact F |]
  end.
  apply skip_nothing in S1. injection S1 as E1 E2 E3 _.
  destruct (atoi_four _ _ _ _ _ A Ay) as (_ & C & _).
  rewrite <- E3 in C. discriminate C.
Qed.

Lemma day_month_year_text_not_hyphens :
  rejects (time.Parse other) "2006-01-02"
    (day_month_year_text {| date.Year := y; date.Month := m; date.Day := d |}).
Proof.
  pose proof (daysIn_at_most_31 m y Hm) as H31.
  destruct (canonical_fields y m d Hy ltac:(lia) ltac:(lia))
    as (y1 & y2 & y3 & y4 & m1 & m2 & d1 & d2 & Fy & Fm & Fd & Y1 & Ay & M1 & M2 & Em
        & D1 & D2 & Ed).
  apply Parse_failed. unfold day_month_year_text. cbn [date.Year date.Month date.Day].
  rewrite Fd. cbn [append].
  apply day_first_not_year with (suffix := "-01-02"). vm_compute. reflexivity.
Qed.

Lemma day_month_year_text_not_slashes :
  rejects (time.Parse other) "2006/01/02"
    (day_month_year_text {| date.Year := y; date.Month := m; date.Day := d |}).
Proof.
  pose proof (daysIn_at_most_31 m y Hm) as H31.
  destruct (canonical_fields y m d Hy ltac:(lia) ltac:(lia))
    as (y1 & y2 & y3 & y4 & m1 & m2 & d1 & d2 & Fy & Fm & Fd & Y1 & Ay & M1 & M2 & Em
        & D1 & D2 & Ed).
  apply Parse_failed. unfold day_month_year_text. cbn [date.Year date.Month date.Day].
  rewrite Fd. cbn [append].
  apply day_first_not_year with (suffix := "/01/02"). vm_compute. reflexivity.
Qed.

Lemma day_month_year_text_accepted :
  accepts (time.Parse other) "02 Jan 2006"
    (day_month_year_text {| date.Year := y; date.Month := m; date.Day := d |})
    (midnight {| date.Year := y; date.Month := m; date.Day := d |}).
Proof.
  pose proof (daysIn_at_most_31 m y Hm) as H31.
  destruct (canonical_fields y m d Hy ltac:(lia) ltac:(lia))
    as (y1 & y2 & y3 & y4 & m1 & m2 & d1 & d2 & Fy & Fm & Fd & Y1 & Ay & M1 & M2 & Em
        & D1 & D2 & Ed).
  destruct (lookup_short_month m
              (String " " (String y1 (String y2 (String y3 (String y4 EmptyString))))) Hm)
    as [(c & n & En & Ec) Hl].
  unfold accepts. apply Parse_done; [| exact Hm | exact Hd].
  unfold day_month_year_text. cbn [date.Year date.Month date.Day].
  rewrite Fy, Fd. cbn [append].
  change (S (String.length "02 Jan 2006")) with 12%nat.
  erewrite step_ZeroDay; [| vm_compute; reflexivity | reflexivity | exact D1 | exact D2].
  erewrite step_Month;
    [| vm_compute; reflexivity
     | rewrite En; cbn [append]; apply skip_space_name; exact Ec
     | rewrite En in Hl; cbn [append] in Hl; exact Hl].
  erewrite step_LongYear;
    [| vm_compute; reflexivity | apply skip_space_digit; exact Y1 | exact Y1 | exact Ay].
  erewrite step_end; [| vm_compute; reflexivity | reflexivity].
  rewrite Ed. replace (m - 1 + 1) with m by ring. reflexivity.
Qed.

End Spellings.

(** X18: UnmarshalText reads the three spellings of a date of the calendar
    with a year of four digits, YYYY-MM-DD, YYYY/MM/DD and DD Mon YYYY, as
    that same date, and so does [Scan] from a string. *)
Theorem UnmarshalText_reads_three_spellings :
  forall (other : time.parser) (d0 d : date.Date),
    four_digit_year d -> valid_date d ->
    date.UnmarshalText (time.Parse other) d0 (bytes_of_string (date.String d)) = (d, None)
    /\ date.UnmarshalText (time.Parse other) d0 (bytes_of_string (slash_text d)) = (d, None)
    /\ date.UnmarshalText (time.Parse other) d0 (bytes_of_string (day_month_year_text d))
       = (d, None)
    /\ date.Scan (time.Parse other) d0 (date.any_string (slash_text d)) = (d, None)
    /\ date.Scan (time.Parse other) d0 (date.any_string (day_month_year_text d)) = (d, None).
Proof.
  intros other d0 d Hy Hv. pose proof Hv as [Hm Hd].
  destruct d as [y m dd]. unfold four_digit_year in Hy.
  cbn [date.Year date.Month date.Day] in Hy, Hm, Hd.
  set (D := {| date.Year := y; date.Month := m; date.Day := dd |}) in *.
  assert (S2 : date.UnmarshalText (time.Parse other) d0 (bytes_of_string (slash_text D))
               = (D, None)).
  { rewrite <- (Of_midnight_small D Hv ltac:(unfold D; cbn [date.Year]; lia)) at 2.
    apply UnmarshalText_second; unfold bytes_of_string, string_of_bytes;
      rewrite string_of_list_ascii_of_string.
    - apply slash_text_not_hyphens; assumption.
    - apply slash_text_slashes; assumption. }
  assert (S3 : date.UnmarshalText (time.Parse other) d0
                 (bytes_of_string (day_month_year_text D)) = (D, None)).
  { rewrite <- (Of_midnight_small D Hv ltac:(unfold D; cbn [date.Year]; lia)) at 2.
    apply UnmarshalText_third; unfold bytes_of_string, string_of_bytes;
      rewrite string_of_list_ascii_of_string.
    - apply day_month_year_text_not_hyphens; assumption.
    - apply day_month_year_text_not_slashes; assumption.
    - apply day_month_year_text_accepted; assumption. }
  split; [apply UnmarshalText_String; assumption |].
  split; [exact S2 |]. split; [exact S3 |].
  split; cbn [date.Scan]; assumption.
Qed.

Lemma UnmarshalText_three_spellings_witness :
  date.UnmarshalText (time.Parse no_other) date.zeroDate
    (bytes_of_string (date.String {| date.Year := 2008; date.Month := 2; date.Day := 29 |}))
  = ({| date.Year := 2008; date.Month := 2; date.Day := 29 |}, None)
  /\ date.UnmarshalText (time.Parse no_other) date.zeroDate
       (bytes_of_string (slash_text {| date.Year := 2008; date.Month := 2; date.Day := 29 |}))
     = ({| date.Year := 2008; date.Month := 2; date.Day := 29 |}, None)
  /\ date.UnmarshalText (time.Parse no_other) date.zeroDate
       (bytes_of_string
          (day_month_year_text {| date.Year := 2008; date.Month := 2; date.Day := 29 |}))
     = ({| date.Year := 2008; date.Month := 2; date.Day := 29 |}, None)
  /\ date.Scan (time.Parse no_other) date.zeroDate
       (date.any_string (slash_text {| date.Year := 2008; date.Month := 2; date.Day := 29 |}))
     = ({| date.Year := 2008; date.Month := 2; date.Day := 29 |}, None)
  /\ date.Scan (time.Parse no_other) date.zeroDate
       (date.any_string
          (day_month_year_text {| date.Year := 2008; date.Month := 2; date.Day := 29 |}))
     = ({| date.Year := 2008; date.Month := 2; date.Day := 29 |}, None).
Proof.
  apply (UnmarshalText_reads_three_spellings no_other date.zeroDate
           {| date.Year := 2008; date.Month := 2; date.Day := 29 |}).
  - unfold four_digit_year. cbn [date.Year]. lia.
  - unfold valid_date. cbn [date.Year date.Month date.Day].
    change (time.daysIn 2 2008) with 29. lia.
Defined.

(** X19: In src/date.go, [Scan] reads a byte sequence with the layout
    2006-01-02 alone: the bytes of [String] give the date back, the two
    other spellings that [UnmarshalText] reads give an error and leave the
    receiver as it was. *)
Theorem date_go_Scan_bytes_hyphens_only :
  forall (other : time.parser) (d0 d : date.Date),
    four_digit_year d -> valid_date d ->
    date_go.Scan (time.Parse other) d0 (date.any_bytes (bytes_of_string (date.String d)))
    = (d, None)
    /\ (exists e,
          date_go.Scan (time.Parse other) d0
            (date.any_bytes (bytes_of_string (slash_text d)))
          = (d0, Some (date.ParseError e)))
    /\ (exists e,
          date_go.Scan (time.Parse other) d0
            (date.any_bytes (bytes_of_string (day_month_year_text d)))
          = (d0, Some (date.ParseError e))).
Proof.
  intros other d0 d Hy Hv. pose proof Hv as [Hm Hd].
  unfold date_go.Scan, bytes_of_string, string_of_bytes.
  rewrite !string_of_list_ascii_of_string.
  split; [| split].
  - unfold date.String. rewrite (Parse_canonical other _ _ _ Hy Hm Hd).
    fold (midnight d). fold (date.Of (midnight d)). apply f_equal2; [| reflexivity].
    apply Of_midnight_small; [exact Hv | unfold four_digit_year in Hy; lia].
  - destruct d as [y m dd].
    destruct (slash_text_not_hyphens other y m dd Hy Hm Hd) as (t & e & E).
    rewrite E. exists e. reflexivity.
  - destruct d as [y m dd].
    destruct (day_month_year_text_not_hyphens other y m dd Hy Hm Hd) as (t & e & E).
    rewrite E. exists e. reflexivity.
Qed.

Lemma date_go_Scan_bytes_witness :
  date_go.Scan (time.Parse no_other) date.zeroDate
    (date.any_bytes
       (bytes_of_string (date.String {| date.Year := 2009; date.Month := 11; date.Day := 15 |})))
  = ({| date.Year := 2009; date.Month := 11; date.Day := 15 |}, None)
  /\ (exists e,
        date_go.Scan (time.Parse no_other) date.zeroDate
          (date.any_bytes
             (bytes_of_string
                (slash_text {| date.Year := 2009; date.Month := 11; date.Day := 15 |})))
        = (date.zeroDate, Some (date.ParseError e)))
  /\ (exists e,
        date_go.Scan (time.Parse no_other) date.zeroDate
          (date.any_bytes
             (bytes_of_string
                (day_month_year_text {| date.Year := 2009; date.Month := 11; date.Day := 15 |})))
        = (date.zeroDate, Some (date.ParseError e))).
Proof.
  apply (date_go_Scan_bytes_hyphens_only no_other date.zeroDate
           {| date.Year := 2009; date.Month := 11; date.Day := 15 |}).
  - unfold four_digit_year. cbn [date.Year]. lia.
  - unfold valid_date. cbn [date.Year date.Month date.Day].
    change (time.daysIn 11 2009) with 30. lia.
Defined.
